(** * Chrome history analyzer: a shallow embedding and its verified properties

    The three scripts of the repository are embedded function by function:

    - [chrome_history_analyzer]: [get_chrome_history_path],
      [extract_chrome_history], [analyze_browsing_patterns],
      [generate_llm_prompt], [save_output], [main];
    - [llm_integration]: the three backends, [save_insights] and [main];
    - [daily_summary]: [generate_daily_summary].

    Python exceptions are values of [exn]; code that only computes lives in
    the error monad [except], code that prints or touches files lives in
    [IO], a state-and-error monad over [World] (the regular files of the file
    system and the trace of observable events).  What the scripts obtain from
    outside the interpreter (operating system, SQLite, pandas rendering, HTTP
    services, child processes) is read from explicit records of inputs.

    The extractor and [main] are embedded twice.  [extract_chrome_history]
    and [main] describe a run in tidy surroundings: a temporary path that is
    free or a regular file, a system that lets an open file be removed, a
    database with a rollback journal, URLs that [urlparse] accepts, and
    arguments already parsed.  [extract_chrome_history_in] and [main_in]
    follow the same lines on any machine, over a [Machine] that also records
    whether a connection holds the copy open and [Surroundings] that say
    what stands at the temporary path; lemma [extract_in_tidy] shows that
    the two agree in tidy surroundings. *)

From stdpp Require Import gmap strings list pretty sorting.
From Stdlib Require Import ZArith QArith Lia.

#[local] Set Warnings "-register-all,-clear-no-such-hyp".
Open Scope Z_scope.

(** ** Python values and exceptions *)

(** The objects that cross the interfaces modelled here: [None], and what
    [json()] can hand back (JSON numbers are kept to integers). *)
Inductive pyobj :=
| PyNone
| PyBool (b : bool)
| PyInt (z : Z)
| PyStr (s : string)
| PyList (elems : list pyobj)
| PyDict (items : list (string * pyobj)).

(** Truth value of an object, as tested by [if insights:]. *)
Definition truthy (o : pyobj) : bool :=
  match o with
  | PyNone => false
  | PyBool b => b
  | PyInt z => negb (z =? 0)
  | PyStr s => negb (String.eqb s "")
  | PyList l => match l with [] => false | _ => true end
  | PyDict d => match d with [] => false | _ => true end
  end.

(** [d.get(key, default)] on the items of a dict. *)
Fixpoint dict_get (items : list (string * pyobj)) (key : string) (default : pyobj) : pyobj :=
  match items with
  | [] => default
  | (k, v) :: rest => if String.eqb k key then v else dict_get rest key default
  end.

(** The exception classes the scripts raise or catch.  [SystemExit] derives
    from [BaseException] only; every other class here derives from
    [Exception].  [Exception_] stands for any further subclass of
    [Exception] (OSError, pandas' DatabaseError, a requests error, ...). *)
Inductive exn :=
| SystemExit (code : Z)
| TypeError (msg : string)
| OSError (msg : string)
| sqlite3_Error (msg : string)
| CalledProcessError (returncode : Z)
| ImportError (name : string)
| OverflowError (msg : string)
| Exception_ (msg : string).

(** Whether [except Exception] catches the exception. *)
Definition is_Exception (e : exn) : bool :=
  match e with
  | SystemExit _ => false
  | _ => true
  end.

(** Whether [except sqlite3.Error] catches the exception. *)
Definition is_sqlite3_Error (e : exn) : bool :=
  match e with
  | sqlite3_Error _ => true
  | _ => false
  end.

(** Whether [except ImportError] catches the exception. *)
Definition is_ImportError (e : exn) : bool :=
  match e with
  | ImportError _ => true
  | _ => false
  end.

(** [str(e)], as interpolated by the f-strings of the handlers. *)
Definition exn_str (e : exn) : string :=
  match e with
  | SystemExit code => pretty code
  | TypeError msg | OSError msg | sqlite3_Error msg | OverflowError msg
  | Exception_ msg => msg
  | CalledProcessError rc =>
      "Command returned non-zero exit status " +:+ pretty rc +:+ "."
  | ImportError name => "No module named '" +:+ name +:+ "'"
  end.

(** Exit status of the interpreter when a script's top level ends with the
    given result: 0 on a normal end, the code of an uncaught [SystemExit],
    1 after the traceback of any other uncaught exception. *)
Definition exit_status {A} (r : exn + A) : Z :=
  match r with
  | inr _ => 0
  | inl (SystemExit code) => code
  | inl _ => 1
  end.

(** ** The error monad of pure code *)

Definition except (A : Type) : Type := exn + A.

Definition Ok {A} (a : A) : except A := inr a.
Definition Raise {A} (e : exn) : except A := inl e.

#[global] Instance except_ret : MRet except := λ A a, inr a.

#[global] Instance except_bind : MBind except := λ A B k m,
  match m with
  | inl e => inl e
  | inr a => k a
  end.

(** ** The world and the monad of effectful code *)

(** Observable events, oldest first in a trace. *)
Inductive event :=
| EvPrint (line : pyobj)          (* print(line) *)
| EvWrite (path : string)         (* a file created or truncated for writing *)
| EvRemove (path : string)        (* a file removed: os.remove(path), or by SQLite *)
| EvSpawn (cmd : list string).    (* subprocess.run(cmd) *)

(** Regular files (path to content) and the trace so far.  Directories are
    not represented: [mkdir(exist_ok=True)] changes no regular file.  What
    else a run of the extractor may meet (a directory or a link at its
    temporary path, a file held open) is recorded beside the World, in
    [chrome_history_analyzer.Surroundings] and
    [chrome_history_analyzer.Machine]. *)
Record World := mkWorld {
  fs : gmap string string;
  trace : list event;
}.

Definition IO (A : Type) : Type := World → (exn + A) * World.

#[global] Instance IO_ret : MRet IO := λ A a w, (inr a, w).

#[global] Instance IO_bind : MBind IO := λ A B k m w,
  match m w with
  | (inl e, w') => (inl e, w')
  | (inr a, w') => k a w'
  end.

Definition raise {A} (e : exn) : IO A := λ w, (inl e, w).

(** A pure computation run inside effectful code. *)
Definition lift {A} (m : except A) : IO A := λ w, (m, w).

(** [try: body / except ...: handler]: [handler e] is [Some h] when one of
    the clauses catches [e], and then [h] runs in the world the body left. *)
Definition try_except {A} (body : IO A) (handler : exn → option (IO A)) : IO A := λ w,
  match body w with
  | (inl e, w') =>
      match handler e with
      | Some h => h w'
      | None => (inl e, w')
      end
  | (inr a, w') => (inr a, w')
  end.

(** [try: body / finally: cleanup]: the cleanup runs on every exit of the
    body; an exception of the cleanup replaces the body's result. *)
Definition try_finally {A} (body : IO A) (cleanup : IO unit) : IO A := λ w,
  let '(r, w') := body w in
  match cleanup w' with
  | (inl e, w'') => (inl e, w'')
  | (inr _, w'') => (r, w'')
  end.

Definition emit (e : event) : IO unit := λ w,
  (inr tt, mkWorld (fs w) (trace w ++ [e])).

Definition print (line : string) : IO unit := emit (EvPrint (PyStr line)).
Definition print_obj (o : pyobj) : IO unit := emit (EvPrint o).

Definition sys_exit {A} (code : Z) : IO A := raise (SystemExit code).

(** [Path.exists] / [os.path.exists]. *)
Definition path_exists (p : string) : IO bool := λ w,
  (inr (bool_decide (is_Some (fs w !! p))), w).

(** The content of an existing file ([open(p, "r")] then [read()]). *)
Definition read_file (p : string) : IO string := λ w,
  match fs w !! p with
  | Some c => (inr c, w)
  | None => (inl (OSError ("No such file or directory: " +:+ p)), w)
  end.

(** [open(p, "w")]: the file is created, or truncated when it exists. *)
Definition open_w (p : string) : IO unit := λ w,
  (inr tt, mkWorld (<[p := ""]> (fs w)) (trace w ++ [EvWrite p])).

(** [f.write(s)] on a file open for writing: the text is appended. *)
Definition write (p s : string) : IO unit := λ w,
  (inr tt, mkWorld (<[p := default "" (fs w !! p) +:+ s]> (fs w)) (trace w)).

(** [os.remove(p)] of a path that is free or a regular file which no
    process holds open; [chrome_history_analyzer.remove_in] is the call in
    general. *)
Definition os_remove (p : string) : IO unit := λ w,
  match fs w !! p with
  | Some _ => (inr tt, mkWorld (delete p (fs w)) (trace w ++ [EvRemove p]))
  | None => (inl (OSError ("No such file or directory: " +:+ p)), w)
  end.

(** [mkdir(exist_ok=True)]: no regular file changes. *)
Definition mkdir (p : string) : IO unit := mret tt.

(** The newline character. *)
Definition nl : string := String (Ascii.ascii_of_nat 10) "".

(** The events a run added to the trace it started from. *)
Definition new_events (before after : World) : list event :=
  drop (length (trace before)) (trace after).

Definition is_write_of (p : string) (e : event) : bool :=
  match e with
  | EvWrite q => String.eqb q p
  | _ => false
  end.

Definition is_remove_of (p : string) (e : event) : bool :=
  match e with
  | EvRemove q => String.eqb q p
  | _ => false
  end.

Definition printed (evs : list event) : list pyobj :=
  omap (λ e, match e with EvPrint o => Some o | _ => None end) evs.

(** ** The pandas operations the analyzer uses *)

(** A float as the scripts see one: [nan], or a finite value kept as the
    exact quotient that the float approximates. *)
Inductive pyfloat :=
| NaN
| Finite (q : Q).

(** The cells and the shape of a frame handed to [DataFrame.to_string]. *)
Inductive cell :=
| CInt (z : Z)
| CStr (s : string)
| CTime (t : Z)
| CNone.

Record DataFrame := mkFrame {
  columns : list string;
  rows : list (list cell);
}.

(** What the interpreter's libraries compute and this development does not
    re-implement. *)
Record Libs := mkLibs {
  (* urllib.parse.urlparse(url).netloc *)
  netloc : string → string;
  (* DataFrame.to_string() under the default display options *)
  to_string : DataFrame → string;
  (* format(x, ".2f") *)
  format_2f : pyfloat → string;
  (* the row order chosen by the sorting kernel of sort_values for the given
     [ascending] flag and key column: positions into the frame *)
  nargsort : bool → list Z → list nat;
}.

(** One more occurrence of key [k] in a table of counts kept in key order. *)
Fixpoint tally {K} (cmp : K → K → comparison) (k : K) (acc : list (K * nat)) : list (K * nat) :=
  match acc with
  | [] => [(k, 1%nat)]
  | (k', c) :: rest =>
      match cmp k k' with
      | Eq => (k', S c) :: rest
      | Lt => (k, 1%nat) :: acc
      | Gt => (k', c) :: tally cmp k rest
      end
  end.

(** [df.groupby(key).size().reset_index(name='count')]: one row per distinct
    key, in key order, with the number of rows of [df] that carry it. *)
Definition groupby_size {R K} (cmp : K → K → comparison) (key : R → K) (df : list R) : list (K * nat) :=
  foldl (λ acc r, tally cmp (key r) acc) [] df.

(** One more value [t] for group [k] in a table of (min, max) per group. *)
Fixpoint widen (k t : Z) (acc : list (Z * (Z * Z))) : list (Z * (Z * Z)) :=
  match acc with
  | [] => [(k, (t, t))]
  | (k', (lo, hi)) :: rest =>
      match k ?= k' with
      | Eq => (k', (Z.min lo t, Z.max hi t)) :: rest
      | Lt => (k, (t, t)) :: acc
      | Gt => (k', (lo, hi)) :: widen k t rest
      end
  end.

(** [df.groupby(key).agg(first=(col, 'min'), last=(col, 'max')).reset_index()]. *)
Definition groupby_min_max {R} (key col : R → Z) (df : list R) : list (Z * (Z * Z)) :=
  foldl (λ acc r, widen (key r) (col r) acc) [] df.

(** [Series.dt.hour] of a timestamp counted in seconds. *)
Definition dt_hour (t : Z) : Z := (t `div` 3600) `mod` 24.

(** [Series.dt.date], as the number of the day. *)
Definition dt_date (t : Z) : Z := t `div` 86400.

Definition day_names : list string :=
  ["Monday"; "Tuesday"; "Wednesday"; "Thursday"; "Friday"; "Saturday"; "Sunday"].

(** [Series.dt.day_name()]: day 0 (1970-01-01) was a Thursday. *)
Definition dt_day_name (t : Z) : string :=
  default "" (day_names !! Z.to_nat ((dt_date t + 3) `mod` 7)).

Definition sum_Z (xs : list Z) : Z := foldr Z.add 0 xs.

(** [Series.mean()] of an integer column: [nan] on an empty column. *)
Definition mean (xs : list Z) : pyfloat :=
  match xs with
  | [] => NaN
  | _ => Finite (sum_Z xs # Pos.of_nat (length xs))
  end.

(** The parameters of [DataFrame.sort_values(by, *, axis, ascending, inplace,
    kind, na_position, ignore_index, key)]. *)
Definition sort_values_params : list string :=
  ["by"; "axis"; "ascending"; "inplace"; "kind"; "na_position"; "ignore_index"; "key"].

Definition kwarg_bool (name : string) (default : bool) (kwargs : list (string * pyobj)) : bool :=
  truthy (dict_get kwargs name (PyBool default)).

(** [frame.sort_values(by, **kwargs)] on a table of counts sorted by its
    count column.  Binding the arguments comes first: a keyword that is not
    a parameter raises [TypeError] before any row is looked at. *)
Definition sort_values {K} (L : Libs) (frame : list (K * nat)) (by_ : string)
    (kwargs : list (string * pyobj)) : except (list (K * nat)) :=
  match List.find (λ kw, negb (bool_decide (kw.1 ∈ sort_values_params))) kwargs with
  | Some (name, _) =>
      Raise (TypeError ("sort_values() got an unexpected keyword argument '" +:+ name +:+ "'"))
  | None =>
      Ok (omap (λ i, frame !! i)
            (nargsort L (kwarg_bool "ascending" true kwargs)
               (map (λ row, Z.of_nat row.2) frame)))
  end.

(** [frame.head(n)]. *)
Definition head {A} (n : nat) (frame : list A) : list A := take n frame.

(** ** chrome_history_analyzer.py *)

Module chrome_history_analyzer.

(** A row of the query result: the visit time is the local time that
    [datetime(..., 'unixepoch', 'localtime')] renders and [pd.to_datetime]
    reads back, counted in seconds from 1970-01-01 00:00:00. *)
Record RawRow := mkRaw {
  raw_visit_time : Z;
  raw_url : string;
  raw_title : option string;
  raw_duration_seconds : Z;
}.

(** A Visit Record: a row of the frame [extract_chrome_history] returns. *)
Record VisitRecord := mkVisit {
  visit_time : Z;
  url : string;
  title : option string;
  duration_seconds : Z;
  hour : Z;
  date : Z;
  day_of_week : string;
  domain : string;
}.

(** How a library call that can fail ends. *)
Inductive fault :=
| SqliteFault (msg : string)      (* an instance of sqlite3.Error *)
| OtherFault (msg : string).      (* any other instance of Exception *)

Definition fault_exn (f : fault) : exn :=
  match f with
  | SqliteFault msg => sqlite3_Error msg
  | OtherFault msg => Exception_ msg
  end.

(** How [shutil.copy2] ends: the copy is complete, or it fails, leaving
    nothing or a partial file at the destination. *)
Inductive copy_outcome :=
| CopyDone
| CopyFailed (partial : option string) (msg : string).

(** The machine a run of the extractor sees. *)
Record Host := mkHost {
  platform_system : string;                 (* platform.system() *)
  home : string;                            (* Path.home() *)
  now_us : Z;                               (* datetime.now(), in microseconds *)
  copy2 : copy_outcome;
  connect : option fault;                   (* sqlite3.connect(temp_copy) *)
  (* pd.read_sql_query on the copied file with the cutoff parameter *)
  read_sql_query : string → Z → fault + list RawRow;
}.

Definition get_chrome_history_path (h : Host) : except string :=
  if String.eqb (platform_system h) "Windows" then
    Ok (home h +:+ "/AppData/Local/Google/Chrome/User Data/Default/History")
  else if String.eqb (platform_system h) "Darwin" then
    Ok (home h +:+ "/Library/Application Support/Google/Chrome/Default/History")
  else if String.eqb (platform_system h) "Linux" then
    Ok (home h +:+ "/.config/google-chrome/Default/History")
  else
    Raise (OSError ("Unsupported operating system: " +:+ platform_system h)).

Definition temp_copy (h : Host) : string := home h +:+ "/history_temp.db".

(** [shutil.copy2(src, dst)] onto a path that is free or a regular file;
    [copy2_in] below is the call in general. *)
Definition shutil_copy2 (h : Host) (src dst : string) : IO unit := λ w,
  match fs w !! src with
  | None => (inl (OSError ("No such file or directory: " +:+ src)), w)
  | Some c =>
      match copy2 h with
      | CopyDone =>
          (inr tt, mkWorld (<[dst := c]> (fs w)) (trace w ++ [EvWrite dst]))
      | CopyFailed (Some part) msg =>
          (inl (OSError msg), mkWorld (<[dst := part]> (fs w)) (trace w ++ [EvWrite dst]))
      | CopyFailed None msg => (inl (OSError msg), w)
      end
  end.

Definition sqlite3_connect (h : Host) (path : string) : IO unit :=
  match connect h with
  | Some f => raise (fault_exn f)
  | None => mret tt
  end.

(** [pd.read_sql_query] on a database that keeps a rollback journal, which
    leaves the files as they are; [read_sql_query_in] below covers WAL
    mode. *)
Definition pd_read_sql_query (h : Host) (path : string) (param : Z) : IO (list RawRow) := λ w,
  match fs w !! path with
  | None => (inl (Exception_ "unable to open database file"), w)
  | Some db =>
      match read_sql_query h db param with
      | inl f => (inl (fault_exn f), w)
      | inr result => (inr result, w)
      end
  end.

(** [conn.close()]. *)
Definition sqlite3_close : IO unit := mret tt.

(** Lines 91-98: the columns derived from [visit_time] and [url], for a
    URL that [urlparse] accepts; [add_columns_in] below covers the
    others. *)
Definition add_columns (L : Libs) (r : RawRow) : VisitRecord :=
  {| visit_time := raw_visit_time r;
     url := raw_url r;
     title := raw_title r;
     duration_seconds := raw_duration_seconds r;
     hour := dt_hour (raw_visit_time r);
     date := dt_date (raw_visit_time r);
     day_of_week := dt_day_name (raw_visit_time r);
     domain := netloc L (raw_url r) |}.

(** [datetime.min] and [datetime.max], in microseconds from 1970-01-01. *)
Definition datetime_min_us : Z := -719162 * 86400 * 1000000.
Definition datetime_max_us : Z := 2932897 * 86400 * 1000000 - 1.

(** Lines 70-71.  [timedelta(days=days)] and the subtraction from
    [datetime.now()] raise [OverflowError] outside their ranges; within them
    the cutoff is computed here exactly (the script goes through the float
    of [total_seconds()]). *)
Definition cutoff_timestamp (h : Host) (days : Z) : except Z :=
  if negb ((-999999999 <=? days) && (days <=? 999999999)) then
    Raise (OverflowError ("days=" +:+ pretty days +:+ "; must have magnitude <= 999999999"))
  else
    let cutoff_date := now_us h - days * 86400 * 1000000 in
    if negb ((datetime_min_us <=? cutoff_date) && (cutoff_date <=? datetime_max_us)) then
      Raise (OverflowError "date value out of range")
    else
      Ok (cutoff_date + 11644473600000000).

(** The extractor in tidy surroundings: the temporary path is free or a
    regular file, a file that is open can be removed (any system but
    Windows), the database keeps a rollback journal and [urlparse] accepts
    every URL.  [extract_chrome_history_in] below is the extractor without
    these assumptions, and the two agree where they hold. *)
Definition extract_chrome_history (L : Libs) (h : Host) (days : Z) : IO (list VisitRecord) :=
  history_db ← lift (get_chrome_history_path h);
  found ← path_exists history_db;
  if negb found then
    print ("Chrome history database not found at " +:+ history_db);;
    print "Please check if Chrome is installed or if the path is correct.";;
    sys_exit 1
  else
    try_finally
      (try_except
         (shutil_copy2 h history_db (temp_copy h);;
          sqlite3_connect h (temp_copy h);;
          cutoff_timestamp ← lift (cutoff_timestamp h days);
          df ← pd_read_sql_query h (temp_copy h) cutoff_timestamp;
          sqlite3_close;;
          mret (map (add_columns L) df))
         (λ e,
            if is_sqlite3_Error e then
              Some (print ("SQLite error: " +:+ exn_str e);; sys_exit 1)
            else if is_Exception e then
              Some (print ("Error: " +:+ exn_str e);; sys_exit 1)
            else None))
      (* finally: clean up the temporary file *)
      (left_behind ← path_exists (temp_copy h);
       if left_behind : bool then os_remove (temp_copy h) else mret tt).

(** *** The extractor on any machine

    The definitions above describe a run on a machine where the temporary
    path is free or a regular file, where a file that is open can still be
    removed, where the database keeps a rollback journal and where
    [urlparse] accepts every URL.  The ones below follow the same lines of
    the source without these assumptions. *)

(** What stands at the temporary path when it is not free and no regular
    file. *)
Inductive obstacle :=
| Directory                      (* a directory *)
| Link (target : string).        (* a symbolic link to [target], itself free or a regular file *)

(** What a run of the extractor meets that neither the Host nor the
    regular files of a World record. *)
Record Surroundings := mkSurroundings {
  at_temp : option obstacle;
  (* the contents of the -wal and -shm files that SQLite creates beside a
     database of the given content when it first reads it; None for a
     database that keeps a rollback journal *)
  wal : string → option (string * string);
  (* the message of the ValueError that urlparse raises on a URL, if it
     raises one *)
  urlparse_error : string → option string;
  (* the message of the OSError with which the system refuses to remove
     what is at the temporary path for a reason of its own (the
     permissions of the directory, say), if it refuses *)
  removal_refused : option string;
}.

(** A World together with what it does not record: whether a connection
    holds the database file open. *)
Record Machine := mkMachine {
  world : World;
  held_open : bool;
}.

Definition Run (A : Type) : Type := Machine → (exn + A) * Machine.

#[global] Instance Run_ret : MRet Run := λ A a m, (inr a, m).

#[global] Instance Run_bind : MBind Run := λ A B k r m,
  match r m with
  | (inl e, m') => (inl e, m')
  | (inr a, m') => k a m'
  end.

(** An effect on the World alone. *)
Definition io {A} (act : IO A) : Run A := λ m,
  let '(r, w') := act (world m) in (r, mkMachine w' (held_open m)).

(** [try_except] and [try_finally] on a Machine. *)
Definition try_except_in {A} (body : Run A) (handler : exn → option (Run A)) : Run A := λ m,
  match body m with
  | (inl e, m') =>
      match handler e with
      | Some h => h m'
      | None => (inl e, m')
      end
  | (inr a, m') => (inr a, m')
  end.

Definition try_finally_in {A} (body : Run A) (cleanup : Run unit) : Run A := λ m,
  let '(r, m') := body m in
  match cleanup m' with
  | (inl e, m'') => (inl e, m'')
  | (inr _, m'') => (r, m'')
  end.

(** [shutil.copy2(src, dst)] with [dst] the temporary path: the copy lands
    in a directory under the base name of [src] (which is History on every
    platform, lines 33-37), and goes through a link to its target;
    [SameFileError] when that target is [src] itself. *)
Definition copy2_in (s : Surroundings) (h : Host) (src dst : string) : Run unit :=
  match at_temp s with
  | None => io (shutil_copy2 h src dst)
  | Some Directory => io (shutil_copy2 h src (dst +:+ "/History"))
  | Some (Link target) =>
      if bool_decide (target = src) then
        io (raise (OSError (src +:+ " and " +:+ dst +:+ " are the same file")))
      else io (shutil_copy2 h src target)
  end.

(** A connection takes hold of the database file, or lets go of it. *)
Definition hold (open : bool) : Run unit := λ m, (inr tt, mkMachine (world m) open).

(** [sqlite3.connect(path)]: a directory cannot be opened; a connection
    that is made holds the file open until it is closed. *)
Definition connect_in (s : Surroundings) (h : Host) (path : string) : Run unit :=
  match at_temp s with
  | Some Directory => io (raise (sqlite3_Error "unable to open database file"))
  | _ => io (sqlite3_connect h path);; hold true
  end.

(** The regular file a connection to [path] reads. *)
Definition database_file (s : Surroundings) (path : string) : string :=
  match at_temp s with
  | Some (Link target) => target
  | _ => path
  end.

(** [pd.read_sql_query]: SQLite reads the database, creating the -wal and
    -shm files beside it when it is in WAL mode, and the query ends as the
    Host says. *)
Definition read_sql_query_in (s : Surroundings) (h : Host) (path : string) (param : Z)
    : Run (list RawRow) :=
  io (λ w,
    let file := database_file s path in
    match fs w !! file with
    | None => (inl (Exception_ "unable to open database file"), w)
    | Some db =>
        let w1 :=
          match wal s db with
          | Some (wal_content, shm_content) =>
              mkWorld (<[file +:+ "-shm" := shm_content]>
                         (<[file +:+ "-wal" := wal_content]> (fs w)))
                      (trace w ++ [EvWrite (file +:+ "-wal"); EvWrite (file +:+ "-shm")])
          | None => w
          end in
        match read_sql_query h db param with
        | inl f => (inl (fault_exn f), w1)
        | inr result => (inr result, w1)
        end
    end).

(** [conn.close()]: the last connection to a database in WAL mode removes
    the -wal and -shm files, and the file is no longer held open. *)
Definition close_in (s : Surroundings) (path : string) : Run unit :=
  io (λ w,
    let file := database_file s path in
    match fs w !! file with
    | Some db =>
        match wal s db with
        | Some _ =>
            (inr tt,
             mkWorld (delete (file +:+ "-shm") (delete (file +:+ "-wal") (fs w)))
                     (trace w ++ [EvRemove (file +:+ "-wal"); EvRemove (file +:+ "-shm")]))
        | None => (inr tt, w)
        end
    | None => (inr tt, w)
    end);;
  hold false.

(** [urlparse(x).netloc], which raises [ValueError] on some URLs. *)
Definition netloc_in (s : Surroundings) (L : Libs) (x : string) : except string :=
  match urlparse_error s x with
  | Some msg => Raise (Exception_ msg)
  | None => Ok (netloc L x)
  end.

(** [column.apply(f)]: the first exception of [f] ends it. *)
Fixpoint apply {A B} (f : A → except B) (column : list A) : except (list B) :=
  match column with
  | [] => Ok []
  | x :: rest =>
      y ← f x;
      ys ← apply f rest;
      Ok (y :: ys)
  end.

(** Lines 91-98 on a frame: the columns derived from [visit_time], then the
    domain of every URL. *)
Definition add_columns_in (s : Surroundings) (L : Libs) (df : list RawRow)
    : except (list VisitRecord) :=
  domains ← apply (netloc_in s L) (map raw_url df);
  Ok (zip_with (λ r d,
                  {| visit_time := raw_visit_time r;
                     url := raw_url r;
                     title := raw_title r;
                     duration_seconds := raw_duration_seconds r;
                     hour := dt_hour (raw_visit_time r);
                     date := dt_date (raw_visit_time r);
                     day_of_week := dt_day_name (raw_visit_time r);
                     domain := d |}) df domains).

(** [temp_copy.exists()]: true of a directory, and of a link whose target
    exists. *)
Definition exists_in (s : Surroundings) (path : string) : Run bool :=
  match at_temp s with
  | None => io (path_exists path)
  | Some Directory => mret true
  | Some (Link target) => io (path_exists target)
  end.

(** [os.remove(path)]: refused on a directory, on Windows on a file that
    a connection holds open, and wherever the system refuses for a reason
    of its own; on a link it removes the link and leaves the target. *)
Definition remove_in (s : Surroundings) (h : Host) (path : string) : Run unit := λ m,
  match at_temp s with
  | Some Directory => (inl (OSError ("Is a directory: " +:+ path)), m)
  | Some (Link _) =>
      match removal_refused s with
      | Some msg => (inl (OSError msg), m)
      | None => io (emit (EvRemove path)) m
      end
  | None =>
      if held_open m && String.eqb (platform_system h) "Windows" then
        (inl (OSError ("The process cannot access the file because it is being used by "
                         +:+ "another process: " +:+ path)), m)
      else
        match removal_refused s with
        | Some msg => (inl (OSError msg), m)
        | None => io (os_remove path) m
        end
  end.

Definition extract_chrome_history_in (s : Surroundings) (L : Libs) (h : Host) (days : Z)
    : Run (list VisitRecord) :=
  history_db ← io (lift (get_chrome_history_path h));
  found ← io (path_exists history_db);
  if negb found then
    io (print ("Chrome history database not found at " +:+ history_db));;
    io (print "Please check if Chrome is installed or if the path is correct.");;
    io (sys_exit 1)
  else
    try_finally_in
      (try_except_in
         (copy2_in s h history_db (temp_copy h);;
          connect_in s h (temp_copy h);;
          cutoff_timestamp ← io (lift (cutoff_timestamp h days));
          df ← read_sql_query_in s h (temp_copy h) cutoff_timestamp;
          close_in s (temp_copy h);;
          io (lift (add_columns_in s L df)))
         (λ e,
            if is_sqlite3_Error e then
              Some (io (print ("SQLite error: " +:+ exn_str e));; io (sys_exit 1))
            else if is_Exception e then
              Some (io (print ("Error: " +:+ exn_str e));; io (sys_exit 1))
            else None))
      (* finally: clean up the temporary file *)
      (left_behind ← exists_in s (temp_copy h);
       if left_behind : bool then remove_in s h (temp_copy h) else mret tt).

(** The dictionary [analyze_browsing_patterns] returns; each list holds
    the records of [to_dict('records')] as (key, count) pairs. *)
Record AnalysisResults := mkAnalysis {
  hourly_activity : list (Z * nat);
  daily_activity : list (string * nat);
  top_domains : list (string * nat);
  avg_first_hour : pyfloat;
  avg_last_hour : pyfloat;
}.

(** Lines 132-152: what follows the computation of [domain_counts]. *)
Definition summarize (df : list VisitRecord) (hourly_activity : list (Z * nat))
    (daily_activity domain_counts : list (string * nat)) : AnalysisResults :=
  let daily_first_last := groupby_min_max date visit_time df in
  let first_hour := map (λ d, dt_hour d.2.1) daily_first_last in
  let last_hour := map (λ d, dt_hour d.2.2) daily_first_last in
  {| hourly_activity := hourly_activity;
     daily_activity := daily_activity;
     top_domains := head 20 domain_counts;
     avg_first_hour := mean first_hour;
     avg_last_hour := mean last_hour |}.

Definition analyze_browsing_patterns (L : Libs) (df : list VisitRecord) : except AnalysisResults :=
  let hourly_activity := groupby_size Z.compare hour df in
  let daily_activity := groupby_size String.compare day_of_week df in
  domain_counts ←
    sort_values L (groupby_size String.compare domain df) "count"
      [("descending", PyBool true)];
  Ok (summarize df hourly_activity daily_activity domain_counts).

(** [pd.DataFrame(records)] for a list of (key, count) records. *)
Definition frame_of_counts {K} (key_column : string) (to_cell : K → cell)
    (records : list (K * nat)) : DataFrame :=
  match records with
  | [] => mkFrame [] []
  | _ => mkFrame [key_column; "count"]
           (map (λ r, [to_cell r.1; CInt (Z.of_nat r.2)]) records)
  end.

Definition title_cell (t : option string) : cell :=
  match t with
  | Some s => CStr s
  | None => CNone
  end.

(** [df[['visit_time', 'title', 'url']]]. *)
Definition recent_columns (df : list VisitRecord) : DataFrame :=
  mkFrame ["visit_time"; "title"; "url"]
    (map (λ r, [CTime (visit_time r); title_cell (title r); CStr (url r)]) df).

Definition frame_head (n : nat) (f : DataFrame) : DataFrame :=
  mkFrame (columns f) (head n (rows f)).

Definition generate_llm_prompt (L : Libs) (analysis_results : AnalysisResults)
    (df : list VisitRecord) : IO string :=
  let hourly_activity := frame_of_counts "hour" CInt (hourly_activity analysis_results) in
  let top_domains := frame_of_counts "domain" CStr (top_domains analysis_results) in
  let prompt :=
    nl +:+
    "    Analyze this Chrome browsing history data:" +:+ nl +:+
    "    " +:+ nl +:+
    "    1. Hourly activity pattern:" +:+ nl +:+
    "    " +:+ to_string L hourly_activity +:+ nl +:+
    "    " +:+ nl +:+
    "    2. Top domains visited:" +:+ nl +:+
    "    " +:+ to_string L top_domains +:+ nl +:+
    "    " +:+ nl +:+
    "    3. Average first browsing hour: "
           +:+ format_2f L (avg_first_hour analysis_results) +:+ nl +:+
    "    4. Average last browsing hour: "
           +:+ format_2f L (avg_last_hour analysis_results) +:+ nl +:+
    "    " +:+ nl +:+
    "    5. Sample of recent URLs and titles:" +:+ nl +:+
    "    " +:+ to_string L (frame_head 10 (recent_columns df)) +:+ nl +:+
    "    " +:+ nl +:+
    "    Based on this data, please provide insights about:" +:+ nl +:+
    "    1. Sleep patterns (when the person likely wakes up and goes to sleep)" +:+ nl +:+
    "    2. Work focus and productivity patterns" +:+ nl +:+
    "    3. Main interests based on content" +:+ nl +:+
    "    4. Recommendations for better time management" +:+ nl +:+
    "    " in
  mret prompt.

(** What [save_output] gets from pandas, [json] and [datetime] and this
    development does not re-implement: the text each call writes. *)
Record Writers := mkWriters {
  (* df.to_csv(path, index=False) for the frame of Visit Records *)
  to_csv : list VisitRecord → string;
  (* DataFrame.to_csv(path, index=False) for a frame of counts *)
  frame_to_csv : DataFrame → string;
  (* df.to_json(path, orient='records') *)
  to_json : list VisitRecord → string;
  (* json.dump(analysis_results, f, indent=2, default=str) *)
  json_dump : AnalysisResults → string;
  (* strftime('%Y-%m-%d %H:%M:%S') of a time counted in seconds *)
  strftime : Z → string;
}.

(** A whole text written to a file: the file is opened for writing and
    the text written to it. *)
Definition write_file (p s : string) : IO unit :=
  open_w p;; write p s.

(** [str(row['title'])] inside an f-string. *)
Definition title_str (t : option string) : string :=
  match t with
  | Some s => s
  | None => "None"
  end.

(** [str(Path(dir) / name)] on a system with POSIX paths, for a [name]
    without empty or [.] components: an absolute [name] stands for itself,
    any other is put under [dir]. *)
Definition joinpath (dir name : string) : string :=
  match name with
  | EmptyString => dir
  | String c _ =>
      if Ascii.eqb c (Ascii.ascii_of_nat 47) then name else dir +:+ "/" +:+ name
  end.

Definition save_output (L : Libs) (W : Writers) (h : Host) (df : list VisitRecord)
    (analysis_results : AnalysisResults) (output_format output_prefix : string) : IO unit :=
  (* Create output directory if it doesn't exist *)
  let output_dir := "output" in
  mkdir output_dir;;
  (* Save raw data *)
  (if String.eqb output_format "csv" then
     write_file (joinpath output_dir (output_prefix +:+ "_raw.csv")) (to_csv W df);;
     (* Save analysis results *)
     let hourly_activity := frame_of_counts "hour" CInt (hourly_activity analysis_results) in
     write_file (joinpath output_dir (output_prefix +:+ "_hourly.csv"))
       (frame_to_csv W hourly_activity);;
     let top_domains := frame_of_counts "domain" CStr (top_domains analysis_results) in
     write_file (joinpath output_dir (output_prefix +:+ "_domains.csv"))
       (frame_to_csv W top_domains)
   else if String.eqb output_format "json" then
     write_file (joinpath output_dir (output_prefix +:+ "_raw.json")) (to_json W df);;
     (* Save analysis results *)
     write_file (joinpath output_dir (output_prefix +:+ "_analysis.json"))
       (json_dump W analysis_results)
   else if String.eqb output_format "markdown" then
     (* Create a markdown report *)
     let markdown := "# Chrome Browsing History Analysis" +:+ nl +:+ nl in
     let markdown := markdown +:+ "Analysis date: "
                       +:+ strftime W (now_us h `div` 1000000) +:+ nl +:+ nl in
     (* Hourly activity *)
     let markdown := markdown +:+ "## Activity by Hour" +:+ nl +:+ nl in
     let markdown :=
       foldl (λ markdown row,
                markdown +:+ "- " +:+ pretty row.1 +:+ ":00 - " +:+ pretty row.2
                  +:+ " visits" +:+ nl)
         markdown (hourly_activity analysis_results) in
     (* Top domains *)
     let markdown := markdown +:+ nl +:+ "## Top Domains" +:+ nl +:+ nl in
     let markdown :=
       foldl (λ markdown row,
                markdown +:+ "- " +:+ row.1 +:+ ": " +:+ pretty row.2 +:+ " visits" +:+ nl)
         markdown (head 10 (top_domains analysis_results)) in
     (* Sleep patterns *)
     let markdown := markdown +:+ nl +:+ "## Estimated Sleep Patterns" +:+ nl +:+ nl in
     let markdown := markdown +:+ "- Average first browsing hour: "
                       +:+ format_2f L (avg_first_hour analysis_results) +:+ nl in
     let markdown := markdown +:+ "- Average last browsing hour: "
                       +:+ format_2f L (avg_last_hour analysis_results) +:+ nl in
     (* Sample of recent URLs *)
     let markdown := markdown +:+ nl +:+ "## Recent Browsing Activity" +:+ nl +:+ nl in
     let markdown :=
       foldl (λ markdown row,
                let date_str := strftime W (visit_time row) in
                markdown +:+ "- " +:+ date_str +:+ ": [" +:+ title_str (title row)
                  +:+ "](" +:+ url row +:+ ")" +:+ nl)
         markdown (head 10 df) in
     (* Save the markdown file *)
     write_file (joinpath output_dir (output_prefix +:+ "_report.md")) markdown
   else mret tt);;
  print ("Output saved to " +:+ output_dir +:+ " directory").

(** [--output], one of the three choices argparse admits. *)
Inductive Output := csv | json | markdown.

Definition output_name (o : Output) : string :=
  match o with
  | csv => "csv"
  | json => "json"
  | markdown => "markdown"
  end.

Record Args := mkArgs {
  days : Z;
  output : Output;
}.

Definition prompt_path : string := "output/llm_prompt.txt".

(** [main] once [parse_args] has returned the arguments, in tidy
    surroundings; [main_in] below is [main] from its first line. *)
Definition main (L : Libs) (W : Writers) (h : Host) (args : Args) : IO unit :=
  print ("Extracting Chrome history for the past " +:+ pretty (days args) +:+ " days...");;
  df ← extract_chrome_history L h (days args);
  print ("Analyzing " +:+ pretty (length df) +:+ " browsing history entries...");;
  analysis_results ← lift (analyze_browsing_patterns L df);
  print "Generating LLM prompt...";;
  prompt ← generate_llm_prompt L analysis_results df;
  (* Save the prompt for later use with an LLM *)
  write_file prompt_path prompt;;
  print ("Saving results in " +:+ output_name (output args) +:+ " format...");;
  save_output L W h df analysis_results (output_name (output args)) "chrome_history";;
  print "Analysis complete!";;
  print "To get AI insights, use the generated prompt in output/llm_prompt.txt with your preferred LLM.".

(** [parser.parse_args()] on the command line of a run: the arguments, or
    the exit that argparse makes itself, with status 0 after printing the
    help and 2 after a usage error.  What argparse prints is not part of
    the trace. *)
Inductive CommandLine :=
| Parsed (args : Args)
| Exits (status : Z).

Definition parse_args (cli : CommandLine) : IO Args :=
  match cli with
  | Parsed args => mret args
  | Exits status => sys_exit status
  end.

(** [main] from its first line, on any machine. *)
Definition main_in (s : Surroundings) (L : Libs) (W : Writers) (h : Host) (cli : CommandLine)
    : Run unit :=
  args ← io (parse_args cli);
  io (print ("Extracting Chrome history for the past " +:+ pretty (days args) +:+ " days..."));;
  df ← extract_chrome_history_in s L h (days args);
  io (print ("Analyzing " +:+ pretty (length df) +:+ " browsing history entries..."));;
  analysis_results ← io (lift (analyze_browsing_patterns L df));
  io (print "Generating LLM prompt...");;
  prompt ← io (generate_llm_prompt L analysis_results df);
  (* Save the prompt for later use with an LLM *)
  io (write_file prompt_path prompt);;
  io (print ("Saving results in " +:+ output_name (output args) +:+ " format..."));;
  io (save_output L W h df analysis_results (output_name (output args)) "chrome_history");;
  io (print "Analysis complete!");;
  io (print "To get AI insights, use the generated prompt in output/llm_prompt.txt with your preferred LLM.").

End chrome_history_analyzer.

(** ** llm_integration.py *)

Module llm_integration.

(** [--provider], one of the three choices argparse admits. *)
Inductive Provider := openai | anthropic | local.

Definition provider_name (p : Provider) : string :=
  match p with
  | openai => "openai"
  | anthropic => "anthropic"
  | local => "local"
  end.

Record Args := mkArgs {
  provider : Provider;
  prompt_file : string;
}.

(** A [requests.Response]: [json] is what [response.json()] returns, or
    the message of the exception it raises. *)
Record Response := mkResponse {
  status_code : Z;
  text : string;
  json : string + pyobj;
}.

(** What a run of the submission step finds around it.  A call to a
    service yields its result, or the message of the exception (an instance
    of [Exception]) the call raises. *)
Record Host := mkHost {
  installed : gset string;                          (* importable packages *)
  environ : gmap string string;                     (* os.environ *)
  (* openai.ChatCompletion.create(...).choices[0].message.content *)
  openai_create : string → string → string + pyobj;
  (* client.messages.create(...).content[0].text *)
  anthropic_create : string → string → string + pyobj;
  (* requests.post(url, json={model, prompt, stream}) *)
  requests_post : string → string → string + Response;
}.

(** [import name]. *)
Definition import (h : Host) (name : string) : IO unit :=
  if bool_decide (name ∈ installed h) then mret tt else raise (ImportError name).

(** The result of a service call as the value or exception it is. *)
Definition call {A} (r : string + A) : IO A :=
  match r with
  | inl msg => raise (Exception_ msg)
  | inr a => mret a
  end.

(** [os.environ.get(name)] followed by [if not api_key]: the key, when it is
    set to a non-empty string. *)
Definition environ_get (h : Host) (name : string) : option string :=
  match environ h !! name with
  | Some key => if String.eqb key "" then None else Some key
  | None => None
  end.

Definition analyze_with_openai (h : Host) (prompt : string) : IO pyobj :=
  returned ←
    try_except
      (import h "openai";; mret None)
      (λ e, if is_ImportError e then
              Some (print "OpenAI package not installed. Install it with: pip install openai";;
                    mret (Some PyNone))
            else None);
  match returned with
  | Some result => mret result
  | None =>
      (* Check for API key *)
      match environ_get h "OPENAI_API_KEY" with
      | None =>
          print "OpenAI API key not found. Set it as an environment variable: OPENAI_API_KEY";;
          mret PyNone
      | Some api_key =>
          try_except
            (call (openai_create h api_key prompt))
            (λ e, if is_Exception e then
                    Some (print ("Error calling OpenAI API: " +:+ exn_str e);; mret PyNone)
                  else None)
      end
  end.

(** The Anthropic backend with a client constructor (line 77) that
    returns; [analyze_with_anthropic_in] below has the constructor. *)
Definition analyze_with_anthropic (h : Host) (prompt : string) : IO pyobj :=
  returned ←
    try_except
      (import h "anthropic";; mret None)
      (λ e, if is_ImportError e then
              Some (print "Anthropic package not installed. Install it with: pip install anthropic";;
                    mret (Some PyNone))
            else None);
  match returned with
  | Some result => mret result
  | None =>
      (* Check for API key *)
      match environ_get h "ANTHROPIC_API_KEY" with
      | None =>
          print "Anthropic API key not found. Set it as an environment variable: ANTHROPIC_API_KEY";;
          mret PyNone
      | Some api_key =>
          try_except
            (call (anthropic_create h api_key prompt))
            (λ e, if is_Exception e then
                    Some (print ("Error calling Anthropic API: " +:+ exn_str e);; mret PyNone)
                  else None)
      end
  end.


Definition ollama_url : string := "http://localhost:11434/api/generate".

Definition no_response : string := "No response from local LLM".

(** [obj.get(key, default)]: only a dict has the method. *)
Definition get (obj : pyobj) (key : string) (default : pyobj) : IO pyobj :=
  match obj with
  | PyDict items => mret (dict_get items key default)
  | _ => raise (Exception_ "object has no attribute 'get'")
  end.

Definition analyze_with_local_llm (h : Host) (prompt : string) : IO pyobj :=
  returned ←
    try_except
      (import h "requests";; mret None)
      (λ e, if is_ImportError e then
              Some (print "Requests package not installed. Install it with: pip install requests";;
                    mret (Some PyNone))
            else None);
  match returned with
  | Some result => mret result
  | None =>
      try_except
        (response ← call (requests_post h ollama_url prompt);
         if status_code response =? 200 then
           body ← call (json response);
           get body "response" (PyStr no_response)
         else
           print ("Error from Ollama API: " +:+ pretty (status_code response)
                    +:+ " - " +:+ text response);;
           mret PyNone)
        (λ e, if is_Exception e then
                Some (print ("Error calling local LLM: " +:+ exn_str e);;
                      print "Make sure Ollama is running. Install from: https://ollama.ai/";;
                      mret PyNone)
              else None)
  end.

Definition insights_file : string := "output/llm_insights.md".

Definition heading : string := "# Chrome History Analysis Insights" +:+ nl +:+ nl.

(** The text before the last [/] of a path, if it has one. *)
Fixpoint before_last_slash (path : string) : option string :=
  match path with
  | EmptyString => None
  | String c rest =>
      match before_last_slash rest with
      | Some dir => Some (String c dir)
      | None => if Ascii.eqb c (Ascii.ascii_of_nat 47) then Some EmptyString else None
      end
  end.

(** [Path(path).parent]. *)
Definition parent (path : string) : string :=
  match before_last_slash path with
  | Some EmptyString => "/"
  | Some dir => dir
  | None => "."
  end.

(** [f.write(text)]: only a [str] can be written to a text file. *)
Definition f_write (path : string) (text : pyobj) : IO unit :=
  match text with
  | PyStr s => write path s
  | _ => raise (TypeError "write() argument must be str")
  end.

Definition save_insights (insights : pyobj) (output_file : string) : IO unit :=
  (* Create output directory if it doesn't exist *)
  mkdir (parent output_file);;
  open_w output_file;;
  write output_file heading;;
  f_write output_file insights;;
  print ("Insights saved to " +:+ output_file).

Definition main (h : Host) (args : Args) : IO unit :=
  (* Check if prompt file exists *)
  found ← path_exists (prompt_file args);
  if negb found then
    print ("Prompt file not found: " +:+ prompt_file args);;
    print "Run chrome_history_analyzer.py first to generate the prompt file."
  else
    prompt ← read_file (prompt_file args);
    print ("Analyzing browsing history with " +:+ provider_name (provider args) +:+ "...");;
    (* Call the appropriate LLM provider *)
    insights ←
      match provider args with
      | openai => analyze_with_openai h prompt
      | anthropic => analyze_with_anthropic h prompt
      | local => analyze_with_local_llm h prompt
      end;
    if truthy insights then
      print (nl +:+ "=== LLM Insights ===" +:+ nl);;
      print_obj insights;;
      (* Save insights to file *)
      save_insights insights insights_file
    else
      print "Failed to get insights from LLM.".

End llm_integration.

(** ** daily_summary.py *)

Module daily_summary.

(** [today] is [datetime.now().strftime("%Y-%m-%d")]; [child cmd files]
    is the exit status of the child process started with [cmd] and the files
    it leaves. *)
Record Host := mkHost {
  today : string;
  child : list string → gmap string string → Z * gmap string string;
}.

(** [subprocess.run(cmd, check=True)]. *)
Definition subprocess_run (h : Host) (cmd : list string) : IO unit := λ w,
  let '(returncode, files) := child h cmd (fs w) in
  let w' := mkWorld files (trace w ++ [EvSpawn cmd]) in
  if returncode =? 0 then (inr tt, w') else (inl (CalledProcessError returncode), w').

Definition output_file : string := "output/chrome_history_report.md".

Definition insights_file : string := "output/llm_insights.md".

(** A whole text written to a file: [open(p, "w")] then [f.write(s)]. *)
Definition write_text (p s : string) : IO unit :=
  open_w p;; write p s.

Definition generate_daily_summary (h : Host) (days : Z) (analyze : bool) : IO unit :=
  (* Run the chrome_history_analyzer.py script *)
  subprocess_run h
    ["python"; "chrome_history_analyzer.py"; "--days"; pretty days; "--output"; "markdown"];;
  (* Check if the output file exists *)
  found ← path_exists output_file;
  if negb found then
    print ("Output file not found: " +:+ output_file)
  else
    (* Read the markdown report *)
    report ← read_file output_file;
    (* Create a dated copy of the report *)
    let dated_output_file := "output/daily/" +:+ today h +:+ "_chrome_history.md" in
    mkdir "output/daily";;
    write_text dated_output_file report;;
    print ("Daily summary saved to " +:+ dated_output_file);;
    (* Optionally send to LLM for analysis *)
    if analyze then
      subprocess_run h ["python"; "llm_integration.py"];;
      found ← path_exists insights_file;
      if found : bool then
        let dated_insights_file := "output/daily/" +:+ today h +:+ "_insights.md" in
        insights ← read_file insights_file;
        write_text dated_insights_file insights;;
        print ("Daily insights saved to " +:+ dated_insights_file)
      else mret tt
    else mret tt.

End daily_summary.

(** ** Notions used to state the properties *)

(** The sum of the count column of a table of counts. *)
Definition total {K} (counts : list (K * nat)) : nat :=
  foldr (λ row acc, (row.2 + acc)%nat) 0%nat counts.

(** Events that touch the file system. *)
Definition fs_events (evs : list event) : list event :=
  List.filter (λ e, match e with EvPrint _ => false | _ => true end) evs.

(** A group [(k, (lo, hi))] spans the rows seen with key [k]: their
    column values lie between [lo] and [hi], and both are attained. *)
Definition spans {R} (key col : R → Z) (seen : list R) (g : Z * (Z * Z)) : Prop :=
  (∀ r, r ∈ seen → key r = g.1 → g.2.1 ≤ col r ≤ g.2.2)
  ∧ (∃ r, r ∈ seen ∧ key r = g.1 ∧ col r = g.2.1)
  ∧ (∃ r, r ∈ seen ∧ key r = g.1 ∧ col r = g.2.2).

(** The range of an hour of the day. *)
Definition is_hour (x : pyfloat) : Prop :=
  match x with
  | NaN => False
  | Finite q => (0 <= q)%Q ∧ (q <= 23)%Q
  end.

(** The diagnostic the extractor prints for a failed library call. *)
Definition diagnostic (f : chrome_history_analyzer.fault) : string :=
  match f with
  | chrome_history_analyzer.SqliteFault msg => "SQLite error: " +:+ msg
  | chrome_history_analyzer.OtherFault msg => "Error: " +:+ msg
  end.

(** The event of removing the file at [p], if the world has one. *)
Definition removal (p : string) (w : World) : list event :=
  if bool_decide (is_Some (fs w !! p)) then [EvRemove p] else [].

(** How often a run wrote, and removed, the file at [p]. *)
Definition writes_of (p : string) (before after : World) : nat :=
  length (List.filter (is_write_of p) (new_events before after)).


(** The two failures the extractor treats as fatal, each with the lines it
    prints: the history database is missing, or it was copied and opened
    and the query on the copy fails. *)
Inductive fatal_cause (h : chrome_history_analyzer.Host) (days : Z) (w : World)
    (history_db : string) : list pyobj → Prop :=
| source_missing :
    fs w !! history_db = None →
    fatal_cause h days w history_db
      [PyStr ("Chrome history database not found at " +:+ history_db);
       PyStr "Please check if Chrome is installed or if the path is correct."]
| query_failed c cutoff f :
    fs w !! history_db = Some c →
    chrome_history_analyzer.copy2 h = chrome_history_analyzer.CopyDone →
    chrome_history_analyzer.connect h = None →
    chrome_history_analyzer.cutoff_timestamp h days = Ok cutoff →
    chrome_history_analyzer.read_sql_query h c cutoff = inl f →
    fatal_cause h days w history_db [PyStr (diagnostic f)].

(** How a call of the local backend goes, read off the host: whether an
    exception is raised (by the import, by the request, by [json()] or by
    [get] on a body that is no dict), whether the service answers with a
    status other than 200, and whether it answers 200 with a dict whose
    ["response"] is [None]. *)
Definition exception_raised (h : llm_integration.Host) (prompt : string) : bool :=
  if bool_decide ("requests" ∈ llm_integration.installed h) then
    match llm_integration.requests_post h llm_integration.ollama_url prompt with
    | inl _ => true
    | inr response =>
        (llm_integration.status_code response =? 200)
        && match llm_integration.json response with
           | inl _ => true
           | inr (PyDict _) => false
           | inr _ => true
           end
    end
  else true.

Definition status_not_200 (h : llm_integration.Host) (prompt : string) : bool :=
  bool_decide ("requests" ∈ llm_integration.installed h)
  && match llm_integration.requests_post h llm_integration.ollama_url prompt with
     | inl _ => false
     | inr response => negb (llm_integration.status_code response =? 200)
     end.

Definition response_is_None (h : llm_integration.Host) (prompt : string) : bool :=
  bool_decide ("requests" ∈ llm_integration.installed h)
  && match llm_integration.requests_post h llm_integration.ollama_url prompt with
     | inl _ => false
     | inr response =>
         (llm_integration.status_code response =? 200)
         && match llm_integration.json response with
            | inr (PyDict items) =>
                match dict_get items "response" (PyStr llm_integration.no_response) with
                | PyNone => true
                | _ => false
                end
            | _ => false
            end
     end.

(** A run of [m] from [w] that returns [a] and, for the rest, only
    prints: the files are as they were. *)
Definition printing {A} (m : IO A) (a : A) (w : World) : Prop :=
  ∃ lines, m w = (inr a, mkWorld (fs w) (trace w ++ map EvPrint lines)).

(** The command line of the formatting step. *)
Definition analyzer_cmd (days : Z) : list string :=
  ["python"; "chrome_history_analyzer.py"; "--days"; pretty days; "--output"; "markdown"].

(** What line 130 of the analyzer raises. *)
Definition unexpected_descending : exn :=
  TypeError "sort_values() got an unexpected keyword argument 'descending'".

(** ** Concrete inputs *)

(** Libraries that render everything as the empty text and leave rows in
    place: enough to run the code on concrete inputs. *)
Definition plain_libs : Libs :=
  {| netloc := λ _, "";
     to_string := λ _, "";
     format_2f := λ _, "";
     nargsort := λ _ keys, seq 0 (length keys) |}.

(** A Linux machine whose copy and connection succeed and whose query ends
    as given. *)
Definition linux_host (query : chrome_history_analyzer.fault + list chrome_history_analyzer.RawRow)
    : chrome_history_analyzer.Host :=
  {| chrome_history_analyzer.platform_system := "Linux";
     chrome_history_analyzer.home := "/home/u";
     chrome_history_analyzer.now_us := 1704067200000000;
     chrome_history_analyzer.copy2 := chrome_history_analyzer.CopyDone;
     chrome_history_analyzer.connect := None;
     chrome_history_analyzer.read_sql_query := λ _ _, query |}.

Definition linux_history : string := "/home/u/.config/google-chrome/Default/History".

(** A world with no file, and one that holds a history database. *)
Definition empty_world : World := mkWorld ∅ [].

Definition browsed_world : World := mkWorld {[ linux_history := "SQLite format 3" ]} [].

(** A machine with the requests package and no credential, whose local
    service ends a request as given. *)
Definition ollama_host (reply : string + llm_integration.Response) : llm_integration.Host :=
  {| llm_integration.installed := {[ "requests" ]};
     llm_integration.environ := ∅;
     llm_integration.openai_create := λ _ _, inl "unreachable";
     llm_integration.anthropic_create := λ _ _, inl "unreachable";
     llm_integration.requests_post := λ _ _, reply |}.

Definition dq : string := String (Ascii.ascii_of_nat 34) "".

(** 200 with the body [{"response": null}], and 200 with the body [{}]. *)
Definition null_reply : llm_integration.Response :=
  {| llm_integration.status_code := 200;
     llm_integration.text := "{" +:+ dq +:+ "response" +:+ dq +:+ ": null}";
     llm_integration.json := inr (PyDict [("response", PyNone)]) |}.

Definition empty_reply : llm_integration.Response :=
  {| llm_integration.status_code := 200;
     llm_integration.text := "{}";
     llm_integration.json := inr (PyDict []) |}.

(** A world that holds a saved prompt and earlier insights. *)
Definition prompted_world : World :=
  mkWorld {[ "output/llm_prompt.txt" := "prompt"; "output/llm_insights.md" := "earlier" ]} [].

(** A machine whose child processes exit with status 0 and leave the files
    as they are. *)
Definition quiet_host : daily_summary.Host :=
  {| daily_summary.today := "2024-01-01";
     daily_summary.child := λ _ files, (0, files) |}.

(** 200 with the body [{"response": 5}]. *)
Definition number_reply : llm_integration.Response :=
  {| llm_integration.status_code := 200;
     llm_integration.text := "{" +:+ dq +:+ "response" +:+ dq +:+ ": 5}";
     llm_integration.json := inr (PyDict [("response", PyInt 5)]) |}.

(** One row of a query result: a visit on 2024-01-01 at 09:00:00. *)
Definition one_row : chrome_history_analyzer.RawRow :=
  {| chrome_history_analyzer.raw_visit_time := 19723 * 86400 + 9 * 3600;
     chrome_history_analyzer.raw_url := "https://a.com/";
     chrome_history_analyzer.raw_title := Some "A";
     chrome_history_analyzer.raw_duration_seconds := 12 |}.

(** 2024-01-01 00:00:00, a Monday, in seconds. *)
Definition jan_1_2024 : Z := 19723 * 86400.

Definition visit (t : Z) (u d : string) : chrome_history_analyzer.VisitRecord :=
  {| chrome_history_analyzer.visit_time := t;
     chrome_history_analyzer.url := u;
     chrome_history_analyzer.title := None;
     chrome_history_analyzer.duration_seconds := 0;
     chrome_history_analyzer.hour := dt_hour t;
     chrome_history_analyzer.date := dt_date t;
     chrome_history_analyzer.day_of_week := dt_day_name t;
     chrome_history_analyzer.domain := d |}.

(** Three visits on 2024-01-01 at hours 9, 9 and 23. *)
Definition three_visits : list chrome_history_analyzer.VisitRecord :=
  [ visit (jan_1_2024 + 9 * 3600) "https://a.com/" "a.com";
    visit (jan_1_2024 + 9 * 3600 + 60) "https://a.com/x" "a.com";
    visit (jan_1_2024 + 23 * 3600) "https://b.com/" "b.com" ].

(** ** Further notions *)

(** The number of rows of [df] whose key is [k]. *)
Definition occurrences {R K} `{EqDecision K} (key : R → K) (k : K) (df : list R) : nat :=
  length (filter (λ r, key r = k) df).

(** [a] comes strictly before [b] in the order of [cmp]. *)
Definition before {K} (cmp : K → K → comparison) (a b : K) : Prop := cmp a b = Lt.

(** A row of a table of counts is right for the rows seen: its count is the
    number of rows with its key, and that number is positive. *)
Definition counted {R K} `{EqDecision K} (key : R → K) (seen : list R) (row : K * nat) : Prop :=
  row.2 = occurrences key row.1 seen ∧ (0 < row.2)%nat.

(** [table] is the table of counts of [df] by [key]: its keys are the keys
    present in [df], each once and in increasing order, each with the
    number of rows that carry it. *)
Definition table_of {R K} `{EqDecision K} (cmp : K → K → comparison) (key : R → K)
    (df : list R) (table : list (K * nat)) : Prop :=
  StronglySorted (before cmp) table.*1
  ∧ (∀ k, k ∈ table.*1 ↔ ∃ r, r ∈ df ∧ key r = k)
  ∧ Forall (counted key df) table.

(** A Visit Record whose hour, date and weekday are the ones of its visit
    time, as lines 95-97 of the extractor set them. *)
Definition derived (r : chrome_history_analyzer.VisitRecord) : Prop :=
  chrome_history_analyzer.hour r = dt_hour (chrome_history_analyzer.visit_time r)
  ∧ chrome_history_analyzer.date r = dt_date (chrome_history_analyzer.visit_time r)
  ∧ chrome_history_analyzer.day_of_week r = dt_day_name (chrome_history_analyzer.visit_time r).

(** Events that, beside printing, only write or remove the file at [p]. *)
Definition only_touches (p : string) (evs : list event) : Prop :=
  Forall (λ e, match e with
               | EvPrint _ => True
               | EvWrite q | EvRemove q => q = p
               | EvSpawn _ => False
               end) evs.

(** Writers that write the empty text. *)
Definition plain_writers : chrome_history_analyzer.Writers :=
  {| chrome_history_analyzer.to_csv := λ _, "";
     chrome_history_analyzer.frame_to_csv := λ _, "";
     chrome_history_analyzer.to_json := λ _, "";
     chrome_history_analyzer.json_dump := λ _, "";
     chrome_history_analyzer.strftime := λ _, "" |}.

(** The backend the submission step calls for a provider (lines 173-178). *)
Definition submit (h : llm_integration.Host) (p : llm_integration.Provider)
    (prompt : string) : IO pyobj :=
  match p with
  | llm_integration.openai => llm_integration.analyze_with_openai h prompt
  | llm_integration.anthropic => llm_integration.analyze_with_anthropic h prompt
  | llm_integration.local => llm_integration.analyze_with_local_llm h prompt
  end.


(** What the submission step obtains from [w]: nothing without a prompt
    file, else what the backend of the chosen provider returns. *)
Definition obtained (h : llm_integration.Host) (args : llm_integration.Args)
    (w : World) : option pyobj :=
  match fs w !! llm_integration.prompt_file args with
  | None => None
  | Some prompt =>
      match (submit h (llm_integration.provider args) prompt w).1 with
      | inr insights => Some insights
      | inl _ => None
      end
  end.

(** The command line of the submission step. *)
Definition llm_cmd : list string := ["python"; "llm_integration.py"].

(** The dated copies the orchestrator writes. *)
Definition dated_report (today : string) : string :=
  "output/daily/" +:+ today +:+ "_chrome_history.md".

Definition dated_insights (today : string) : string :=
  "output/daily/" +:+ today +:+ "_insights.md".

(** The submission script run as a child process on the given files, and
    the arguments it has when started with none. *)
Definition llm_child (h : llm_integration.Host) (args : llm_integration.Args)
    (files : gmap string string) : Z * gmap string string :=
  let run := llm_integration.main h args (mkWorld files []) in
  (exit_status run.1, fs run.2).

Definition default_args : llm_integration.Args :=
  llm_integration.mkArgs llm_integration.openai "output/llm_prompt.txt".

(** A machine whose formatting step exits with status 0 and changes
    nothing, and whose submission step is the script of this repository run
    without credentials. *)
Definition analyzing_host : daily_summary.Host :=
  {| daily_summary.today := "2024-01-01";
     daily_summary.child := λ cmd files,
       if bool_decide (cmd = llm_cmd) then
         llm_child (ollama_host (inr empty_reply)) default_args files
       else (0, files) |}.

(** 200 with the body [{"response": ""}], and 200 with advice. *)
Definition blank_reply : llm_integration.Response :=
  {| llm_integration.status_code := 200;
     llm_integration.text := "{" +:+ dq +:+ "response" +:+ dq +:+ ": " +:+ dq +:+ dq +:+ "}";
     llm_integration.json := inr (PyDict [("response", PyStr EmptyString)]) |}.

Definition advice_reply : llm_integration.Response :=
  {| llm_integration.status_code := 200;
     llm_integration.text :=
       "{" +:+ dq +:+ "response" +:+ dq +:+ ": " +:+ dq +:+ "Sleep earlier." +:+ dq +:+ "}";
     llm_integration.json := inr (PyDict [("response", PyStr "Sleep earlier.")]) |}.

(** A world that holds a report and insights of an earlier run. *)
Definition reported_world : World :=
  mkWorld {[ "output/chrome_history_report.md" := "report";
             "output/llm_insights.md" := "stale" ]} [].

(** What the prompt and the report show of a Visit Record. *)
Definition shown (r : chrome_history_analyzer.VisitRecord) : Z * option string * string :=
  (chrome_history_analyzer.visit_time r, chrome_history_analyzer.title r,
   chrome_history_analyzer.url r).

(** The rows of the frame that the prompt and the report sample. *)
Definition sample (df : list chrome_history_analyzer.VisitRecord)
    : list (Z * option string * string) :=
  map shown (head 10 df).

(** Whether a name is a plain file name: it holds no path separator and
    no null character. *)
Fixpoint plain_name (name : string) : bool :=
  match name with
  | EmptyString => true
  | String c rest =>
      negb (Ascii.eqb c (Ascii.ascii_of_nat 47)) && negb (Ascii.eqb c (Ascii.ascii_of_nat 0))
      && plain_name rest
  end.

(** A path that starts with [stem]. *)
Definition under (stem p : string) : Prop := ∃ suffix, p = stem +:+ suffix.

(** Events that, beside printing, only open files under [stem] for writing. *)
Definition only_writes_under (stem : string) (evs : list event) : Prop :=
  Forall (λ e, match e with
               | EvPrint _ => True
               | EvWrite q => under stem q
               | _ => False
               end) evs.

(** The three visits again, filed under other domains and with a duration. *)
Definition three_visits_elsewhere : list chrome_history_analyzer.VisitRecord :=
  map (λ r, {| chrome_history_analyzer.visit_time := chrome_history_analyzer.visit_time r;
               chrome_history_analyzer.url := chrome_history_analyzer.url r;
               chrome_history_analyzer.title := chrome_history_analyzer.title r;
               chrome_history_analyzer.duration_seconds := 7;
               chrome_history_analyzer.hour := chrome_history_analyzer.hour r;
               chrome_history_analyzer.date := chrome_history_analyzer.date r;
               chrome_history_analyzer.day_of_week := chrome_history_analyzer.day_of_week r;
               chrome_history_analyzer.domain := "elsewhere" |}) three_visits.

Section machines.
Import chrome_history_analyzer.

(** A run that starts in [w] with no connection open. *)
Definition start (w : World) : Machine := mkMachine w false.

(** The two files SQLite keeps beside a database in WAL mode. *)
Definition wal_file (path : string) : string := path +:+ "-wal".
Definition shm_file (path : string) : string := path +:+ "-shm".

(** What [os.remove] says on Windows of a file that is held open. *)
Definition sharing_violation (path : string) : exn :=
  OSError ("The process cannot access the file because it is being used by "
             +:+ "another process: " +:+ path).

(** Events that, beside printing, only write or remove files among
    [paths]. *)
Definition touches_only (paths : list string) (evs : list event) : Prop :=
  Forall (λ e, match e with
               | EvPrint _ => True
               | EvWrite q | EvRemove q => q ∈ paths
               | EvSpawn _ => False
               end) evs.

(** The temporary copy and the two files SQLite may keep beside it. *)
Definition temp_files (h : Host) : list string :=
  [temp_copy h; wal_file (temp_copy h); shm_file (temp_copy h)].

(** Surroundings with nothing in the way: a free or regular temporary
    path, a rollback journal, URLs that parse; and the same with a database
    in WAL mode. *)
Definition tidy : Surroundings :=
  {| at_temp := None; wal := λ _, None; urlparse_error := λ _, None;
     removal_refused := None |}.

Definition wal_mode : Surroundings :=
  {| at_temp := None; wal := λ _, Some ("wal", "shm"); urlparse_error := λ _, None;
     removal_refused := None |}.

(** A directory stands at the temporary path. *)
Definition blocked : Surroundings :=
  {| at_temp := Some Directory; wal := λ _, None; urlparse_error := λ _, None;
     removal_refused := None |}.

(** A Windows machine whose copy and connection succeed and whose query
    ends as given, and a world that holds its history database. *)
Definition windows_host (query : fault + list RawRow) : Host :=
  {| platform_system := "Windows";
     home := "C:/Users/u";
     now_us := 1704067200000000;
     copy2 := CopyDone;
     connect := None;
     read_sql_query := λ _ _, query |}.

Definition windows_history : string :=
  "C:/Users/u/AppData/Local/Google/Chrome/User Data/Default/History".

Definition windows_world : World := mkWorld {[ windows_history := "SQLite format 3" ]} [].

(** The analyzer script run as a child process on the given files: its exit
    status and the files it leaves. *)
Definition analyzer_child_in (s : Surroundings) (L : Libs) (W : Writers) (h : Host)
    (cli : CommandLine) (files : gmap string string) : Z * gmap string string :=
  let run := main_in s L W h cli (start (mkWorld files [])) in
  (exit_status run.1, fs (world run.2)).

(** The command line the orchestrator gives the analyzer, parsed. *)
Definition orchestrated (days : Z) : CommandLine := Parsed (mkArgs days markdown).

(** The first line [main] prints. *)
Definition announced (days : Z) (w : World) : World :=
  mkWorld (fs w)
    (trace w ++ [EvPrint (PyStr ("Extracting Chrome history for the past " +:+ pretty days
                                   +:+ " days..."))]).

(** A machine whose formatting step is the analyzer script of this
    repository, run on a Linux machine whose history lacks the visits
    table. *)
Definition linked_host : daily_summary.Host :=
  {| daily_summary.today := "2024-01-01";
     daily_summary.child := λ _ files,
       analyzer_child_in wal_mode plain_libs plain_writers
         (linux_host (inl (SqliteFault "no such table: visits"))) (orchestrated 1) files |}.
End machines.

(** Order of two floats, [nan] only beside [nan]. *)
Definition pyfloat_le (x y : pyfloat) : Prop :=
  match x, y with
  | Finite a, Finite b => (a <= b)%Q
  | NaN, NaN => True
  | _, _ => False
  end.

(** * Properties *)

(** ** The pandas operations *)

Section counting.
Context {R K : Type} (cmp : K → K → comparison).

Lemma tally_total (k : K) (acc : list (K * nat)) :
  total (tally cmp k acc) = S (total acc).
Proof.
  induction acc as [|[k' c] rest IH]; simpl; [done|].
  destruct (cmp k k'); simpl; [done|done|].
  rewrite IH. lia.
Qed.

Lemma foldl_tally_total (key : R → K) (df : list R) (acc : list (K * nat)) :
  total (foldl (λ acc r, tally cmp (key r) acc) acc df) = (length df + total acc)%nat.
Proof.
  revert acc. induction df as [|r df IH]; intros acc; simpl; [done|].
  rewrite IH, tally_total. lia.
Qed.

(** The counts of a [groupby(...).size()] add up to the number of rows. *)
Lemma groupby_size_total (key : R → K) (df : list R) :
  total (groupby_size cmp key df) = length df.
Proof.
  unfold groupby_size. rewrite foldl_tally_total. simpl. lia.
Qed.
End counting.

Lemma dt_hour_range (t : Z) : 0 ≤ dt_hour t ≤ 23.
Proof.
  unfold dt_hour. pose proof (Z.mod_pos_bound (t `div` 3600) 24). lia.
Qed.

Lemma sum_Z_range (xs : list Z) :
  Forall (λ x, 0 ≤ x ≤ 23) xs → 0 ≤ sum_Z xs ≤ 23 * Z.of_nat (length xs).
Proof.
  induction 1 as [|x xs Hx _ IH]; simpl; lia.
Qed.

(** The mean of a non-empty column of hours is an hour. *)
Lemma mean_hours_range (xs : list Z) :
  xs ≠ [] → Forall (λ x, 0 ≤ x ≤ 23) xs → is_hour (mean xs).
Proof.
  intros Hne Hall. destruct xs as [|x xs]; [done|].
  pose proof (sum_Z_range _ Hall) as Hsum.
  assert (Z.pos (Pos.of_nat (length (x :: xs))) = Z.of_nat (length (x :: xs))) as Hden.
  { rewrite <- positive_nat_Z, Nat2Pos.id; done. }
  unfold mean, is_hour, Qle. cbn [Qnum Qden]. rewrite Hden. lia.
Qed.

Section first_last.
Context {R : Type} (key col : R → Z).

Lemma widen_keys (k t : Z) (acc : list (Z * (Z * Z))) (k' : Z) :
  k' ∈ (widen k t acc).*1 ↔ k' = k ∨ k' ∈ acc.*1.
Proof.
  induction acc as [|[k0 [lo hi]] rest IH]; simpl.
  - set_solver.
  - destruct (Z.compare_spec k k0) as [->| |]; simpl;
      rewrite ?elem_of_cons, ?IH; tauto.
Qed.

Lemma widen_sorted (k t : Z) (acc : list (Z * (Z * Z))) :
  StronglySorted Z.lt acc.*1 → StronglySorted Z.lt (widen k t acc).*1.
Proof.
  induction acc as [|[k0 [lo hi]] rest IH]; simpl; intros Hs.
  - repeat constructor.
  - apply StronglySorted_inv in Hs as [Hrest Hk0].
    destruct (Z.compare_spec k k0) as [->|Hlt|Hgt]; simpl.
    + by constructor.
    + constructor; [by constructor|].
      constructor; [done|].
      eapply Forall_impl; [exact Hk0|]. simpl. lia.
    + constructor; [by apply IH|].
      apply Forall_forall. intros k' Hin%widen_keys.
      destruct Hin as [->|Hin]; [lia|].
      by eapply Forall_forall in Hk0.
Qed.

Lemma foldl_widen_keys (df : list R) (acc : list (Z * (Z * Z))) (k : Z) :
  k ∈ (foldl (λ acc r, widen (key r) (col r) acc) acc df).*1
  ↔ (∃ r, r ∈ df ∧ key r = k) ∨ k ∈ acc.*1.
Proof.
  revert acc. induction df as [|r df IH]; intros acc; simpl.
  - set_solver.
  - rewrite IH, widen_keys. set_solver.
Qed.

Lemma foldl_widen_sorted (df : list R) (acc : list (Z * (Z * Z))) :
  StronglySorted Z.lt acc.*1 →
  StronglySorted Z.lt (foldl (λ acc r, widen (key r) (col r) acc) acc df).*1.
Proof.
  revert acc. induction df as [|r df IH]; intros acc Hs; simpl; [done|].
  by apply IH, widen_sorted.
Qed.

(** The groups of [groupby(key).agg(...)] are the keys present in the
    frame, each once, in increasing order. *)
Lemma groupby_min_max_keys (df : list R) (k : Z) :
  k ∈ (groupby_min_max key col df).*1 ↔ ∃ r, r ∈ df ∧ key r = k.
Proof.
  unfold groupby_min_max. rewrite foldl_widen_keys. set_solver.
Qed.

Lemma groupby_min_max_sorted (df : list R) :
  StronglySorted Z.lt (groupby_min_max key col df).*1.
Proof. apply foldl_widen_sorted. constructor. Qed.

Lemma widen_groups (k t : Z) (acc : list (Z * (Z * Z))) (g : Z * (Z * Z)) :
  StronglySorted Z.lt acc.*1 →
  g ∈ widen k t acc →
  ((g.1 ≠ k) ∧ g ∈ acc)
  ∨ (∃ lo hi, (k, (lo, hi)) ∈ acc ∧ g = (k, (Z.min lo t, Z.max hi t)))
  ∨ ((k ∉ acc.*1) ∧ g = (k, (t, t))).
Proof.
  induction acc as [|[k0 [lo0 hi0]] rest IH]; simpl; intros Hs Hg.
  - apply list_elem_of_singleton in Hg as ->. right; right. split; [apply not_elem_of_nil|done].
  - apply StronglySorted_inv in Hs as [Hrest Hk0].
    assert (∀ g', g' ∈ rest → k0 < g'.1) as Hlater.
    { intros g' Hin. eapply Forall_forall in Hk0; [exact Hk0|]. by apply list_elem_of_fmap_2. }
    destruct (Z.compare_spec k k0) as [->|Hlt|Hgt].
    + apply elem_of_cons in Hg as [->|Hg].
      * right; left. exists lo0, hi0. split; [left|done].
      * left. split; [specialize (Hlater g Hg); lia|by right].
    + apply elem_of_cons in Hg as [->|Hg].
      * right; right. split; [|done].
        intros [->|Hin]%elem_of_cons; [lia|].
        eapply Forall_forall in Hk0; [|exact Hin]. lia.
      * left. split; [|done].
        apply elem_of_cons in Hg as [->|Hg]; [simpl; lia|].
        specialize (Hlater g Hg); lia.
    + apply elem_of_cons in Hg as [->|Hg].
      * left. split; [simpl; lia|left].
      * destruct (IH Hrest Hg) as [[Hne Hin]|[(lo & hi & Hin & ->)|[Hnotin ->]]].
        -- left. split; [done|by right].
        -- right; left. exists lo, hi. split; [by right|done].
        -- right; right. split; [|done].
           intros [->|Hin]%elem_of_cons; [lia|done].
Qed.

Lemma widen_spans (r : R) (seen : list R) (acc : list (Z * (Z * Z))) :
  StronglySorted Z.lt acc.*1 →
  (∀ r', r' ∈ seen → key r' ∈ acc.*1) →
  Forall (spans key col seen) acc →
  Forall (spans key col (seen ++ [r])) (widen (key r) (col r) acc).
Proof.
  intros Hs Hcov Hall. apply Forall_forall. intros g Hg.
  destruct (widen_groups _ _ _ _ Hs Hg) as [[Hne Hin]|[(lo & hi & Hin & ->)|[Hnotin ->]]].
  - eapply Forall_forall in Hall as (Hb & (rlo & ? & ? & ?) & (rhi & ? & ? & ?)); [|exact Hin].
    split; [|split].
    + intros r' [Hr'|Hr']%elem_of_app Hk; [by apply Hb|].
      apply list_elem_of_singleton in Hr' as ->. done.
    + exists rlo. rewrite elem_of_app. auto.
    + exists rhi. rewrite elem_of_app. auto.
  - eapply Forall_forall in Hall as (Hb & (rlo & ? & ? & Hlo) & (rhi & ? & ? & Hhi)); [|exact Hin].
    simpl in *. split; [|split]; simpl.
    + intros r' [Hr'|Hr']%elem_of_app Hk.
      * specialize (Hb r' Hr' Hk). lia.
      * apply list_elem_of_singleton in Hr' as ->. lia.
    + destruct (Z.min_spec lo (col r)) as [[? ->]|[? ->]].
      * exists rlo. rewrite elem_of_app. auto.
      * exists r. rewrite elem_of_app, list_elem_of_singleton. auto.
    + destruct (Z.max_spec hi (col r)) as [[? ->]|[? ->]].
      * exists r. rewrite elem_of_app, list_elem_of_singleton. auto.
      * exists rhi. rewrite elem_of_app. auto.
  - split; [|split]; simpl.
    + intros r' [Hr'|Hr']%elem_of_app Hk.
      * specialize (Hcov r' Hr'). rewrite Hk in Hcov. done.
      * apply list_elem_of_singleton in Hr' as ->. lia.
    + exists r. rewrite elem_of_app, list_elem_of_singleton. auto.
    + exists r. rewrite elem_of_app, list_elem_of_singleton. auto.
Qed.

Lemma foldl_widen_spans (df seen : list R) (acc : list (Z * (Z * Z))) :
  StronglySorted Z.lt acc.*1 →
  (∀ r', r' ∈ seen → key r' ∈ acc.*1) →
  Forall (spans key col seen) acc →
  Forall (spans key col (seen ++ df)) (foldl (λ acc r, widen (key r) (col r) acc) acc df).
Proof.
  revert seen acc. induction df as [|r df IH]; intros seen acc Hs Hcov Hall; simpl.
  - by rewrite app_nil_r.
  - replace (seen ++ r :: df) with ((seen ++ [r]) ++ df) by by rewrite <- app_assoc.
    apply IH.
    + by apply widen_sorted.
    + intros r' [Hr'|Hr']%elem_of_app; apply widen_keys.
      * right. by apply Hcov.
      * apply list_elem_of_singleton in Hr' as ->. by left.
    + by apply widen_spans.
Qed.

(** Every group of [groupby(key).agg(min, max)] holds the least and the
    greatest column value among the rows with its key. *)
Lemma groupby_min_max_spans (df : list R) :
  Forall (spans key col df) (groupby_min_max key col df).
Proof.
  apply (foldl_widen_spans df [] []); [constructor| |constructor].
  intros r' Hr'. by apply elem_of_nil in Hr'.
Qed.

Lemma groupby_min_max_nonempty (df : list R) :
  df ≠ [] → groupby_min_max key col df ≠ [].
Proof.
  destruct df as [|r df]; [done|]. intros _ Hnil.
  assert (key r ∈ (groupby_min_max key col (r :: df)).*1) as Hin.
  { apply groupby_min_max_keys. exists r. set_solver. }
  rewrite Hnil in Hin. set_solver.
Qed.
End first_last.

(** ** chrome_history_analyzer: the analyzer *)

Section analyzer.
Import chrome_history_analyzer.

(** The call of line 130 passes [descending=True], which is no parameter
    of [sort_values]: binding the arguments fails on every frame. *)
Lemma sort_values_descending_raises {K} (L : Libs) (frame : list (K * nat)) :
  sort_values L frame "count" [("descending", PyBool true)] = Raise unexpected_descending.
Proof. reflexivity. Qed.

(** With the parameter the signature does have, the same call sorts. *)
Lemma sort_values_ascending_sorts {K} (L : Libs) (frame : list (K * nat)) :
  sort_values L frame "count" [("ascending", PyBool false)]
  = Ok (omap (λ i, frame !! i) (nargsort L false (map (λ row, Z.of_nat row.2) frame))).
Proof. reflexivity. Qed.

(** C1 (the code is at fault).  The analyzer never delivers [top_domains]:
    on every set of Visit Records, empty or not, the sort of line 130
    raises [TypeError] and [analyze_browsing_patterns] ends with it. *)
Theorem analyze_top_domains_raises (L : Libs) (df : list VisitRecord) :
  analyze_browsing_patterns L df = Raise unexpected_descending.
Proof.
  unfold analyze_browsing_patterns. rewrite sort_values_descending_raises. reflexivity.
Qed.

(** C2 (the code is at fault).  On the three visits of 2024-01-01 at hours
    9, 9 and 23 the analyzer returns nothing: it ends with the [TypeError]
    of line 130.  The statements around the failing sort do compute the
    values the scenario expects: handed the domain table of line 130 as
    grouped, lines 132-152 yield hourly counts 9:2 and 23:1, top domains
    a.com:2 and b.com:1, and the averages 9.0 and 23.0. *)
Theorem analyze_three_visits (L : Libs) :
  analyze_browsing_patterns L three_visits = Raise unexpected_descending
  ∧ summarize three_visits
      (groupby_size Z.compare hour three_visits)
      (groupby_size String.compare day_of_week three_visits)
      (groupby_size String.compare domain three_visits)
    = {| hourly_activity := [(9, 2%nat); (23, 1%nat)];
         daily_activity := [("Monday", 3%nat)];
         top_domains := [("a.com", 2%nat); ("b.com", 1%nat)];
         avg_first_hour := Finite (9 # 1);
         avg_last_hour := Finite (23 # 1) |}.
Proof. split; reflexivity. Qed.

(** C3 (the code is at fault).  The hourly and the weekday table computed
    at lines 124 and 127 each add up to the number of records, and the
    analyzer hands neither of them back: it ends with the [TypeError] of
    line 130. *)
Theorem analyze_counts_never_returned (L : Libs) (df : list VisitRecord) :
  total (groupby_size Z.compare hour df) = length df
  ∧ total (groupby_size String.compare day_of_week df) = length df
  ∧ analyze_browsing_patterns L df = Raise unexpected_descending.
Proof.
  split; [|split].
  - apply groupby_size_total.
  - apply groupby_size_total.
  - unfold analyze_browsing_patterns. rewrite sort_values_descending_raises. reflexivity.
Qed.

(** The first and the last hour of every date are hours of the day. *)
Lemma summarize_hours (df : list VisitRecord) (f : Z * (Z * Z) → Z) :
  Forall (λ x, 0 ≤ x ≤ 23) (map (λ d, dt_hour (f d)) (groupby_min_max date visit_time df)).
Proof. apply Forall_forall. intros x (d & -> & _)%list_elem_of_fmap. apply dt_hour_range. Qed.

(** Lines 132-144 on their own: the two averages are means of one hour
    per date present, so they are hours when a record is present, and
    [nan] on the empty frame. *)
Lemma summarize_averages (df : list VisitRecord) hourly daily domains :
  match df with
  | [] =>
      avg_first_hour (summarize df hourly daily domains) = NaN
      ∧ avg_last_hour (summarize df hourly daily domains) = NaN
  | _ =>
      is_hour (avg_first_hour (summarize df hourly daily domains))
      ∧ is_hour (avg_last_hour (summarize df hourly daily domains))
  end.
Proof.
  destruct df as [|r df]; [done|].
  assert (groupby_min_max date visit_time (r :: df) ≠ []) as Hne
    by by apply groupby_min_max_nonempty.
  unfold summarize; cbn [avg_first_hour avg_last_hour].
  split; (apply mean_hours_range; [|apply summarize_hours]);
    by destruct (groupby_min_max date visit_time (r :: df)).
Qed.

(** C4 (the code is at fault).  Lines 132-144 would compute the two
    averages as the claim describes them (hours on a non-empty frame,
    [nan] on the empty one), but no run reaches them: the analyzer ends at
    line 130 with [TypeError] and returns neither average. *)
Theorem analyze_averages_never_returned (L : Libs) (df : list VisitRecord) :
  analyze_browsing_patterns L df = Raise unexpected_descending
  ∧ ∀ hourly daily domains,
      match df with
      | [] =>
          avg_first_hour (summarize df hourly daily domains) = NaN
          ∧ avg_last_hour (summarize df hourly daily domains) = NaN
      | _ =>
          is_hour (avg_first_hour (summarize df hourly daily domains))
          ∧ is_hour (avg_last_hour (summarize df hourly daily domains))
      end.
Proof.
  split.
  - unfold analyze_browsing_patterns. rewrite sort_values_descending_raises. reflexivity.
  - intros. apply summarize_averages.
Qed.

(** X1.  Each table the analyzer builds with [groupby(...).size()], by
    hour, by weekday and by domain, adds up to the number of Visit
    Records. *)
Theorem count_tables_add_up (df : list VisitRecord) :
  total (groupby_size Z.compare hour df) = length df
  ∧ total (groupby_size String.compare day_of_week df) = length df
  ∧ total (groupby_size String.compare domain df) = length df.
Proof. repeat split; apply groupby_size_total. Qed.

(** X2.  The frame [daily_first_last] of line 133 has one row per calendar
    date present among the Visit Records, in increasing order of the date,
    and the row of a date holds the earliest and the latest visit time of
    that date. *)
Theorem first_last_one_row_per_date (df : list VisitRecord) :
  StronglySorted Z.lt (groupby_min_max date visit_time df).*1
  ∧ (∀ d, d ∈ (groupby_min_max date visit_time df).*1 ↔ ∃ r, r ∈ df ∧ date r = d)
  ∧ Forall (spans date visit_time df) (groupby_min_max date visit_time df).
Proof.
  split; [apply groupby_min_max_sorted|split].
  - intros d. apply groupby_min_max_keys.
  - apply groupby_min_max_spans.
Qed.
End analyzer.

(** ** chrome_history_analyzer: the prompt *)

Section prompt.
Import chrome_history_analyzer.

(** C9.  The prompt formatter reads nothing but its two arguments: run in
    any two worlds (other files, another trace of earlier events) on the
    same analysis results and the same Visit Records, it returns the same
    text, character for character, and it leaves each world as it found
    it.  (The rendering functions of pandas and of [format] are functions
    of their argument.) *)
Theorem prompt_is_deterministic (L : Libs) (analysis_results : AnalysisResults)
    (df : list VisitRecord) (w1 w2 : World) :
  (∃ text, (generate_llm_prompt L analysis_results df w1).1 = inr text
           ∧ (generate_llm_prompt L analysis_results df w2).1 = inr text)
  ∧ (generate_llm_prompt L analysis_results df w1).2 = w1
  ∧ (generate_llm_prompt L analysis_results df w2).2 = w2.
Proof.
  unfold generate_llm_prompt, mret, IO_ret. cbn [fst snd]. eauto.
Qed.
End prompt.

(** ** chrome_history_analyzer: the extractor *)

Lemma new_events_app (w : World) (files : gmap string string) (evs : list event) :
  new_events w (mkWorld files (trace w ++ evs)) = evs.
Proof. unfold new_events. simpl. by rewrite drop_app_length. Qed.

Section extractor.
Import chrome_history_analyzer.

(** The [finally] clause of the extractor: whatever the body did, the
    file at the temporary path is gone afterwards, and the body's result
    stands. *)
Lemma finally_remove_run {A} (body : IO A) (p : string) (w : World) :
  try_finally body
    (left_behind ← path_exists p;
     if left_behind : bool then os_remove p else mret tt) w
  = ((body w).1,
     mkWorld (delete p (fs (body w).2)) (trace (body w).2 ++ removal p (body w).2)).
Proof.
  unfold try_finally, removal, mbind, IO_bind, path_exists, os_remove.
  destruct (body w) as [r w1]; simpl.
  destruct (fs w1 !! p) as [c|] eqn:Hp; simpl.
  - by rewrite Hp.
  - rewrite delete_id by done. rewrite app_nil_r. by destruct w1.
Qed.

(** A run of the extractor on a machine without the history database. *)
Lemma extract_run_missing L h days w history_db :
  get_chrome_history_path h = Ok history_db →
  fs w !! history_db = None →
  extract_chrome_history L h days w =
    (inl (SystemExit 1),
     mkWorld (fs w)
       (trace w ++ [EvPrint (PyStr ("Chrome history database not found at " +:+ history_db));
                    EvPrint (PyStr "Please check if Chrome is installed or if the path is correct.")])).
Proof.
  intros Hp Hc. unfold extract_chrome_history.
  unfold mbind at 1, IO_bind at 1, lift. rewrite Hp. unfold Ok.
  unfold mbind at 1, IO_bind at 1, path_exists at 1. rewrite Hc. simpl.
  unfold mbind, IO_bind, print, emit, sys_exit, raise. simpl.
  by rewrite <- app_assoc.
Qed.

(** A run of the extractor on a machine that has the history database,
    case by case on how the copy, the connection and the query end. *)
Lemma extract_run L h days w history_db c :
  get_chrome_history_path h = Ok history_db →
  fs w !! history_db = Some c →
  extract_chrome_history L h days w =
    let gone := delete (temp_copy h) (fs w) in
    let failed (f : fault) :=
      (inl (SystemExit 1),
       mkWorld gone (trace w ++ [EvWrite (temp_copy h); EvPrint (PyStr (diagnostic f));
                                 EvRemove (temp_copy h)])) in
    match copy2 h with
    | CopyFailed None msg =>
        (inl (SystemExit 1),
         mkWorld gone (trace w ++ EvPrint (PyStr ("Error: " +:+ msg))
                               :: removal (temp_copy h) w))
    | CopyFailed (Some _) msg => failed (OtherFault msg)
    | CopyDone =>
        match connect h with
        | Some f => failed f
        | None =>
            match cutoff_timestamp h days with
            | inl e => failed (OtherFault (exn_str e))
            | inr cutoff =>
                match read_sql_query h c cutoff with
                | inl f => failed f
                | inr df =>
                    (inr (map (add_columns L) df),
                     mkWorld gone (trace w ++ [EvWrite (temp_copy h); EvRemove (temp_copy h)]))
                end
            end
        end
    end.
Proof.
  intros Hp Hc. unfold extract_chrome_history.
  unfold mbind at 1, IO_bind at 1, lift. rewrite Hp. unfold Ok.
  unfold mbind at 1, IO_bind at 1, path_exists at 1. rewrite Hc. simpl.
  rewrite finally_remove_run.
  unfold try_except, mbind, IO_bind, shutil_copy2. rewrite Hc.
  assert (∀ x tr, removal (temp_copy h) (mkWorld (<[temp_copy h:=x]> (fs w)) tr)
                  = [EvRemove (temp_copy h)]) as Hrm.
  { intros. unfold removal. simpl. by rewrite lookup_insert_eq. }
  destruct (copy2 h) as [|[part|] msg]; simpl.
  - unfold sqlite3_connect. destruct (connect h) as [f|]; simpl.
    + destruct f; simpl; rewrite Hrm, delete_insert_eq, <- !app_assoc; done.
    + unfold lift. destruct (cutoff_timestamp h days) as [e|cutoff] eqn:Hcut; simpl.
      * assert (is_sqlite3_Error e = false ∧ is_Exception e = true) as [-> ->].
        { unfold cutoff_timestamp in Hcut. repeat case_match; inversion Hcut; done. }
        simpl. rewrite Hrm, delete_insert_eq, <- !app_assoc; done.
      * unfold pd_read_sql_query; simpl. rewrite lookup_insert_eq.
        destruct (read_sql_query h c cutoff) as [f|df]; simpl.
        -- destruct f; simpl; rewrite Hrm, delete_insert_eq, <- !app_assoc; done.
        -- rewrite Hrm, delete_insert_eq, <- !app_assoc; done.
  - rewrite Hrm, delete_insert_eq, <- !app_assoc; done.
  - unfold removal; simpl. rewrite <- !app_assoc; done.
Qed.




End extractor.

(** ** daily_summary *)

Section orchestrator.
Import daily_summary.

(** C7, refuted as stated.  The formatting step exits with status 0 and
    leaves no report: the orchestrator returns normally, and the
    interpreter would end with exit status 0. *)
Lemma daily_summary_missing_report_returns :
  let run := generate_daily_summary quiet_host 1 false empty_world in
  fs run.2 !! output_file = None
  ∧ run.1 = inr tt
  ∧ exit_status run.1 = 0.
Proof. by vm_compute. Qed.

(** The orchestrator does fail loudly when the formatting step exits with
    a non-zero status: [subprocess.run(check=True)] raises
    [CalledProcessError], and nothing else is done. *)
Lemma daily_summary_failed_child (h : Host) (days : Z) (analyze : bool) (w : World) :
  (child h (analyzer_cmd days) (fs w)).1 ≠ 0 →
  generate_daily_summary h days analyze w =
    (inl (CalledProcessError (child h (analyzer_cmd days) (fs w)).1),
     mkWorld (child h (analyzer_cmd days) (fs w)).2 (trace w ++ [EvSpawn (analyzer_cmd days)])).
Proof.
  intros Hrc. unfold generate_daily_summary, subprocess_run, mbind, IO_bind.
  fold (analyzer_cmd days).
  destruct (child h (analyzer_cmd days) (fs w)) as [rc files]. simpl in *.
  destruct (Z.eqb_spec rc 0); [done|]. done.
Qed.

(** The orchestrator after a formatting step that exited with status 0 and
    left no report. *)
Lemma daily_summary_no_report (h : Host) (days : Z) (analyze : bool) (w : World) :
  (child h (analyzer_cmd days) (fs w)).1 = 0 →
  (child h (analyzer_cmd days) (fs w)).2 !! output_file = None →
  generate_daily_summary h days analyze w =
    (inr tt,
     mkWorld (child h (analyzer_cmd days) (fs w)).2
       (trace w ++ [EvSpawn (analyzer_cmd days);
                    EvPrint (PyStr "Output file not found: output/chrome_history_report.md")])).
Proof.
  intros Hrc Hmissing. unfold generate_daily_summary, subprocess_run, mbind, IO_bind.
  fold (analyzer_cmd days).
  destruct (child h (analyzer_cmd days) (fs w)) as [rc files]. simpl in *. subst rc. simpl.
  unfold path_exists. simpl. rewrite Hmissing. simpl.
  unfold print, emit. simpl. by rewrite <- app_assoc.
Qed.

(** C7, amended.  When the formatting step exits with status 0 and the
    report file is missing after it, the orchestrator prints which file was
    not found and returns normally, abandoning the rest of the run: it
    archives nothing and does not start the submission step.  It propagates
    a failure ([CalledProcessError], with nothing else done) when the
    formatting step itself exits with a non-zero status. *)
Theorem daily_summary_missing_report (h : Host) (days : Z) (analyze : bool) (w : World) :
  let status := (child h (analyzer_cmd days) (fs w)).1 in
  let files := (child h (analyzer_cmd days) (fs w)).2 in
  (status = 0 →
   files !! output_file = None →
   generate_daily_summary h days analyze w =
     (inr tt,
      mkWorld files
        (trace w ++ [EvSpawn (analyzer_cmd days);
                     EvPrint (PyStr "Output file not found: output/chrome_history_report.md")])))
  ∧ (status ≠ 0 →
     generate_daily_summary h days analyze w =
       (inl (CalledProcessError status),
        mkWorld files (trace w ++ [EvSpawn (analyzer_cmd days)]))).
Proof.
  cbn zeta. split.
  - apply daily_summary_no_report.
  - apply daily_summary_failed_child.
Qed.

Lemma daily_summary_missing_report_witness :
  generate_daily_summary quiet_host 1 true empty_world =
    (inr tt,
     mkWorld ∅
       [EvSpawn (analyzer_cmd 1);
        EvPrint (PyStr "Output file not found: output/chrome_history_report.md")]).
Proof.
  apply (proj1 (daily_summary_missing_report quiet_host 1 true empty_world)); reflexivity.
Defined.
End orchestrator.

(** ** llm_integration *)

Lemma fs_events_prints (lines : list pyobj) : fs_events (map EvPrint lines) = [].
Proof. induction lines as [|l lines IH]; [done|exact IH]. Qed.

Lemma no_write_in_prints (p : string) (lines : list pyobj) :
  List.filter (is_write_of p) (map EvPrint lines) = [].
Proof. induction lines as [|l lines IH]; [done|exact IH]. Qed.

Lemma dict_get_absent items key default :
  key ∉ items.*1 → dict_get items key default = default.
Proof.
  induction items as [|[k v] items IH]; simpl; [done|].
  intros Hnotin. apply not_elem_of_cons in Hnotin as [Hne Hnotin].
  destruct (String.eqb_spec k key); [congruence|]. by apply IH.
Qed.

Section submission.
Import llm_integration.

(** Without the credential the OpenAI backend returns [None], whether or
    not the package can be imported, and only prints. *)
Lemma openai_without_key h prompt w :
  environ h !! "OPENAI_API_KEY" = None →
  printing (analyze_with_openai h prompt) PyNone w.
Proof.
  intros Hkey.
  unfold printing, analyze_with_openai, mbind, IO_bind, try_except, import, environ_get.
  rewrite Hkey. case_bool_decide; simpl; by eexists [_].
Qed.

Lemma main_openai_without_key h args w :
  provider args = openai →
  environ h !! "OPENAI_API_KEY" = None →
  printing (main h args) tt w.
Proof.
  intros Hprov Hkey. unfold printing, main. rewrite Hprov.
  unfold mbind at 1, IO_bind at 1, path_exists at 1, read_file.
  destruct (fs w !! prompt_file args) as [prompt|] eqn:Hprompt; simpl.
  - unfold mbind at 1, IO_bind at 1. rewrite Hprompt.
    unfold mbind at 1, IO_bind at 1. unfold print at 1, emit at 1.
    unfold mbind at 1, IO_bind at 1.
    match goal with |- context [analyze_with_openai h prompt ?w1] =>
      destruct (openai_without_key h prompt w1 Hkey) as [lines ->] end.
    simpl. unfold print, emit; simpl. eexists (_ :: lines ++ [_]).
    rewrite <- !app_assoc. simpl. rewrite map_app. reflexivity.
  - unfold mbind, IO_bind, print, emit; simpl.
    eexists [_; _]. simpl. by rewrite <- app_assoc.
Qed.

(** C8.  With provider [openai] and [OPENAI_API_KEY] unset, the backend
    yields [None] and the submission step ends normally having only
    printed: every file, the insights file among them, has the content it
    had (or is absent as it was), and no file was opened for writing. *)
Theorem submission_without_openai_key h args w :
  provider args = openai →
  environ h !! "OPENAI_API_KEY" = None →
  (∀ prompt w0, (analyze_with_openai h prompt w0).1 = inr PyNone)
  ∧ (main h args w).1 = inr tt
  ∧ fs (main h args w).2 = fs w
  ∧ fs (main h args w).2 !! insights_file = fs w !! insights_file
  ∧ writes_of insights_file w (main h args w).2 = 0%nat
  ∧ fs_events (new_events w (main h args w).2) = [].
Proof.
  intros Hprov Hkey. split.
  - intros prompt w0. by destruct (openai_without_key h prompt w0 Hkey) as [lines ->].
  - destruct (main_openai_without_key h args w Hprov Hkey) as [lines ->].
    unfold writes_of. cbn [fst snd fs]. rewrite new_events_app.
    by rewrite no_write_in_prints, fs_events_prints.
Qed.

Lemma submission_without_openai_key_witness :
  let h := ollama_host (inr empty_reply) in
  let args := mkArgs openai "output/llm_prompt.txt" in
  (∀ prompt w0, (analyze_with_openai h prompt w0).1 = inr PyNone)
  ∧ (main h args prompted_world).1 = inr tt
  ∧ fs (main h args prompted_world).2 = fs prompted_world
  ∧ fs (main h args prompted_world).2 !! insights_file = fs prompted_world !! insights_file
  ∧ writes_of insights_file prompted_world (main h args prompted_world).2 = 0%nat
  ∧ fs_events (new_events prompted_world (main h args prompted_world).2) = [].
Proof.
  apply (submission_without_openai_key (ollama_host (inr empty_reply))
           (mkArgs openai "output/llm_prompt.txt") prompted_world); reflexivity.
Defined.

(** The local backend never raises and only prints, and what it returns
    does not depend on the world. *)
Lemma local_llm_printing h prompt :
  ∃ result, ∀ w, printing (analyze_with_local_llm h prompt) result w.
Proof.
  unfold printing, analyze_with_local_llm, mbind, IO_bind, try_except, import, call, get.
  case_bool_decide; simpl; [|by exists PyNone; intros w; eexists [_]].
  destruct (requests_post h ollama_url prompt) as [msg|response]; simpl;
    [by exists PyNone; intros w; eexists [_; _]; rewrite <- app_assoc|].
  destruct (status_code response =? 200); simpl;
    [|by exists PyNone; intros w; eexists [_]].
  destruct (json response) as [msg|body]; simpl;
    [by exists PyNone; intros w; eexists [_; _]; rewrite <- app_assoc|].
  destruct body; simpl;
    try (by exists PyNone; intros w; eexists [_; _]; rewrite <- app_assoc).
  eexists; intros w; exists []; simpl. rewrite app_nil_r. by destruct w.
Qed.

Lemma local_llm_None_iff h prompt w :
  (analyze_with_local_llm h prompt w).1 = inr PyNone
  ↔ status_not_200 h prompt || exception_raised h prompt || response_is_None h prompt = true.
Proof.
  unfold analyze_with_local_llm, status_not_200, exception_raised, response_is_None,
    mbind, IO_bind, try_except, import, call, get.
  case_bool_decide; simpl; [|done].
  destruct (requests_post h ollama_url prompt) as [msg|response]; simpl; [done|].
  destruct (status_code response =? 200); simpl; [|done].
  destruct (json response) as [msg|body]; simpl; [done|].
  destruct body; simpl; try done.
  destruct (dict_get items "response" (PyStr no_response)); simpl; done.
Qed.

Lemma local_llm_placeholder h prompt w response items :
  "requests" ∈ installed h →
  requests_post h ollama_url prompt = inr response →
  status_code response = 200 →
  json response = inr (PyDict items) →
  "response" ∉ items.*1 →
  analyze_with_local_llm h prompt w = (inr (PyStr no_response), w).
Proof.
  intros Hinst Hpost Hstatus Hjson Habsent.
  unfold analyze_with_local_llm, mbind, IO_bind, try_except, import, call, get.
  rewrite bool_decide_eq_true_2 by done. simpl.
  rewrite Hpost. simpl. rewrite Hstatus. simpl. rewrite Hjson. simpl.
  by rewrite dict_get_absent.
Qed.

(** The submission step with the local backend, up to the test of
    [insights]. *)
Lemma main_local_run h args w prompt :
  provider args = local →
  fs w !! prompt_file args = Some prompt →
  main h args w =
    (insights ← analyze_with_local_llm h prompt;
     if truthy insights then
       print (nl +:+ "=== LLM Insights ===" +:+ nl);;
       print_obj insights;;
       save_insights insights insights_file
     else
       print "Failed to get insights from LLM.")
      (mkWorld (fs w)
         (trace w ++ [EvPrint (PyStr "Analyzing browsing history with local...")])).
Proof.
  intros Hprov Hprompt. unfold main. rewrite Hprov.
  unfold mbind at 1, IO_bind at 1, path_exists at 1, read_file. rewrite Hprompt. simpl.
  unfold mbind at 1, IO_bind at 1. rewrite Hprompt.
  unfold mbind at 1, IO_bind at 1. unfold print at 1, emit at 1. reflexivity.
Qed.

(** C10, refuted as stated.  The service answers 200 with the body
    [{"response": null}]: no exception is raised, the status is 200, and
    the backend still returns [None]. *)
Lemma local_llm_None_on_null_response :
  let h := ollama_host (inr null_reply) in
  (analyze_with_local_llm h "prompt" prompted_world).1 = inr PyNone
  ∧ status_not_200 h "prompt" = false
  ∧ exception_raised h "prompt" = false.
Proof. by vm_compute. Qed.

(** C10, amended.  The local backend returns [None] exactly when the
    status is not 200, or an exception is raised, or the service answers
    200 with a dict whose ["response"] is [None]; the submission step then
    saves nothing.  A 200 answer whose dict lacks ["response"] counts as
    success: the backend returns the placeholder, and the submission step
    writes it under the heading to the insights file. *)
Theorem local_llm_None_and_placeholder h prompt w :
  ((analyze_with_local_llm h prompt w).1 = inr PyNone
   ↔ status_not_200 h prompt || exception_raised h prompt || response_is_None h prompt = true)
  ∧ (∀ args,
       provider args = local →
       fs w !! prompt_file args = Some prompt →
       (analyze_with_local_llm h prompt w).1 = inr PyNone →
       (main h args w).1 = inr tt ∧ fs (main h args w).2 = fs w)
  ∧ (∀ args response items,
       provider args = local →
       fs w !! prompt_file args = Some prompt →
       "requests" ∈ installed h →
       requests_post h ollama_url prompt = inr response →
       status_code response = 200 →
       json response = inr (PyDict items) →
       "response" ∉ items.*1 →
       (analyze_with_local_llm h prompt w).1 = inr (PyStr no_response)
       ∧ (main h args w).1 = inr tt
       ∧ fs (main h args w).2 !! insights_file = Some (heading +:+ no_response)).
Proof.
  split; [apply local_llm_None_iff|split].
  - intros args Hprov Hprompt Hnone.
    assert (∃ w', main h args w = (inr tt, w') ∧ fs w' = fs w) as (w' & -> & Hw'); [|done].
    rewrite (main_local_run h args w prompt Hprov Hprompt).
    destruct (local_llm_printing h prompt) as [result Hrun].
    destruct (Hrun w) as [lines Hw]. rewrite Hw in Hnone. simpl in Hnone.
    assert (result = PyNone) as -> by congruence.
    unfold mbind, IO_bind.
    match goal with |- context [analyze_with_local_llm h prompt ?w1] =>
      destruct (Hrun w1) as [lines1 ->] end.
    simpl. eauto.
  - intros args response items Hprov Hprompt Hinst Hpost Hstatus Hjson Habsent.
    rewrite (local_llm_placeholder h prompt w response items) by done.
    split; [done|].
    assert (∃ w', main h args w = (inr tt, w')
                  ∧ fs w' !! insights_file = Some (heading +:+ no_response))
      as (w' & -> & Hw'); [|done].
    rewrite (main_local_run h args w prompt Hprov Hprompt).
    unfold mbind at 1, IO_bind at 1.
    rewrite (local_llm_placeholder h prompt _ response items) by done.
    cbn [truthy no_response String.eqb Ascii.eqb negb].
    unfold save_insights, mkdir, open_w, write, f_write, print, print_obj, emit,
      mbind, IO_bind, mret, IO_ret.
    cbn [fs trace]. eexists. split; [reflexivity|]. cbn [fs].
    rewrite !lookup_insert_eq. reflexivity.
Qed.

Lemma local_llm_None_and_placeholder_witness :
  let h := ollama_host (inr empty_reply) in
  let args := mkArgs local "output/llm_prompt.txt" in
  (analyze_with_local_llm h "prompt" prompted_world).1 = inr (PyStr no_response)
  ∧ (main h args prompted_world).1 = inr tt
  ∧ fs (main h args prompted_world).2 !! insights_file = Some (heading +:+ no_response).
Proof.
  apply (proj2 (proj2 (local_llm_None_and_placeholder (ollama_host (inr empty_reply))
                         "prompt" prompted_world))
           (mkArgs local "output/llm_prompt.txt") empty_reply []);
    [reflexivity|reflexivity|reflexivity|reflexivity|reflexivity|reflexivity|].
  apply not_elem_of_nil.
Defined.

(** X4.  When the service answers 200 with a dict whose ["response"] is
    true in a test and is no string, the submission step has opened the
    insights file and written the heading before [f.write] raises
    [TypeError]: the step ends with that exception and the file holds the
    bare heading, whatever it held before. *)
Theorem main_local_non_string h args w prompt response items answer :
  provider args = local →
  fs w !! prompt_file args = Some prompt →
  "requests" ∈ installed h →
  requests_post h ollama_url prompt = inr response →
  status_code response = 200 →
  json response = inr (PyDict items) →
  dict_get items "response" (PyStr no_response) = answer →
  truthy answer = true →
  (∀ s, answer ≠ PyStr s) →
  (main h args w).1 = inl (TypeError "write() argument must be str")
  ∧ fs (main h args w).2 !! insights_file = Some heading.
Proof.
  intros Hprov Hprompt Hinst Hpost Hstatus Hjson Hget Htrue Hnostr.
  assert (∀ w0, analyze_with_local_llm h prompt w0 = (inr answer, w0)) as Hrun.
  { intros w0. unfold analyze_with_local_llm, mbind, IO_bind, try_except, import, call, get.
    rewrite bool_decide_eq_true_2 by done. simpl.
    rewrite Hpost. simpl. rewrite Hstatus. simpl. rewrite Hjson. simpl. by rewrite Hget. }
  assert (∃ w', main h args w = (inl (TypeError "write() argument must be str"), w')
                ∧ fs w' !! insights_file = Some heading) as (w' & -> & Hw'); [|done].
  rewrite (main_local_run h args w prompt Hprov Hprompt).
  unfold mbind at 1, IO_bind at 1. rewrite Hrun, Htrue.
  unfold save_insights, mkdir, open_w, write, f_write, print, print_obj, emit,
    mbind, IO_bind, mret, IO_ret.
  cbn [fs trace].
  destruct answer; try (eexists; split; [reflexivity|]; cbn [fs];
    rewrite !lookup_insert_eq; reflexivity).
  by destruct (Hnostr s).
Qed.

Lemma main_local_non_string_witness :
  let h := ollama_host (inr number_reply) in
  let args := mkArgs local "output/llm_prompt.txt" in
  (main h args prompted_world).1 = inl (TypeError "write() argument must be str")
  ∧ fs (main h args prompted_world).2 !! insights_file = Some heading.
Proof.
  apply (main_local_non_string (ollama_host (inr number_reply))
           (mkArgs local "output/llm_prompt.txt") prompted_world "prompt" number_reply
           [("response", PyInt 5)] (PyInt 5));
    [reflexivity|reflexivity|reflexivity|reflexivity|reflexivity|reflexivity|reflexivity
    |reflexivity|done].
Defined.
End submission.

(** ** Tables of counts *)

Lemma ascii_compare_refl a : Ascii.compare a a = Eq.
Proof. unfold Ascii.compare. apply N.compare_refl. Qed.

Lemma string_compare_refl s : String.compare s s = Eq.
Proof. induction s as [|a s IH]; simpl; [done|]. by rewrite ascii_compare_refl. Qed.

Lemma string_compare_eq s1 s2 : String.compare s1 s2 = Eq ↔ s1 = s2.
Proof. split; [apply String.compare_eq_iff|intros ->; apply string_compare_refl]. Qed.

Lemma string_compare_trans s1 s2 s3 :
  String.compare s1 s2 = Lt → String.compare s2 s3 = Lt → String.compare s1 s3 = Lt.
Proof.
  revert s2 s3. induction s1 as [|a1 s1 IH]; intros [|a2 s2] [|a3 s3]; simpl; try done.
  unfold Ascii.compare.
  destruct (N.compare_spec (Ascii.N_of_ascii a1) (Ascii.N_of_ascii a2)) as [H12|H12|H12];
  destruct (N.compare_spec (Ascii.N_of_ascii a2) (Ascii.N_of_ascii a3)) as [H23|H23|H23];
  try done; intros Hs12 Hs23.
  - rewrite H12, H23, N.compare_refl. by eapply IH.
  - rewrite H12. by apply N.compare_lt_iff in H23 as ->.
  - rewrite <- H23. by apply N.compare_lt_iff in H12 as ->.
  - assert (Ascii.N_of_ascii a1 < Ascii.N_of_ascii a3)%N as ->%N.compare_lt_iff by lia. done.
Qed.

Section exact_counts.
Context {R K : Type} `{EqDecision K} (cmp : K → K → comparison) (key : R → K).
Hypothesis cmp_eq : ∀ a b, cmp a b = Eq ↔ a = b.
Hypothesis cmp_antisym : ∀ a b, cmp a b = CompOpp (cmp b a).
Hypothesis cmp_trans : ∀ a b c, cmp a b = Lt → cmp b c = Lt → cmp a c = Lt.

Lemma cmp_irrefl a : ¬ before cmp a a.
Proof. unfold before. by rewrite (proj2 (cmp_eq a a)). Qed.

Lemma tally_keys (k : K) (acc : list (K * nat)) (k' : K) :
  k' ∈ (tally cmp k acc).*1 ↔ k' = k ∨ k' ∈ acc.*1.
Proof.
  induction acc as [|[k0 c0] rest IH]; simpl.
  - rewrite list_elem_of_singleton, elem_of_nil. tauto.
  - destruct (cmp k k0) eqn:Hc; simpl; rewrite ?elem_of_cons, ?IH; [|tauto..].
    apply cmp_eq in Hc as ->. tauto.
Qed.

Lemma tally_sorted (k : K) (acc : list (K * nat)) :
  StronglySorted (before cmp) acc.*1 → StronglySorted (before cmp) (tally cmp k acc).*1.
Proof.
  induction acc as [|[k0 c0] rest IH]; simpl; intros Hs.
  - repeat constructor.
  - apply StronglySorted_inv in Hs as [Hrest Hk0].
    destruct (cmp k k0) eqn:Hc; simpl.
    + by constructor.
    + constructor; [by constructor|].
      constructor; [done|].
      eapply Forall_impl; [exact Hk0|]. simpl. intros k' Hk'. by eapply cmp_trans.
    + constructor; [by apply IH|].
      apply Forall_forall. intros k' Hin%tally_keys.
      destruct Hin as [->|Hin]; [|by eapply Forall_forall in Hk0].
      unfold before. rewrite cmp_antisym, Hc. done.
Qed.

Lemma tally_rows (k : K) (acc : list (K * nat)) (row : K * nat) :
  StronglySorted (before cmp) acc.*1 →
  row ∈ tally cmp k acc →
  ((row.1 ≠ k) ∧ row ∈ acc)
  ∨ (∃ c, (k, c) ∈ acc ∧ row = (k, S c))
  ∨ ((k ∉ acc.*1) ∧ row = (k, 1%nat)).
Proof.
  induction acc as [|[k0 c0] rest IH]; simpl; intros Hs Hrow.
  - apply list_elem_of_singleton in Hrow as ->. right; right.
    split; [apply not_elem_of_nil|done].
  - apply StronglySorted_inv in Hs as [Hrest Hk0].
    assert (∀ k', k' ∈ rest.*1 → before cmp k0 k') as Hlater.
    { intros k' Hin. by eapply Forall_forall in Hk0. }
    destruct (cmp k k0) eqn:Hc.
    + apply cmp_eq in Hc as ->.
      apply elem_of_cons in Hrow as [->|Hrow].
      * right; left. exists c0. split; [left|done].
      * left. split; [|by right].
        intros Heq. apply (cmp_irrefl k0), Hlater. rewrite <- Heq.
        by apply list_elem_of_fmap_2.
    + assert (∀ k', k' ∈ ((k0, c0) :: rest).*1 → before cmp k k') as Hk.
      { intros k' [->|Hin]%elem_of_cons; [done|]. eapply cmp_trans; [exact Hc|by apply Hlater]. }
      apply elem_of_cons in Hrow as [->|Hrow].
      * right; right. split; [|done]. intros Hin. by apply (cmp_irrefl k), Hk.
      * left. split; [|done]. intros Heq. apply (cmp_irrefl k), Hk. rewrite <- Heq.
        by apply list_elem_of_fmap_2.
    + assert (before cmp k0 k) as Hk0k by (unfold before; by rewrite cmp_antisym, Hc).
      apply elem_of_cons in Hrow as [->|Hrow].
      * left. split; [|left]. simpl. intros Heq. rewrite Heq in Hk0k.
        by apply (cmp_irrefl k).
      * destruct (IH Hrest Hrow) as [[Hne Hin]|[(c & Hin & ->)|[Hnotin ->]]].
        -- left. split; [done|by right].
        -- right; left. exists c. split; [by right|done].
        -- right; right. split; [|done].
           intros [Heq|Hin]%elem_of_cons; [|done].
           simpl in Heq. rewrite Heq in Hk0k. by apply (cmp_irrefl k0).
Qed.

Lemma occurrences_snoc (k : K) (seen : list R) (r : R) :
  occurrences key k (seen ++ [r])
  = (occurrences key k seen + if decide (key r = k) then 1 else 0)%nat.
Proof.
  unfold occurrences. rewrite filter_app, length_app. f_equal.
  rewrite filter_cons, filter_nil. by case_decide.
Qed.

Lemma occurrences_none (k : K) (seen : list R) :
  (∀ r, r ∈ seen → key r ≠ k) → occurrences key k seen = 0%nat.
Proof.
  intros Hnone. unfold occurrences.
  induction seen as [|r seen IH]; [done|].
  rewrite filter_cons. case_decide as Hk.
  - destruct (Hnone r); [left|done].
  - apply IH. intros r' Hr'. apply Hnone. by right.
Qed.

Lemma tally_exact (r : R) (seen : list R) (acc : list (K * nat)) :
  StronglySorted (before cmp) acc.*1 →
  (∀ r', r' ∈ seen → key r' ∈ acc.*1) →
  Forall (counted key seen) acc →
  Forall (counted key (seen ++ [r])) (tally cmp (key r) acc).
Proof.
  intros Hs Hcov Hall. apply Forall_forall. intros row Hrow.
  destruct (tally_rows _ _ _ Hs Hrow) as [[Hne Hin]|[(c & Hin & ->)|[Hnotin ->]]].
  - eapply Forall_forall in Hall as [Hc Hpos]; [|exact Hin].
    split; [|done]. rewrite occurrences_snoc, decide_False by done. lia.
  - eapply Forall_forall in Hall as [Hc Hpos]; [|exact Hin]. simpl in *.
    split; [|simpl; lia]. simpl. rewrite occurrences_snoc, decide_True by done. lia.
  - split; [|simpl; lia]. simpl. rewrite occurrences_snoc, decide_True by done.
    rewrite occurrences_none; [done|].
    intros r' Hr' Hk. apply Hnotin. rewrite <- Hk. by apply Hcov.
Qed.

Lemma foldl_tally_exact (df seen : list R) (acc : list (K * nat)) :
  StronglySorted (before cmp) acc.*1 →
  (∀ r', r' ∈ seen → key r' ∈ acc.*1) →
  Forall (counted key seen) acc →
  let table := foldl (λ acc r, tally cmp (key r) acc) acc df in
  StronglySorted (before cmp) table.*1
  ∧ (∀ r', r' ∈ seen ++ df → key r' ∈ table.*1)
  ∧ Forall (counted key (seen ++ df)) table.
Proof.
  revert seen acc. induction df as [|r df IH]; intros seen acc Hs Hcov Hall; simpl.
  - by rewrite app_nil_r.
  - replace (seen ++ r :: df) with ((seen ++ [r]) ++ df) by by rewrite <- app_assoc.
    apply IH.
    + by apply tally_sorted.
    + intros r' [Hr'|Hr']%elem_of_app; apply tally_keys.
      * right. by apply Hcov.
      * apply list_elem_of_singleton in Hr' as ->. by left.
    + by apply tally_exact.
Qed.

(** [groupby(key).size()] yields the table of counts of the frame. *)
Lemma groupby_size_exact (df : list R) :
  table_of cmp key df (groupby_size cmp key df).
Proof.
  unfold table_of, groupby_size.
  destruct (foldl_tally_exact df [] []) as (Hs & Hcov & Hall);
    [constructor|by intros r' ?%elem_of_nil|constructor|].
  split; [done|split; [|done]].
  intros k. split.
  - intros Hin. apply list_elem_of_fmap in Hin as ([k' c] & -> & Hrow).
    eapply Forall_forall in Hall as [Hc Hpos]; [|exact Hrow]. simpl in *.
    unfold occurrences in Hc.
    destruct (filter (λ r, key r = k') df) as [|r rest] eqn:Hf; [simpl in Hc; lia|].
    assert (r ∈ filter (λ r, key r = k') df) as [Hk Hr]%list_elem_of_filter
      by (rewrite Hf; left).
    eauto.
  - intros (r & Hr & <-). by apply Hcov.
Qed.
End exact_counts.

(** ** The analyzer on the frame of the extractor *)

Section analyzer_tables.
Import chrome_history_analyzer.

Lemma Z_compare_trans (a b c : Z) : (a ?= b) = Lt → (b ?= c) = Lt → (a ?= c) = Lt.
Proof. rewrite !Z.compare_lt_iff. lia. Qed.

Lemma Z_compare_antisym (a b : Z) : (a ?= b) = CompOpp (b ?= a).
Proof. by rewrite Z.compare_antisym. Qed.

Lemma sorted_range_length (l : list Z) (a b : Z) :
  StronglySorted (before Z.compare) l →
  Forall (λ x, a ≤ x ≤ b) l →
  Z.of_nat (length l) ≤ Z.max 0 (b - a + 1).
Proof.
  revert a. induction l as [|x l IH]; intros a Hs Hall; simpl length; [lia|].
  apply StronglySorted_inv in Hs as [Hs Hx].
  apply Forall_cons in Hall as [Hxa Hall].
  assert (Forall (λ y, x + 1 ≤ y ≤ b) l) as Hl.
  { apply Forall_forall. intros y Hy.
    eapply Forall_forall in Hx; [|exact Hy]. eapply Forall_forall in Hall; [|exact Hy].
    change (x < y) in Hx. simpl in Hall. lia. }
  specialize (IH (x + 1) Hs Hl). simpl in Hxa. lia.
Qed.

Lemma sorted_NoDup {K} (cmp : K → K → comparison) (l : list K) :
  (∀ a, cmp a a ≠ Lt) → StronglySorted (before cmp) l → NoDup l.
Proof.
  intros Hirr. induction 1 as [|x l Hs IH Hx]; constructor; [|done].
  intros Hin. eapply Forall_forall in Hx; [|exact Hin]. by apply (Hirr x).
Qed.

Lemma positive_counts_length {K} (t : list (K * nat)) :
  Forall (λ row, (0 < row.2)%nat) t → (length t ≤ total t)%nat.
Proof. induction 1 as [|row t Hrow _ IH]; simpl; lia. Qed.

Lemma dt_day_name_known (t : Z) : dt_day_name t ∈ day_names.
Proof.
  unfold dt_day_name.
  pose proof (Z.mod_pos_bound (dt_date t + 3) 7 ltac:(lia)) as Hb.
  destruct (day_names !! Z.to_nat ((dt_date t + 3) `mod` 7)) as [name|] eqn:Hn.
  - simpl. by eapply list_elem_of_lookup_2.
  - apply lookup_ge_None in Hn. simpl in Hn. lia.
Qed.

Lemma dt_hour_alt (t : Z) : dt_hour t = t `div` 3600 - 24 * dt_date t.
Proof.
  unfold dt_hour, dt_date.
  rewrite Z.mod_eq by lia. rewrite Z.div_div by lia. reflexivity.
Qed.

Lemma dt_hour_monotone (a b : Z) : dt_date a = dt_date b → a ≤ b → dt_hour a ≤ dt_hour b.
Proof.
  intros Hd Hab. rewrite !dt_hour_alt, Hd.
  pose proof (Z.div_le_mono a b 3600 ltac:(lia) Hab). lia.
Qed.

Lemma sum_Z_map_le {A} (f g : A → Z) (l : list A) :
  Forall (λ x, f x ≤ g x) l → sum_Z (map f l) ≤ sum_Z (map g l).
Proof. induction 1 as [|x l Hx _ IH]; simpl in *; lia. Qed.

Lemma mean_map_le {A} (f g : A → Z) (l : list A) :
  Forall (λ x, f x ≤ g x) l → pyfloat_le (mean (map f l)) (mean (map g l)).
Proof.
  intros Hall. pose proof (sum_Z_map_le f g l Hall) as Hsum.
  destruct l as [|x l]; [done|]. simpl map. unfold mean, pyfloat_le, Qle.
  cbn [Qnum Qden length]. rewrite !length_map.
  apply Z.mul_le_mono_nonneg_r; [lia|exact Hsum].
Qed.

Lemma analyzer_tables (df : list VisitRecord) :
  table_of Z.compare hour df (groupby_size Z.compare hour df)
  ∧ table_of String.compare day_of_week df (groupby_size String.compare day_of_week df)
  ∧ table_of String.compare domain df (groupby_size String.compare domain df).
Proof.
  split; [|split].
  - apply groupby_size_exact;
      [apply Z.compare_eq_iff|apply Z_compare_antisym|apply Z_compare_trans].
  - apply groupby_size_exact;
      [apply string_compare_eq|apply String.compare_antisym|apply string_compare_trans].
  - apply groupby_size_exact;
      [apply string_compare_eq|apply String.compare_antisym|apply string_compare_trans].
Qed.

(** X5.  The three tables of the analyzer are exact: the hourly, the
    weekday and the domain table each list the keys present among the Visit
    Records once, in increasing order, and beside each key the number of
    records that carry it. *)
Theorem analyzer_tables_exact (df : list VisitRecord) :
  table_of Z.compare hour df (groupby_size Z.compare hour df)
  ∧ table_of String.compare day_of_week df (groupby_size String.compare day_of_week df)
  ∧ table_of String.compare domain df (groupby_size String.compare domain df).
Proof. apply analyzer_tables. Qed.

Lemma table_keys_from {K} `{EqDecision K} (cmp : K → K → comparison) (key : VisitRecord → K)
    (df : list VisitRecord) (table : list (K * nat)) (P : K → Prop) :
  table_of cmp key df table → (∀ r, r ∈ df → P (key r)) → Forall P table.*1.
Proof.
  intros (_ & Hkeys & _) HP. apply Forall_forall. intros k (r & Hr & <-)%Hkeys. by apply HP.
Qed.

(** X6.  On Visit Records as the extractor derives them, the hourly table
    has at most 24 rows and the weekday table at most 7; the domain table
    never has more rows than there are records. *)
Theorem analyzer_tables_sizes (df : list VisitRecord) :
  Forall derived df →
  (length (groupby_size Z.compare hour df) ≤ 24)%nat
  ∧ (length (groupby_size String.compare day_of_week df) ≤ 7)%nat
  ∧ (length (groupby_size String.compare domain df) ≤ length df)%nat.
Proof.
  intros Hder. destruct (analyzer_tables df) as (Hh & Hd & Hdom).
  split; [|split].
  - pose proof (table_keys_from _ _ _ _ (λ x, 0 ≤ x ≤ 23) Hh) as Hrange.
    destruct Hh as (Hs & _).
    pose proof (sorted_range_length _ 0 23 Hs) as Hlen.
    rewrite length_fmap in Hlen. 
    assert (Z.of_nat (length (groupby_size Z.compare hour df)) ≤ 0 `max` (23 - 0 + 1)); [|lia].
    apply Hlen, Hrange. intros r Hr.
    eapply Forall_forall in Hder as (-> & _); [|exact Hr]. apply dt_hour_range.
  - pose proof (table_keys_from _ _ _ _ (λ x, x ∈ day_names) Hd) as Hknown.
    destruct Hd as (Hs & _).
    apply (sorted_NoDup String.compare) in Hs;
      [|intros a; by rewrite string_compare_refl].
    assert ((groupby_size String.compare day_of_week df).*1 ⊆+ day_names) as Hsub.
    { apply NoDup_submseteq; [done|]. apply Forall_forall, Hknown. intros r Hr.
      eapply Forall_forall in Hder as (_ & _ & ->); [|exact Hr]. apply dt_day_name_known. }
    apply submseteq_length in Hsub. by rewrite length_fmap in Hsub.
  - destruct Hdom as (_ & _ & Hall).
    rewrite <- (groupby_size_total String.compare domain df).
    apply positive_counts_length. eapply Forall_impl; [exact Hall|]. by intros row [_ ?].
Qed.

Lemma first_hour_le_last (df : list VisitRecord) :
  Forall derived df →
  Forall (λ g : Z * (Z * Z), dt_hour g.2.1 ≤ dt_hour g.2.2) (groupby_min_max date visit_time df).
Proof.
  intros Hder. eapply Forall_impl; [apply groupby_min_max_spans|].
  intros g (Hb & (rlo & Hrlo & Hklo & Hlo) & (rhi & Hrhi & Hkhi & Hhi)). simpl.
  pose proof (Hb rlo Hrlo Hklo) as Hle.
  pose proof (proj1 (Forall_forall _ _) Hder rlo Hrlo) as (_ & Hdlo & _).
  pose proof (proj1 (Forall_forall _ _) Hder rhi Hrhi) as (_ & Hdhi & _).
  apply dt_hour_monotone; [congruence|lia].
Qed.

(** X7.  On Visit Records as the extractor derives them, lines 132-144
    never put the average first browsing hour after the average last
    browsing hour: within every date the first hour is at most the last. *)
Theorem avg_first_hour_le_last (df : list VisitRecord) hourly daily domains :
  Forall derived df →
  pyfloat_le (avg_first_hour (summarize df hourly daily domains))
             (avg_last_hour (summarize df hourly daily domains)).
Proof.
  intros Hder. unfold summarize. cbn [avg_first_hour avg_last_hour].
  apply (mean_map_le (λ d : Z * (Z * Z), dt_hour d.2.1) (λ d, dt_hour d.2.2)).
  by apply first_hour_le_last.
Qed.

Lemma three_visits_derived : Forall derived three_visits.
Proof. repeat constructor. Qed.

Lemma analyzer_tables_sizes_witness :
  (length (groupby_size Z.compare hour three_visits) ≤ 24)%nat
  ∧ (length (groupby_size String.compare day_of_week three_visits) ≤ 7)%nat
  ∧ (length (groupby_size String.compare domain three_visits) ≤ length three_visits)%nat.
Proof. apply (analyzer_tables_sizes three_visits), three_visits_derived. Defined.

Lemma avg_first_hour_le_last_witness :
  pyfloat_le (avg_first_hour (summarize three_visits [] [] []))
             (avg_last_hour (summarize three_visits [] [] [])).
Proof. apply (avg_first_hour_le_last three_visits [] [] []), three_visits_derived. Defined.
End analyzer_tables.

(** ** The analyzer script as a whole *)

Section script.
Import chrome_history_analyzer.

Lemma append_inv_head (s a b : string) : s +:+ a = s +:+ b → a = b.
Proof. induction s as [|c s IH]; simpl; [done|]. intros [= H]. by apply IH. Qed.

Lemma history_is_not_temp h history_db :
  get_chrome_history_path h = Ok history_db → history_db ≠ temp_copy h.
Proof.
  unfold get_chrome_history_path, temp_copy.
  repeat case_match; intros [= <-] Heq; by apply append_inv_head in Heq.
Qed.

Lemma extract_summary L h days w :
  ∃ r files evs,
    extract_chrome_history L h days w = (r, mkWorld files (trace w ++ evs))
    ∧ (∀ p, p ≠ temp_copy h → files !! p = fs w !! p)
    ∧ only_touches (temp_copy h) evs
    ∧ (match get_chrome_history_path h with
       | inl e => r = inl e ∧ evs = [] ∧ files = fs w
       | inr _ =>
           (r = inl (SystemExit 1) ∧ printed evs ≠ [])
           ∨ (∃ rows, r = inr (map (add_columns L) rows) ∧ printed evs = [])
       end).
Proof.
  destruct (get_chrome_history_path h) as [e|history_db] eqn:Hp.
  - exists (inl e), (fs w), []. split; [|by repeat split; try constructor].
    unfold extract_chrome_history, mbind, IO_bind, lift. rewrite Hp, app_nil_r. by destruct w.
  - destruct (fs w !! history_db) as [c|] eqn:Hc.
    + rewrite (extract_run L h days w history_db c Hp Hc). cbn zeta.
      assert (∀ p, p ≠ temp_copy h → delete (temp_copy h) (fs w) !! p = fs w !! p) as Hframe.
      { intros p Hne. by rewrite lookup_delete_ne. }
      destruct (copy2 h) as [|[part|] msg]; [destruct (connect h) as [f|];
        [|destruct (cutoff_timestamp h days) as [e|cutoff];
          [|destruct (read_sql_query h c cutoff) as [f|df]]]| |];
        eexists _, _, _; (split; [reflexivity|]); (split; [exact Hframe|]);
        try (split; [by repeat constructor|]; (by left) || (right; by eexists)).
      split; [|by left].
      unfold removal. case_bool_decide; by repeat constructor.
    + rewrite (extract_run_missing L h days w history_db Hp Hc).
      eexists _, _, _. split; [reflexivity|]. split; [done|].
      split; [by repeat constructor|by left].
Qed.

Lemma only_touches_app p evs1 evs2 :
  only_touches p evs1 → only_touches p evs2 → only_touches p (evs1 ++ evs2).
Proof. apply Forall_app_2. Qed.

Lemma analyze_raises L df : analyze_browsing_patterns L df = Raise unexpected_descending.
Proof. unfold analyze_browsing_patterns. by rewrite sort_values_descending_raises. Qed.

Lemma main_summary L W h args w :
  ∃ r files evs,
    main L W h args w = (r, mkWorld files (trace w ++ evs))
    ∧ exit_status r = 1
    ∧ (∀ p, p ≠ temp_copy h → files !! p = fs w !! p)
    ∧ only_touches (temp_copy h) evs.
Proof.
  unfold main. unfold mbind at 1, IO_bind at 1, print at 1, emit at 1.
  unfold mbind at 1, IO_bind at 1.
  match goal with |- context [extract_chrome_history L h ?d ?w1] =>
    destruct (extract_summary L h d w1) as (r & files & evs & -> & Hframe & Hevs & Hr) end.
  cbn [fs trace] in *.
  destruct r as [e|df].
  - eexists _, _, _. rewrite <- app_assoc. split; [reflexivity|].
    split; [|split; [done|apply only_touches_app; [by repeat constructor|done]]].
    destruct (get_chrome_history_path h) as [e0|] eqn:Hp.
    + destruct Hr as ([= ->] & _). unfold get_chrome_history_path in Hp.
      repeat case_match; by inversion Hp.
    + destruct Hr as [[[= ->] _]|(rows & [=] & _)]. done.
  - unfold mbind, IO_bind, print, emit, lift. cbn [fs trace].
    rewrite analyze_raises. 
    eexists _, _, _. rewrite <- !app_assoc. split; [reflexivity|].
    split; [done|split; [done|]].
    apply only_touches_app; [by repeat constructor|].
    apply only_touches_app; [done|by repeat constructor].
Qed.

End script.

(** ** llm_integration: every provider; daily_summary: the archive *)

Section submission_all.
Import llm_integration.

Lemma submit_printing h p prompt :
  ∃ result, ∀ w, ∃ lines,
    submit h p prompt w = (inr result, mkWorld (fs w) (trace w ++ map EvPrint lines))
    ∧ (lines ≠ [] → result = PyNone).
Proof.
  destruct p; unfold submit.
  - unfold analyze_with_openai, mbind, IO_bind, try_except, import, environ_get, call.
    case_bool_decide; simpl; [|by exists PyNone; intros w; eexists [_]].
    destruct (environ h !! "OPENAI_API_KEY") as [key|]; simpl;
      [|by exists PyNone; intros w; eexists [_]].
    destruct (String.eqb key ""); simpl; [by exists PyNone; intros w; eexists [_]|].
    destruct (openai_create h key prompt) as [msg|v]; simpl;
      [by exists PyNone; intros w; eexists [_]|].
    exists v; intros w; exists []; simpl. rewrite app_nil_r. by destruct w.
  - unfold analyze_with_anthropic, mbind, IO_bind, try_except, import, environ_get, call.
    case_bool_decide; simpl; [|by exists PyNone; intros w; eexists [_]].
    destruct (environ h !! "ANTHROPIC_API_KEY") as [key|]; simpl;
      [|by exists PyNone; intros w; eexists [_]].
    destruct (String.eqb key ""); simpl; [by exists PyNone; intros w; eexists [_]|].
    destruct (anthropic_create h key prompt) as [msg|v]; simpl;
      [by exists PyNone; intros w; eexists [_]|].
    exists v; intros w; exists []; simpl. rewrite app_nil_r. by destruct w.
  - unfold analyze_with_local_llm, mbind, IO_bind, try_except, import, call, get.
    case_bool_decide; simpl; [|by exists PyNone; intros w; eexists [_]].
    destruct (requests_post h ollama_url prompt) as [msg|response]; simpl;
      [by exists PyNone; intros w; eexists [_; _]; rewrite <- app_assoc|].
    destruct (status_code response =? 200); simpl;
      [|by exists PyNone; intros w; eexists [_]].
    destruct (json response) as [msg|body]; simpl;
      [by exists PyNone; intros w; eexists [_; _]; rewrite <- app_assoc|].
    destruct body; simpl;
      try (by exists PyNone; intros w; eexists [_; _]; rewrite <- app_assoc).
    eexists; intros w; exists []; simpl. rewrite app_nil_r. by destruct w.
Qed.




Lemma main_run h args w prompt :
  fs w !! prompt_file args = Some prompt →
  main h args w =
    (insights ← submit h (provider args) prompt;
     if truthy insights then
       print (nl +:+ "=== LLM Insights ===" +:+ nl);;
       print_obj insights;;
       save_insights insights insights_file
     else
       print "Failed to get insights from LLM.")
      (mkWorld (fs w)
         (trace w ++ [EvPrint (PyStr ("Analyzing browsing history with "
                                        +:+ provider_name (provider args) +:+ "..."))])).
Proof.
  intros Hprompt. unfold main.
  unfold mbind at 1, IO_bind at 1, path_exists at 1, read_file. rewrite Hprompt. simpl.
  unfold mbind at 1, IO_bind at 1. rewrite Hprompt.
  unfold mbind at 1, IO_bind at 1. unfold print at 1, emit at 1. reflexivity.
Qed.

Lemma obtained_run h args w prompt insights w1 :
  fs w !! prompt_file args = Some prompt →
  obtained h args w = Some insights →
  ∃ lines, submit h (provider args) prompt w1
           = (inr insights, mkWorld (fs w1) (trace w1 ++ map EvPrint lines)).
Proof.
  intros Hprompt. unfold obtained. rewrite Hprompt.
  destruct (submit_printing h (provider args) prompt) as [result Hrun].
  destruct (Hrun w) as (lines & -> & _). simpl. intros [= ->].
  destruct (Hrun w1) as (lines1 & -> & _). by exists lines1.
Qed.

Lemma obtained_is_Some h args w prompt :
  fs w !! prompt_file args = Some prompt → is_Some (obtained h args w).
Proof.
  intros Hprompt. unfold obtained. rewrite Hprompt.
  destruct (submit_printing h (provider args) prompt) as [result Hrun].
  destruct (Hrun w) as (lines & -> & _). by eexists.
Qed.

Lemma main_no_insights h args w :
  (∀ insights, obtained h args w = Some insights → truthy insights = false) →
  printing (main h args) tt w.
Proof.
  intros Hfalsy. unfold printing.
  destruct (fs w !! prompt_file args) as [prompt|] eqn:Hprompt.
  - destruct (obtained_is_Some h args w prompt Hprompt) as [insights Hobt].
    rewrite (main_run h args w prompt Hprompt).
    unfold mbind at 1, IO_bind at 1.
    match goal with |- context [submit _ _ _ ?w1] =>
      destruct (obtained_run h args w prompt insights w1 Hprompt Hobt) as [lines ->] end.
    rewrite (Hfalsy _ Hobt). unfold print, emit. cbn [fs trace].
    eexists (_ :: lines ++ [_]). rewrite <- !app_assoc. simpl. rewrite map_app. reflexivity.
  - unfold main. unfold mbind at 1, IO_bind at 1, path_exists at 1. rewrite Hprompt. simpl.
    unfold mbind, IO_bind, print, emit; simpl.
    eexists [_; _]. simpl. by rewrite <- app_assoc.
Qed.

(** X13.  Whenever the submission step obtains no insights (the prompt
    file is missing, or the backend of whichever provider returns something
    false in a test: [None], an empty string) it ends normally, with exit
    status 0, and changes no file: insights of an earlier run stay where
    they are. *)
Theorem main_without_insights h args w :
  (∀ insights, obtained h args w = Some insights → truthy insights = false) →
  (main h args w).1 = inr tt
  ∧ exit_status (main h args w).1 = 0
  ∧ fs (main h args w).2 = fs w
  ∧ fs_events (new_events w (main h args w).2) = [].
Proof.
  intros Hfalsy. destruct (main_no_insights h args w Hfalsy) as [lines ->].
  cbn [fst snd fs]. by rewrite new_events_app, fs_events_prints.
Qed.

Lemma main_without_insights_witness :
  let h := ollama_host (inr blank_reply) in
  let args := mkArgs local "output/llm_prompt.txt" in
  (main h args prompted_world).1 = inr tt
  ∧ exit_status (main h args prompted_world).1 = 0
  ∧ fs (main h args prompted_world).2 = fs prompted_world
  ∧ fs_events (new_events prompted_world (main h args prompted_world).2) = [].
Proof.
  apply (main_without_insights (ollama_host (inr blank_reply))
           (mkArgs local "output/llm_prompt.txt") prompted_world).
  intros insights Hobtained. vm_compute in Hobtained. by injection Hobtained as <-.
Defined.

Lemma main_string_insights h args w s :
  obtained h args w = Some (PyStr s) → s ≠ "" →
  ∃ lines, main h args w =
    (inr tt, mkWorld (<[insights_file := heading +:+ s]> (fs w))
               (trace w ++ map EvPrint lines ++ [EvPrint (PyStr s); EvWrite insights_file;
                  EvPrint (PyStr ("Insights saved to " +:+ insights_file))])).
Proof.
  intros Hobt Hs.
  destruct (fs w !! prompt_file args) as [prompt|] eqn:Hprompt;
    [|by unfold obtained in Hobt; rewrite Hprompt in Hobt].
  rewrite (main_run h args w prompt Hprompt).
  unfold mbind at 1, IO_bind at 1.
  match goal with |- context [submit _ _ _ ?w1] =>
    destruct (obtained_run h args w prompt _ w1 Hprompt Hobt) as [lines ->] end.
  assert (truthy (PyStr s) = true) as ->.
  { simpl. destruct s; [done|reflexivity]. }
  unfold save_insights, mkdir, open_w, write, f_write, print, print_obj, emit,
    mbind, IO_bind, mret, IO_ret.
  cbn [fs trace]. eexists (_ :: lines ++ [_]).
  f_equal. cbn [fs trace]. f_equal.
  - rewrite lookup_insert_eq. cbn [default]. rewrite insert_insert_eq.
    rewrite lookup_insert_eq. cbn [default]. by rewrite insert_insert_eq.
  - rewrite <- !app_assoc. simpl. rewrite map_app, <- !app_assoc. reflexivity.
Qed.

(** X14.  When the backend of whichever provider returns a non-empty
    string, the submission step prints it and ends normally with the
    insights file holding exactly the heading followed by that string: the
    file is opened once and replaced, not appended to, and no other file
    changes. *)
Theorem main_saves_string_insights h args w s :
  obtained h args w = Some (PyStr s) → s ≠ "" →
  (main h args w).1 = inr tt
  ∧ fs (main h args w).2 = <[insights_file := heading +:+ s]> (fs w)
  ∧ PyStr s ∈ printed (new_events w (main h args w).2)
  ∧ writes_of insights_file w (main h args w).2 = 1%nat.
Proof.
  intros Hobt Hs. destruct (main_string_insights h args w s Hobt Hs) as [lines ->].
  unfold writes_of. cbn [fst snd fs]. rewrite new_events_app. repeat split.
  - unfold printed. rewrite omap_app. apply elem_of_app. right. simpl. set_solver.
  - rewrite List.filter_app, no_write_in_prints. reflexivity.
Qed.

Lemma main_saves_string_insights_witness :
  let h := ollama_host (inr advice_reply) in
  let args := mkArgs local "output/llm_prompt.txt" in
  (main h args prompted_world).1 = inr tt
  ∧ fs (main h args prompted_world).2
    = <[insights_file := heading +:+ "Sleep earlier."]> (fs prompted_world)
  ∧ PyStr "Sleep earlier." ∈ printed (new_events prompted_world (main h args prompted_world).2)
  ∧ writes_of insights_file prompted_world (main h args prompted_world).2 = 1%nat.
Proof.
  apply (main_saves_string_insights (ollama_host (inr advice_reply))
           (mkArgs local "output/llm_prompt.txt") prompted_world "Sleep earlier.");
    [reflexivity|discriminate].
Defined.
End submission_all.

Section archive.
Import daily_summary.

Lemma dated_report_fresh today :
  dated_report today ≠ output_file ∧ dated_report today ≠ insights_file.
Proof. split; intros [=]. Qed.

Lemma dated_insights_fresh today :
  dated_insights today ≠ output_file ∧ dated_insights today ≠ insights_file
  ∧ dated_insights today ≠ dated_report today.
Proof.
  split; [by intros [=]|split; [by intros [=]|]].
  unfold dated_insights, dated_report. intros Heq.
  apply append_inv_head in Heq. apply append_inv_head in Heq. discriminate Heq.
Qed.

(** The orchestrator up to the archived report. *)
Lemma daily_summary_run h days analyze w report :
  (child h (analyzer_cmd days) (fs w)).1 = 0 →
  (child h (analyzer_cmd days) (fs w)).2 !! output_file = Some report →
  generate_daily_summary h days analyze w =
    (if analyze then
       subprocess_run h llm_cmd;;
       found ← path_exists insights_file;
       if found : bool then
         insights ← read_file insights_file;
         write_text (dated_insights (today h)) insights;;
         print ("Daily insights saved to " +:+ dated_insights (today h))
       else mret tt
     else mret tt)
      (mkWorld (<[dated_report (today h) := report]> (child h (analyzer_cmd days) (fs w)).2)
         (trace w ++ [EvSpawn (analyzer_cmd days); EvWrite (dated_report (today h));
                      EvPrint (PyStr ("Daily summary saved to " +:+ dated_report (today h)))])).
Proof.
  intros Hrc Hreport. unfold generate_daily_summary.
  unfold mbind at 1, IO_bind at 1, subprocess_run at 1. fold (analyzer_cmd days).
  destruct (child h (analyzer_cmd days) (fs w)) as [rc files]. simpl in Hrc, Hreport.
  subst rc. cbn [Z.eqb fst snd].
  unfold mbind at 1, IO_bind at 1, path_exists at 1. cbn [fs trace].
  rewrite Hreport. rewrite bool_decide_eq_true_2 by done. cbn [negb].
  unfold mbind at 1, IO_bind at 1, read_file at 1. cbn [fs trace]. rewrite Hreport.
  unfold mbind at 1, IO_bind at 1, mkdir at 1, mret at 1, IO_ret at 1.
  unfold mbind at 1, IO_bind at 1, write_text at 1, open_w at 1, write at 1.
  unfold mbind at 1, IO_bind at 1. cbn [fs trace].
  unfold mbind at 1, IO_bind at 1, print at 1, emit at 1. cbn [fs trace].
  rewrite lookup_insert_eq. cbn [default]. rewrite insert_insert_eq.
  rewrite <- !app_assoc. reflexivity.
Qed.

(** X15.  When the formatting step exits with status 0 and leaves a
    report, the orchestrator (without [--analyze]) ends normally with the
    dated file holding exactly the report, whatever it held before; every
    other file is as the formatting step left it, and the only events are
    the child process, the one write and the closing line. *)
Theorem daily_summary_archives_report h days w report :
  let files := (child h (analyzer_cmd days) (fs w)).2 in
  let run := generate_daily_summary h days false w in
  (child h (analyzer_cmd days) (fs w)).1 = 0 →
  files !! output_file = Some report →
  run.1 = inr tt
  ∧ fs run.2 !! dated_report (today h) = Some report
  ∧ (∀ p, p ≠ dated_report (today h) → fs run.2 !! p = files !! p)
  ∧ new_events w run.2 =
      [EvSpawn (analyzer_cmd days); EvWrite (dated_report (today h));
       EvPrint (PyStr ("Daily summary saved to " +:+ dated_report (today h)))].
Proof.
  intros files run Hrc Hreport. subst run.
  rewrite (daily_summary_run h days false w report Hrc Hreport).
  cbn [fst snd fs mret IO_ret]. fold files. split; [done|split; [|split]].
  - apply lookup_insert_eq.
  - intros p Hp. by rewrite lookup_insert_ne.
  - unfold new_events. cbn [trace]. by rewrite drop_app_length.
Qed.

Lemma daily_summary_archives_report_witness :
  let run := generate_daily_summary quiet_host 1 false reported_world in
  run.1 = inr tt
  ∧ fs run.2 !! dated_report "2024-01-01" = Some "report"
  ∧ (∀ p, p ≠ dated_report "2024-01-01" → fs run.2 !! p = fs reported_world !! p)
  ∧ new_events reported_world run.2 =
      [EvSpawn (analyzer_cmd 1); EvWrite (dated_report "2024-01-01");
       EvPrint (PyStr ("Daily summary saved to " +:+ dated_report "2024-01-01"))].
Proof.
  apply (daily_summary_archives_report quiet_host 1 reported_world "report"); reflexivity.
Defined.

Lemma daily_summary_after_report h days w report :
  let files := <[dated_report (today h) := report]> (child h (analyzer_cmd days) (fs w)).2 in
  let events :=
    [EvSpawn (analyzer_cmd days); EvWrite (dated_report (today h));
     EvPrint (PyStr ("Daily summary saved to " +:+ dated_report (today h)));
     EvSpawn llm_cmd] in
  (child h (analyzer_cmd days) (fs w)).1 = 0 →
  (child h (analyzer_cmd days) (fs w)).2 !! output_file = Some report →
  generate_daily_summary h days true w =
    let '(rc, remaining) := child h llm_cmd files in
    if rc =? 0 then
      match remaining !! insights_file with
      | Some insights =>
          (inr tt,
           mkWorld (<[dated_insights (today h) := insights]> remaining)
             (trace w ++ events ++
                [EvWrite (dated_insights (today h));
                 EvPrint (PyStr ("Daily insights saved to " +:+ dated_insights (today h)))]))
      | None => (inr tt, mkWorld remaining (trace w ++ events))
      end
    else (inl (CalledProcessError rc), mkWorld remaining (trace w ++ events)).
Proof.
  intros files events Hrc Hreport.
  rewrite (daily_summary_run h days true w report Hrc Hreport). fold files.
  unfold mbind at 1, IO_bind at 1, subprocess_run at 1. cbn [fs trace].
  destruct (child h llm_cmd files) as [rc remaining].
  destruct (Z.eqb_spec rc 0) as [->|Hne]; [|by rewrite <- !app_assoc].
  unfold mbind at 1, IO_bind at 1, path_exists at 1. cbn [fs trace].
  destruct (remaining !! insights_file) as [insights|] eqn:Hins.
  - rewrite bool_decide_eq_true_2 by done.
    unfold mbind at 1, IO_bind at 1, read_file at 1. cbn [fs trace]. rewrite Hins.
    cbv [mbind IO_bind write_text open_w write print emit]. cbn [fs trace fst snd].
    rewrite lookup_insert_eq. cbn [default]. rewrite insert_insert_eq.
    by rewrite <- !app_assoc.
  - rewrite bool_decide_eq_false_2 by apply is_Some_None.
    by rewrite <- !app_assoc.
Qed.

(** X16.  With [--analyze], once the report is archived the orchestrator
    runs the submission step on the files that include the dated report.
    If that step exits with a non-zero status the orchestrator ends with
    [CalledProcessError], the dated report already written; if it exits
    with 0 and the insights file is missing, the orchestrator ends normally
    and silently; if the insights file exists, its content is copied to the
    dated insights file and the closing line is printed. *)
Theorem daily_summary_analyze h days w report :
  let files := <[dated_report (today h) := report]> (child h (analyzer_cmd days) (fs w)).2 in
  let status := (child h llm_cmd files).1 in
  let remaining := (child h llm_cmd files).2 in
  let run := generate_daily_summary h days true w in
  (child h (analyzer_cmd days) (fs w)).1 = 0 →
  (child h (analyzer_cmd days) (fs w)).2 !! output_file = Some report →
  (status ≠ 0 → run.1 = inl (CalledProcessError status) ∧ fs run.2 = remaining)
  ∧ (status = 0 → remaining !! insights_file = None → run.1 = inr tt ∧ fs run.2 = remaining)
  ∧ (∀ insights, status = 0 → remaining !! insights_file = Some insights →
       run.1 = inr tt
       ∧ fs run.2 = <[dated_insights (today h) := insights]> remaining
       ∧ last (new_events w run.2)
         = Some (EvPrint (PyStr ("Daily insights saved to " +:+ dated_insights (today h))))).
Proof.
  intros files status remaining run Hrc Hreport. subst run status remaining.
  rewrite (daily_summary_after_report h days w report Hrc Hreport). cbn zeta. fold files.
  destruct (child h llm_cmd files) as [rc remaining]. cbn [fst snd].
  split; [|split].
  - intros Hne. by destruct (Z.eqb_spec rc 0).
  - by intros -> ->.
  - intros insights -> ->. cbn [Z.eqb fst snd fs]. split; [done|split; [done|]].
    unfold new_events. cbn [trace]. rewrite drop_app_length. reflexivity.
Qed.

Lemma daily_summary_analyze_witness :
  let run := generate_daily_summary quiet_host 1 true reported_world in
  run.1 = inr tt
  ∧ fs run.2 = <[dated_insights "2024-01-01" := "stale"]>
                 (<[dated_report "2024-01-01" := "report"]> (fs reported_world))
  ∧ last (new_events reported_world run.2)
    = Some (EvPrint (PyStr ("Daily insights saved to " +:+ dated_insights "2024-01-01"))).
Proof.
  apply (proj2 (proj2 (daily_summary_analyze quiet_host 1 reported_world "report"
                         eq_refl eq_refl)) "stale"); reflexivity.
Defined.

(** X17.  The orchestrator over the submission script of this repository,
    started as it is with no argument (provider [openai]) on a machine
    without [OPENAI_API_KEY]: the script fails to get insights yet exits
    with status 0, so insights left by an earlier run are archived under
    today's date as if they were new. *)
Theorem daily_summary_archives_stale_insights dh lh days w report stale :
  let files := (child dh (analyzer_cmd days) (fs w)).2 in
  let run := generate_daily_summary dh days true w in
  (child dh (analyzer_cmd days) (fs w)).1 = 0 →
  files !! output_file = Some report →
  files !! insights_file = Some stale →
  (∀ files', child dh llm_cmd files' = llm_child lh default_args files') →
  llm_integration.environ lh !! "OPENAI_API_KEY" = None →
  run.1 = inr tt
  ∧ fs run.2 = <[dated_insights (today dh) := stale]>
                 (<[dated_report (today dh) := report]> files).
Proof.
  intros files run Hrc Hreport Hstale Hchild Hkey.
  assert (∃ w', run = (inr tt, w')
                ∧ fs w' = <[dated_insights (today dh) := stale]>
                            (<[dated_report (today dh) := report]> files))
    as (w' & -> & Hw'); [|done].
  subst run.
  rewrite (daily_summary_after_report dh days w report Hrc Hreport). cbn zeta. fold files.
  rewrite Hchild. unfold llm_child.
  destruct (main_openai_without_key lh default_args
              (mkWorld (<[dated_report (today dh) := report]> files) []) eq_refl Hkey)
    as [lines ->].
  cbn [fst snd fs exit_status Z.eqb].
  rewrite lookup_insert_ne by apply dated_report_fresh. rewrite Hstale.
  eexists. split; reflexivity.
Qed.

Lemma daily_summary_archives_stale_insights_witness :
  let run := generate_daily_summary analyzing_host 1 true reported_world in
  run.1 = inr tt
  ∧ fs run.2 = <[dated_insights "2024-01-01" := "stale"]>
                 (<[dated_report "2024-01-01" := "report"]> (fs reported_world)).
Proof.
  apply (daily_summary_archives_stale_insights analyzing_host (ollama_host (inr empty_reply))
           1 reported_world "report" "stale"); reflexivity.
Defined.
End archive.

(** ** chrome_history_analyzer: what is written *)

Section outputs.
Import chrome_history_analyzer.

Lemma foldl_ext_on {A B C} (g : B → C) (f : A → B → A) (l1 l2 : list B) (acc : A) :
  (∀ a x y, g x = g y → f a x = f a y) →
  map g l1 = map g l2 → foldl f acc l1 = foldl f acc l2.
Proof.
  intros Hf. revert l2 acc. induction l1 as [|x l1 IH]; intros [|y l2] acc Hmap; try done.
  simpl in *. injection Hmap as Hxy Hmap. rewrite (Hf acc x y Hxy). by apply IH.
Qed.

Lemma recent_sample df1 df2 :
  sample df1 = sample df2 →
  frame_head 10 (recent_columns df1) = frame_head 10 (recent_columns df2).
Proof.
  unfold sample, frame_head, recent_columns, head. cbn [columns rows]. intros Hs.
  f_equal. rewrite <- !fmap_take.
  change (map ?f ?l) with (f <$> l) in Hs.
  assert (∀ df : list VisitRecord,
            (λ r, [CTime (visit_time r); title_cell (title r); CStr (url r)]) <$> df
            = (λ t : Z * option string * string,
                 [CTime t.1.1; title_cell t.1.2; CStr t.2]) <$> (shown <$> df)) as Hmap.
  { intros df. by rewrite <- list_fmap_compose. }
  change (map ?f ?l) with (f <$> l).
  by rewrite !Hmap, Hs.
Qed.

(** X18.  The prompt depends on the frame only through the visit time,
    title and URL of its first ten rows, and on the analysis only through
    the hourly table, the top domains and the two averages: the weekday
    table, and the duration, hour, date, weekday and domain of the rows,
    never reach it. *)
Theorem prompt_shows_ten_rows L a1 a2 df1 df2 :
  sample df1 = sample df2 →
  hourly_activity a1 = hourly_activity a2 →
  top_domains a1 = top_domains a2 →
  avg_first_hour a1 = avg_first_hour a2 →
  avg_last_hour a1 = avg_last_hour a2 →
  generate_llm_prompt L a1 df1 = generate_llm_prompt L a2 df2.
Proof.
  intros Hs Hh Ht Hf Hl. unfold generate_llm_prompt.
  by rewrite Hh, Ht, Hf, Hl, (recent_sample df1 df2 Hs).
Qed.

Lemma write_file_run p s w :
  write_file p s w = (inr tt, mkWorld (<[p := s]> (fs w)) (trace w ++ [EvWrite p])).
Proof.
  unfold write_file, open_w, write, mbind, IO_bind. cbn [fs trace].
  rewrite lookup_insert_eq. cbn [default]. by rewrite insert_insert_eq.
Qed.

(** X19.  The markdown report depends on the frame only through the visit
    time, title and URL of its first ten rows, and on the analysis only
    through the hourly table, the first ten top domains and the two
    averages. *)
Theorem report_shows_ten_rows L W h a1 a2 df1 df2 output_prefix :
  sample df1 = sample df2 →
  hourly_activity a1 = hourly_activity a2 →
  head 10 (top_domains a1) = head 10 (top_domains a2) →
  avg_first_hour a1 = avg_first_hour a2 →
  avg_last_hour a1 = avg_last_hour a2 →
  save_output L W h df1 a1 "markdown" output_prefix
  = save_output L W h df2 a2 "markdown" output_prefix.
Proof.
  intros Hs Hh Ht Hf Hl. unfold save_output.
  change (String.eqb "markdown" "csv") with false.
  change (String.eqb "markdown" "json") with false.
  change (String.eqb "markdown" "markdown") with true.
  cbv beta iota zeta.
  rewrite Hh, Ht, Hf, Hl.
  match goal with |- context [foldl ?F ?acc (head 10 df1)] =>
    rewrite (foldl_ext_on shown F (head 10 df1) (head 10 df2) acc) end; [done| |exact Hs].
  intros acc x y [= -> -> ->]. reflexivity.
Qed.

Lemma prompt_shows_ten_rows_witness :
  generate_llm_prompt plain_libs (mkAnalysis [] [("Monday", 3%nat)] [] NaN NaN) three_visits
  = generate_llm_prompt plain_libs (mkAnalysis [] [] [] NaN NaN) three_visits_elsewhere.
Proof.
  apply (prompt_shows_ten_rows plain_libs (mkAnalysis [] [("Monday", 3%nat)] [] NaN NaN)
           (mkAnalysis [] [] [] NaN NaN) three_visits three_visits_elsewhere); reflexivity.
Defined.

Lemma report_shows_ten_rows_witness :
  save_output plain_libs plain_writers (linux_host (inr [])) three_visits
    (mkAnalysis [] [("Monday", 3%nat)] [] NaN NaN) "markdown" "chrome_history"
  = save_output plain_libs plain_writers (linux_host (inr [])) three_visits_elsewhere
      (mkAnalysis [] [] [] NaN NaN) "markdown" "chrome_history".
Proof.
  apply (report_shows_ten_rows plain_libs plain_writers (linux_host (inr []))
           (mkAnalysis [] [("Monday", 3%nat)] [] NaN NaN) (mkAnalysis [] [] [] NaN NaN)
           three_visits three_visits_elsewhere "chrome_history"); reflexivity.
Defined.

Lemma append_assoc (a b c : string) : (a +:+ b) +:+ c = a +:+ b +:+ c.
Proof.
  induction a as [|x a IH]; [reflexivity|].
  change (String x ((a +:+ b) +:+ c) = String x (a +:+ b +:+ c)). by rewrite IH.
Qed.

Lemma joinpath_plain output_prefix suffix :
  plain_name output_prefix = true →
  joinpath "output" (output_prefix +:+ String (Ascii.ascii_of_nat 95) suffix)
  = ("output/" +:+ output_prefix +:+ "_") +:+ suffix.
Proof.
  intros Hplain.
  assert (joinpath "output" (output_prefix +:+ String (Ascii.ascii_of_nat 95) suffix)
          = "output" +:+ "/" +:+ output_prefix +:+ String (Ascii.ascii_of_nat 95) suffix) as ->.
  { destruct output_prefix as [|c rest]; [reflexivity|].
    simpl in Hplain. apply andb_true_iff in Hplain as [Hc _].
    apply andb_true_iff in Hc as [Hc _]. apply negb_true_iff in Hc.
    change (String c rest +:+ String (Ascii.ascii_of_nat 95) suffix)
      with (String c (rest +:+ String (Ascii.ascii_of_nat 95) suffix)).
    unfold joinpath. by rewrite Hc. }
  change (String (Ascii.ascii_of_nat 95) suffix) with ("_" +:+ suffix).
  rewrite !append_assoc. reflexivity.
Qed.

Lemma under_stem output_prefix suffix :
  plain_name output_prefix = true →
  under ("output/" +:+ output_prefix +:+ "_")
        (joinpath "output" (output_prefix +:+ String (Ascii.ascii_of_nat 95) suffix)).
Proof. intros Hplain. exists suffix. by apply joinpath_plain. Qed.

Lemma save_output_summary L W h df a output_format output_prefix w :
  plain_name output_prefix = true →
  ∃ files evs,
    save_output L W h df a output_format output_prefix w
    = (inr tt, mkWorld files (trace w ++ evs))
    ∧ (∀ p, ¬ under ("output/" +:+ output_prefix +:+ "_") p → files !! p = fs w !! p)
    ∧ only_writes_under ("output/" +:+ output_prefix +:+ "_") evs.
Proof.
  intros Hplain. unfold save_output, mkdir.
  unfold mbind at 1, IO_bind at 1, mret at 1, IO_ret at 1.
  destruct (String.eqb_spec output_format "csv") as [->|Hcsv];
    [|destruct (String.eqb_spec output_format "json") as [->|Hjson];
      [|destruct (String.eqb_spec output_format "markdown") as [->|Hmd]]].
  - cbv [mbind IO_bind]. repeat (rewrite write_file_run; cbv beta iota; cbn [fs trace]).
    cbv [print emit]. cbn [fs trace]. rewrite <- !app_assoc. cbn [app]. eexists _, [_; _; _; _].
    split; [reflexivity|]. split.
    + intros p Hp. rewrite !lookup_insert_ne; [done|..];
        intros <-; by apply Hp, under_stem.
    + repeat constructor; by apply under_stem.
  - cbv [mbind IO_bind]. repeat (rewrite write_file_run; cbv beta iota; cbn [fs trace]).
    cbv [print emit]. cbn [fs trace]. rewrite <- !app_assoc. cbn [app]. eexists _, [_; _; _].
    split; [reflexivity|]. split.
    + intros p Hp. rewrite !lookup_insert_ne; [done|..];
        intros <-; by apply Hp, under_stem.
    + repeat constructor; by apply under_stem.
  - cbv [mbind IO_bind]. repeat (rewrite write_file_run; cbv beta iota; cbn [fs trace]).
    cbv [print emit]. cbn [fs trace]. rewrite <- !app_assoc. cbn [app]. eexists _, [_; _].
    split; [reflexivity|]. split.
    + intros p Hp. rewrite !lookup_insert_ne; [done|..];
        intros <-; by apply Hp, under_stem.
    + repeat constructor; by apply under_stem.
  - cbv [mbind IO_bind mret IO_ret print emit]. cbn [fs trace]. eexists _, [_].
    split; [reflexivity|]. split; [done|]. by repeat constructor.
Qed.

(** X21.  A format other than [csv], [json] and [markdown] is not
    rejected: [save_output] writes nothing and still prints that the output
    was saved. *)
Theorem save_output_unknown_format L W h df a output_format output_prefix w :
  output_format ∉ ["csv"; "json"; "markdown"] →
  save_output L W h df a output_format output_prefix w
  = (inr tt, mkWorld (fs w) (trace w ++ [EvPrint (PyStr "Output saved to output directory")])).
Proof.
  intros Hnot. unfold save_output, mkdir.
  destruct (String.eqb_spec output_format "csv") as [->|_]; [exfalso; apply Hnot; set_solver|].
  destruct (String.eqb_spec output_format "json") as [->|_]; [exfalso; apply Hnot; set_solver|].
  destruct (String.eqb_spec output_format "markdown") as [->|_];
    [exfalso; apply Hnot; set_solver|].
  reflexivity.
Qed.

Lemma save_output_unknown_format_witness :
  save_output plain_libs plain_writers (linux_host (inr [])) three_visits
    (mkAnalysis [] [] [] NaN NaN) "xml" "chrome_history" empty_world
  = (inr tt, mkWorld ∅ [EvPrint (PyStr "Output saved to output directory")]).
Proof.
  apply (save_output_unknown_format plain_libs plain_writers (linux_host (inr [])) three_visits
           (mkAnalysis [] [] [] NaN NaN) "xml" "chrome_history" empty_world).
  set_solver.
Defined.

(** X20.  On a system other than Windows, for a prefix that is a plain
    file name (no path separator, no null character), whatever the format,
    [save_output] changes no file whose path does not start with
    [output/<prefix>_], removes nothing and starts no process: beside
    printing, it only opens files under that stem.  (A prefix that is an
    absolute path takes the files out of [output].) *)
Theorem save_output_stays_under_prefix L W h df a output_format output_prefix w :
  platform_system h ≠ "Windows" →
  plain_name output_prefix = true →
  let run := save_output L W h df a output_format output_prefix w in
  let stem := "output/" +:+ output_prefix +:+ "_" in
  (∀ p, ¬ under stem p → fs run.2 !! p = fs w !! p)
  ∧ only_writes_under stem (new_events w run.2).
Proof.
  intros _ Hplain run stem. subst run stem.
  destruct (save_output_summary L W h df a output_format output_prefix w Hplain)
    as (files & evs & -> & Hframe & Hevs).
  cbn [fst snd fs]. split; [exact Hframe|].
  unfold new_events. cbn [trace]. by rewrite drop_app_length.
Qed.

Lemma save_output_stays_under_prefix_witness :
  let run := save_output plain_libs plain_writers (linux_host (inr [])) three_visits
               (mkAnalysis [] [] [] NaN NaN) "csv" "chrome_history" empty_world in
  let stem := "output/" +:+ "chrome_history" +:+ "_" in
  (∀ p, ¬ under stem p → fs run.2 !! p = fs empty_world !! p)
  ∧ only_writes_under stem (new_events empty_world run.2).
Proof.
  apply (save_output_stays_under_prefix plain_libs plain_writers (linux_host (inr []))
           three_visits (mkAnalysis [] [] [] NaN NaN) "csv" "chrome_history" empty_world);
    [discriminate|reflexivity].
Defined.
End outputs.

(** ** The two scripts in sequence *)

Section pipeline.

Lemma append_cons c s t : String c s +:+ t = String c (s +:+ t).
Proof. reflexivity. Qed.

Lemma temp_copy_is_not_prompt h :
  chrome_history_analyzer.temp_copy h ≠ chrome_history_analyzer.prompt_path.
Proof.
  unfold chrome_history_analyzer.temp_copy, chrome_history_analyzer.prompt_path.
  generalize (chrome_history_analyzer.home h). intros s Heq.
  do 21 (destruct s as [|? s];
           [cbv in Heq; discriminate Heq|rewrite append_cons in Heq; injection Heq as _ Heq]).
  destruct s; cbv in Heq; discriminate Heq.
Qed.

(** X23.  The two scripts one after the other, on a machine that holds no
    prompt file: the analyzer ends without writing one, so the submission
    script, whatever the provider, reports the missing prompt file and ends
    normally without calling a backend or changing a file. *)
Theorem pipeline_stops_at_missing_prompt L W ah aargs lh provider w :
  fs w !! chrome_history_analyzer.prompt_path = None →
  let w1 := (chrome_history_analyzer.main L W ah aargs w).2 in
  fs w1 !! chrome_history_analyzer.prompt_path = None
  ∧ llm_integration.main lh (llm_integration.mkArgs provider chrome_history_analyzer.prompt_path) w1
    = (inr tt,
       mkWorld (fs w1)
         (trace w1 ++
            [EvPrint (PyStr "Prompt file not found: output/llm_prompt.txt");
             EvPrint (PyStr "Run chrome_history_analyzer.py first to generate the prompt file.")])).
Proof.
  intros Hnone w1.
  assert (fs w1 !! chrome_history_analyzer.prompt_path = None) as Hw1.
  { subst w1.
    destruct (main_summary L W ah aargs w) as (r & files & evs & -> & _ & Hframe & _).
    cbn [snd fs]. rewrite Hframe; [done|]. intros Heq. by apply (temp_copy_is_not_prompt ah). }
  split; [done|].
  unfold llm_integration.main. cbn [llm_integration.prompt_file].
  unfold mbind at 1, IO_bind at 1, path_exists at 1. rewrite Hw1.
  rewrite bool_decide_eq_false_2 by apply is_Some_None. cbn [negb].
  cbv [mbind IO_bind print emit]. cbn [fs trace]. by rewrite <- app_assoc.
Qed.

Lemma pipeline_stops_at_missing_prompt_witness :
  let w1 := (chrome_history_analyzer.main plain_libs plain_writers (linux_host (inr [one_row]))
               (chrome_history_analyzer.mkArgs 30 chrome_history_analyzer.csv)
               browsed_world).2 in
  fs w1 !! chrome_history_analyzer.prompt_path = None
  ∧ llm_integration.main (ollama_host (inr advice_reply))
      (llm_integration.mkArgs llm_integration.local chrome_history_analyzer.prompt_path) w1
    = (inr tt,
       mkWorld (fs w1)
         (trace w1 ++
            [EvPrint (PyStr "Prompt file not found: output/llm_prompt.txt");
             EvPrint (PyStr "Run chrome_history_analyzer.py first to generate the prompt file.")])).
Proof.
  apply (pipeline_stops_at_missing_prompt plain_libs plain_writers (linux_host (inr [one_row]))
           (chrome_history_analyzer.mkArgs 30 chrome_history_analyzer.csv)
           (ollama_host (inr advice_reply)) llm_integration.local browsed_world).
  reflexivity.
Defined.
End pipeline.

(** ** The extractor and the script on any machine *)

Section refined.
Import chrome_history_analyzer.

Lemma append_nonempty (s a : string) : a ≠ EmptyString → s +:+ a ≠ s.
Proof.
  intros Ha Heq. induction s as [|c s IH].
  - by destruct a.
  - injection Heq as Heq. by apply IH.
Qed.

Lemma side_files_apart (p : string) :
  wal_file p ≠ p ∧ shm_file p ≠ p ∧ wal_file p ≠ shm_file p.
Proof.
  unfold wal_file, shm_file. split; [by apply append_nonempty|split; [by apply append_nonempty|]].
  intros Heq. apply append_inv_head in Heq. discriminate Heq.
Qed.

Lemma apply_netloc_accepts s L (urls : list string) :
  Forall (λ x, urlparse_error s x = None) urls →
  apply (netloc_in s L) urls = Ok (map (netloc L) urls).
Proof.
  induction 1 as [|x urls Hx _ IH]; [done|].
  simpl. replace (netloc_in s L x) with (Ok (A:=string) (netloc L x))
    by (unfold netloc_in; by rewrite Hx).
  rewrite IH. reflexivity.
Qed.

Lemma add_columns_in_accepts s L df :
  Forall (λ r, urlparse_error s (raw_url r) = None) df →
  add_columns_in s L df = Ok (map (add_columns L) df).
Proof.
  intros Hok. unfold add_columns_in.
  rewrite apply_netloc_accepts by (by apply Forall_fmap).
  unfold Ok, mbind, except_bind. simpl. f_equal.
  clear Hok. induction df as [|r df IH]; [done|]. simpl. by rewrite IH.
Qed.

Lemma apply_netloc_returns s L (urls : list string) domains :
  apply (netloc_in s L) urls = Ok domains → domains = map (netloc L) urls.
Proof.
  revert domains. induction urls as [|x urls IH]; intros domains Hok.
  - by injection Hok as <-.
  - simpl in Hok.
    assert (netloc_in s L x
            = match urlparse_error s x with
              | Some msg => Raise (Exception_ msg)
              | None => Ok (netloc L x)
              end) as Hhead by reflexivity.
    rewrite Hhead in Hok. clear Hhead.
    destruct (urlparse_error s x); [discriminate Hok|].
    unfold Ok, mbind, except_bind in Hok. fold (@apply string string) in Hok.
    destruct (apply (netloc_in s L) urls) as [e|ys]; [discriminate Hok|].
    injection Hok as <-. simpl. by rewrite (IH ys eq_refl).
Qed.

Lemma add_columns_in_returns s L df rows :
  add_columns_in s L df = Ok rows → rows = map (add_columns L) df.
Proof.
  unfold add_columns_in. intros Hok.
  destruct (apply (netloc_in s L) (map raw_url df)) as [e|domains] eqn:Happly;
    [discriminate Hok|].
  apply apply_netloc_returns in Happly as ->.
  unfold Ok, mbind, except_bind in Hok. injection Hok as <-.
  clear. induction df as [|r df IH]; [done|]. simpl. by rewrite IH.
Qed.

Lemma add_columns_in_rejects s L df r msg :
  r ∈ df → urlparse_error s (raw_url r) = Some msg → ∃ e, add_columns_in s L df = Raise e.
Proof.
  intros Hin Hmsg.
  destruct (add_columns_in s L df) as [e|rows] eqn:Hadd; [by exists e|].
  exfalso. unfold add_columns_in in Hadd.
  destruct (apply (netloc_in s L) (map raw_url df)) as [e|domains] eqn:Happly;
    [discriminate Hadd|].
  clear Hadd. revert domains Happly.
  induction df as [|r0 df IH]; intros domains Happly; [by apply elem_of_nil in Hin|].
  simpl in Happly.
  assert (netloc_in s L (raw_url r0)
          = match urlparse_error s (raw_url r0) with
            | Some msg => Raise (Exception_ msg)
            | None => Ok (netloc L (raw_url r0))
            end) as Hhead by reflexivity.
  rewrite Hhead in Happly. clear Hhead.
  apply elem_of_cons in Hin as [<-|Hin].
  - rewrite Hmsg in Happly. discriminate Happly.
  - destruct (urlparse_error s (raw_url r0)); [discriminate Happly|].
    unfold Ok, mbind, except_bind in Happly. fold (@apply string string) in Happly.
    destruct (apply (netloc_in s L) (map raw_url df)) as [e|ys]; [discriminate Happly|].
    by eapply IH.
Qed.

Lemma add_columns_in_raises s L df e :
  add_columns_in s L df = Raise e →
  ∃ r msg, r ∈ df ∧ urlparse_error s (raw_url r) = Some msg ∧ e = Exception_ msg.
Proof.
  unfold add_columns_in. intros Hraise.
  assert (apply (netloc_in s L) (map raw_url df) = Raise e) as Happly.
  { unfold mbind, except_bind, Raise, Ok in *.
    destruct (apply (netloc_in s L) (map raw_url df)); [congruence|discriminate Hraise]. }
  clear Hraise. induction df as [|r df IH]; [discriminate Happly|].
  simpl in Happly.
  assert (netloc_in s L (raw_url r)
          = match urlparse_error s (raw_url r) with
            | Some msg => Raise (Exception_ msg)
            | None => Ok (netloc L (raw_url r))
            end) as Hhead by reflexivity.
  rewrite Hhead in Happly. clear Hhead.
  destruct (urlparse_error s (raw_url r)) as [msg|] eqn:Hr.
  - injection Happly as <-. exists r, msg. split; [left|done].
  - unfold Ok, mbind, except_bind in Happly. fold (@apply string string) in Happly.
    destruct (apply (netloc_in s L) (map raw_url df)) as [e'|ys] eqn:Hrest; [|discriminate Happly].
    injection Happly as ->. destruct (IH eq_refl) as (r' & msg & Hin & Hmsg & ->).
    exists r', msg. split; [by right|done].
Qed.

Ltac extract_crunch :=
  repeat (progress (cbn [world held_open fs trace fst snd negb andb is_sqlite3_Error is_Exception
                         fault_exn exn_str diagnostic];
                    rewrite ?lookup_insert_eq, ?lookup_delete_eq;
                    rewrite ?lookup_insert_ne by done;
                    rewrite ?lookup_delete_ne by done;
                    rewrite ?bool_decide_eq_true_2 by done;
                    rewrite ?bool_decide_eq_false_2 by apply is_Some_None;
                    try match goal with
                        | H : wal ?s ?c = _ |- context [wal ?s ?c] => rewrite H
                        end;
                    try match goal with
                        | H : removal_refused ?s = _ |- context [removal_refused ?s] =>
                            rewrite H
                        end;
                    cbv beta iota));
  rewrite <- ?app_assoc; try reflexivity.

(** A run of the extractor on a machine that has the history database and
    a temporary path that is free or a regular file, case by case. *)
Lemma extract_in_run s L h days w history_db c :
  at_temp s = None →
  get_chrome_history_path h = Ok history_db →
  fs w !! history_db = Some c →
  extract_chrome_history_in s L h days (start w) =
    let temp := temp_copy h in
    let copied := <[temp := c]> (fs w) in
    let removing r files evs open :=
      match removal_refused s with
      | Some msg => (inl (OSError msg), mkMachine (mkWorld files (trace w ++ evs)) open)
      | None =>
          (r, mkMachine (mkWorld (delete temp files) (trace w ++ evs ++ [EvRemove temp])) open)
      end in
    let closed r files evs := removing r files (EvWrite temp :: evs) false in
    let failed_open (f : fault) files evs :=
      if String.eqb (platform_system h) "Windows" then
        (inl (sharing_violation temp),
         mkMachine (mkWorld files (trace w ++ EvWrite temp :: evs ++ [EvPrint (PyStr (diagnostic f))]))
           true)
      else
        removing (inl (SystemExit 1)) files
          (EvWrite temp :: evs ++ [EvPrint (PyStr (diagnostic f))]) true in
    match copy2 h with
    | CopyFailed None msg =>
        if bool_decide (is_Some (fs w !! temp)) then
          removing (inl (SystemExit 1)) (fs w) [EvPrint (PyStr ("Error: " +:+ msg))] false
        else
          (inl (SystemExit 1),
           mkMachine (mkWorld (fs w) (trace w ++ [EvPrint (PyStr ("Error: " +:+ msg))])) false)
    | CopyFailed (Some part) msg =>
        closed (inl (SystemExit 1)) (<[temp := part]> (fs w))
          [EvPrint (PyStr ("Error: " +:+ msg))]
    | CopyDone =>
        match connect h with
        | Some f => closed (inl (SystemExit 1)) copied [EvPrint (PyStr (diagnostic f))]
        | None =>
            match cutoff_timestamp h days with
            | inl e => failed_open (OtherFault (exn_str e)) copied []
            | inr cutoff =>
                let read :=
                  match wal s c with
                  | Some (wal_content, shm_content) =>
                      (<[shm_file temp := shm_content]> (<[wal_file temp := wal_content]> copied),
                       [EvWrite (wal_file temp); EvWrite (shm_file temp)])
                  | None => (copied, [])
                  end in
                match read_sql_query h c cutoff with
                | inl f => failed_open f read.1 read.2
                | inr df =>
                    let shut :=
                      match wal s c with
                      | Some _ =>
                          (delete (shm_file temp) (delete (wal_file temp) read.1),
                           read.2 ++ [EvRemove (wal_file temp); EvRemove (shm_file temp)])
                      | None => read
                      end in
                    match add_columns_in s L df with
                    | inl e =>
                        closed (inl (SystemExit 1)) shut.1
                          (shut.2 ++ [EvPrint (PyStr ("Error: " +:+ exn_str e))])
                    | inr rows => closed (inr rows) shut.1 shut.2
                    end
                end
            end
        end
    end.
Proof.
  intros Hobs Hp Hc.
  destruct (side_files_apart (temp_copy h)) as (Hwal & Hshm & Hws).
  unfold extract_chrome_history_in, try_finally_in, try_except_in, copy2_in, connect_in,
    read_sql_query_in, close_in, exists_in, remove_in, database_file, hold, start.
  rewrite Hobs.
  unfold mbind at 1, Run_bind at 1, io at 1, lift. cbn [world held_open]. rewrite Hp. unfold Ok.
  unfold mbind at 1, Run_bind at 1, io at 1, path_exists at 1. cbn [world held_open].
  rewrite Hc. rewrite bool_decide_eq_true_2 by done. cbn [negb].
  unfold mbind at 1, Run_bind at 1, io at 1, shutil_copy2. cbn [world held_open]. rewrite Hc.
  destruct (removal_refused s) as [refusal|] eqn:Href;
    (destruct (copy2 h) as [|[part|] msg]).
  all: cbn zeta;
    unfold mbind, Run_bind, IO_bind, io, sqlite3_connect, path_exists, os_remove, print, emit,
      sys_exit, raise, lift, sharing_violation, wal_file, shm_file, mret, IO_ret,
      Run_ret in *;
    cbn [world held_open fs trace fst snd].
  1,4: destruct (connect h) as [f|]; cbn [world held_open fs trace fst snd];
    [destruct f; extract_crunch|];
    (destruct (cutoff_timestamp h days) as [e|cutoff] eqn:Hcut;
     [assert (∃ msg, e = OverflowError msg) as [msg ->]
        by (unfold cutoff_timestamp in Hcut; repeat case_match; inversion Hcut; by eexists);
      extract_crunch;
      destruct (String.eqb (platform_system h) "Windows"); extract_crunch|]);
    extract_crunch;
    (destruct (wal s c) as [[wal_content shm_content]|] eqn:Hwalc;
     (destruct (read_sql_query h c cutoff) as [f|df]; extract_crunch;
      [destruct f; extract_crunch;
       destruct (String.eqb (platform_system h) "Windows"); extract_crunch
      |destruct (add_columns_in s L df) as [e|rows] eqn:Hadd; extract_crunch;
       destruct (add_columns_in_raises s L df e Hadd) as (r & msg & _ & _ & ->);
       extract_crunch])).
  1,3: extract_crunch.
  all: extract_crunch; destruct (fs w !! temp_copy h) as [old|] eqn:Hold; extract_crunch;
    rewrite ?Hold; extract_crunch.
Qed.

Lemma extract_in_run_missing s L h days w history_db :
  get_chrome_history_path h = Ok history_db →
  fs w !! history_db = None →
  extract_chrome_history_in s L h days (start w) =
    (inl (SystemExit 1),
     start (mkWorld (fs w)
       (trace w ++ [EvPrint (PyStr ("Chrome history database not found at " +:+ history_db));
                    EvPrint (PyStr "Please check if Chrome is installed or if the path is correct.")]))).
Proof.
  intros Hp Hc. unfold extract_chrome_history_in, start.
  unfold mbind at 1, Run_bind at 1, io at 1, lift. cbn [world held_open]. rewrite Hp. unfold Ok.
  unfold mbind at 1, Run_bind at 1, io at 1, path_exists at 1. cbn [world held_open].
  rewrite Hc. rewrite bool_decide_eq_false_2 by apply is_Some_None. cbn [negb].
  unfold mbind, Run_bind, io, print, emit, sys_exit, raise. cbn [world held_open fs trace].
  by rewrite <- app_assoc.
Qed.

Lemma extract_in_run_unsupported s L h days m e :
  get_chrome_history_path h = Raise e →
  extract_chrome_history_in s L h days m = (inl e, m).
Proof.
  intros Hp. unfold extract_chrome_history_in, mbind, Run_bind, io, lift. rewrite Hp.
  by destruct m.
Qed.


Lemma is_write_of_other p q : q ≠ p → is_write_of p (EvWrite q) = false.
Proof. intros Hne. by apply String.eqb_neq. Qed.

Lemma is_remove_of_other p q : q ≠ p → is_remove_of p (EvRemove q) = false.
Proof. intros Hne. by apply String.eqb_neq. Qed.




(** X3.  When the temporary path is free or a regular file that the
    system lets be removed, the copy, the connection and the query succeed
    and [urlparse] accepts the URL of every row, the extractor returns the
    rows of the query in their order, each with its hour (between 0 and 23),
    date and weekday derived from its visit time and its domain from its
    URL. *)
Theorem extract_returns_rows s L h days w history_db c cutoff result :
  get_chrome_history_path h = Ok history_db →
  fs w !! history_db = Some c →
  at_temp s = None →
  removal_refused s = None →
  copy2 h = CopyDone →
  connect h = None →
  cutoff_timestamp h days = Ok cutoff →
  read_sql_query h c cutoff = inr result →
  Forall (λ r, urlparse_error s (raw_url r) = None) result →
  (extract_chrome_history_in s L h days (start w)).1 = inr (map (add_columns L) result)
  ∧ Forall (λ r, 0 ≤ hour r ≤ 23
                 ∧ hour r = dt_hour (visit_time r)
                 ∧ date r = dt_date (visit_time r)
                 ∧ day_of_week r = dt_day_name (visit_time r)
                 ∧ domain r = netloc L (url r))
      (map (add_columns L) result).
Proof.
  intros Hp Hc Hobs Href Hcopy Hconn Hcut Hquery Hurls.
  rewrite (extract_in_run s L h days w history_db c Hobs Hp Hc), Hcopy, Hconn, Hcut, Href.
  unfold Ok. rewrite Hquery. rewrite (add_columns_in_accepts s L result Hurls).
  split; [done|].
  apply Forall_forall. intros r (raw & -> & _)%list_elem_of_fmap. simpl.
  split; [apply dt_hour_range|done].
Qed.

Lemma extract_returns_rows_witness :
  (extract_chrome_history_in wal_mode plain_libs (linux_host (inr [one_row])) 30
     (start browsed_world)).1
  = inr (map (add_columns plain_libs) [one_row])
  ∧ Forall (λ r, 0 ≤ hour r ≤ 23
                 ∧ hour r = dt_hour (visit_time r)
                 ∧ date r = dt_date (visit_time r)
                 ∧ day_of_week r = dt_day_name (visit_time r)
                 ∧ domain r = netloc plain_libs (url r))
      (map (add_columns plain_libs) [one_row]).
Proof.
  apply (extract_returns_rows wal_mode plain_libs (linux_host (inr [one_row])) 30 browsed_world
           linux_history "SQLite format 3" 13345948800000000 [one_row]);
    [reflexivity|reflexivity|reflexivity|reflexivity|reflexivity|reflexivity|reflexivity
    |reflexivity|].
  by repeat constructor.
Defined.

Lemma history_is_not_a_temp_file h history_db :
  get_chrome_history_path h = Ok history_db → history_db ∉ temp_files h.
Proof.
  intros Hp. unfold temp_files, wal_file, shm_file.
  assert (history_db ≠ temp_copy h) as H1 by by apply history_is_not_temp.
  assert (∀ suffix, history_db ≠ temp_copy h +:+ "-" +:+ suffix) as H2.
  { intros suffix. unfold get_chrome_history_path, temp_copy in *. rewrite append_assoc.
    repeat case_match; try discriminate Hp; injection Hp as <-;
      intros Heq; apply append_inv_head in Heq; discriminate Heq. }
  intros Hin. repeat (apply elem_of_cons in Hin as [->|Hin]); try done.
  - by apply (H2 "wal").
  - by apply (H2 "shm").
  - by apply elem_of_nil in Hin.
Qed.

(** What a run of the extractor does when the temporary path is free or
    a regular file: the files it leaves, the events it adds and how it
    ends. *)
Lemma extract_in_summary s L h days w :
  at_temp s = None →
  ∃ r files evs open,
    extract_chrome_history_in s L h days (start w)
    = (r, mkMachine (mkWorld files (trace w ++ evs)) open)
    ∧ (∀ p, p ∉ temp_files h → files !! p = fs w !! p)
    ∧ touches_only (temp_files h) evs
    ∧ (removal_refused s = None →
       match get_chrome_history_path h with
       | inl e => r = inl e ∧ evs = [] ∧ files = fs w
       | inr _ =>
           (r = inl (SystemExit 1) ∧ printed evs ≠ [])
           ∨ (∃ rows, r = inr (map (add_columns L) rows) ∧ printed evs = [])
           ∨ (platform_system h = "Windows"
              ∧ r = inl (sharing_violation (temp_copy h)) ∧ printed evs ≠ [])
       end).
Proof.
  intros Hobs.
  destruct (side_files_apart (temp_copy h)) as (Hwal & Hshm & Hws).
  assert (∀ p (X : Prop), (p ≠ temp_copy h → p ≠ wal_file (temp_copy h)
                            → p ≠ shm_file (temp_copy h) → X)
                          → p ∉ temp_files h → X) as Hout.
  { intros p X HX Hp'. apply HX; intros ->; apply Hp'; unfold temp_files; set_solver. }
  assert (temp_copy h ∈ temp_files h ∧ wal_file (temp_copy h) ∈ temp_files h
          ∧ shm_file (temp_copy h) ∈ temp_files h) as (Ht1 & Ht2 & Ht3).
  { unfold temp_files. set_solver. }
  destruct (get_chrome_history_path h) as [e|history_db] eqn:Hp.
  - exists (inl e), (fs w), [], false. rewrite app_nil_r.
    split; [|by repeat split; try constructor].
    rewrite (extract_in_run_unsupported s L h days (start w) e Hp). by destruct w.
  - destruct (fs w !! history_db) as [c|] eqn:Hc.
    + rewrite (extract_in_run s L h days w history_db c Hobs Hp Hc). cbn zeta.
      destruct (removal_refused s) as [refusal|] eqn:Href;
      (destruct (String.eqb_spec (platform_system h) "Windows") as [Hwin|Hwin]);
      (destruct (copy2 h) as [|[part|] msg]; [destruct (connect h) as [f|];
        [|destruct (cutoff_timestamp h days) as [e|cutoff];
          [|destruct (wal s c) as [[wal_content shm_content]|];
            (destruct (read_sql_query h c cutoff) as [f|df];
             [|destruct (add_columns_in s L df) as [e|rows] eqn:Hadd])]]| |]);
        try case_bool_decide; cbn [fst snd];
        eexists _, _, _, _; (split; [reflexivity|]);
        (split; [intros p; apply Hout; intros;
                 by rewrite ?lookup_delete_ne, ?lookup_insert_ne by done|]);
        (split; [by repeat constructor|]); try (by intros [=]); intros _;
        try (first [by left | by right; right | right; left; by eexists]).
      all: apply add_columns_in_returns in Hadd as ->; right; left; by eexists.
    + rewrite (extract_in_run_missing s L h days w history_db Hp Hc).
      eexists _, _, _, _. split; [reflexivity|]. split; [done|].
      split; [by repeat constructor|intros _; by left].
Qed.

Lemma touches_only_app paths evs1 evs2 :
  touches_only paths evs1 → touches_only paths evs2 → touches_only paths (evs1 ++ evs2).
Proof. apply Forall_app_2. Qed.

(** X8.  When the temporary path is free or a regular file, the extractor
    leaves every file other than its temporary copy and the -wal and -shm
    files beside it as it found it, and it writes and removes nothing else;
    in particular Chrome's history database itself is never modified. *)
Theorem extract_leaves_other_files s L h days w :
  at_temp s = None →
  let w' := world (extract_chrome_history_in s L h days (start w)).2 in
  (∀ p, p ∉ temp_files h → fs w' !! p = fs w !! p)
  ∧ touches_only (temp_files h) (new_events w w')
  ∧ (∀ history_db,
       get_chrome_history_path h = Ok history_db → fs w' !! history_db = fs w !! history_db).
Proof.
  intros Hobs. cbn zeta.
  destruct (extract_in_summary s L h days w Hobs)
    as (r & files & evs & open & -> & Hframe & Hevs & _).
  cbn [snd fs world]. rewrite new_events_app. split; [done|split; [done|]].
  intros history_db Hp. by apply Hframe, history_is_not_a_temp_file.
Qed.

Lemma extract_leaves_other_files_witness :
  let h := linux_host (inl (SqliteFault "no such table: visits")) in
  let w' := world (extract_chrome_history_in wal_mode plain_libs h 30 (start browsed_world)).2 in
  (∀ p, p ∉ temp_files h → fs w' !! p = fs browsed_world !! p)
  ∧ touches_only (temp_files h) (new_events browsed_world w')
  ∧ (∀ history_db,
       get_chrome_history_path h = Ok history_db →
       fs w' !! history_db = fs browsed_world !! history_db).
Proof.
  apply (extract_leaves_other_files wal_mode plain_libs
           (linux_host (inl (SqliteFault "no such table: visits"))) 30 browsed_world).
  reflexivity.
Defined.

(** X9.  When the temporary path is free or a regular file that the
    system lets be removed, the extractor on a supported platform ends in
    one of three ways: it returns the rows of the query without printing
    anything; or it has printed a diagnostic and raises [SystemExit(1)]; or,
    on Windows only, it has printed a diagnostic and the refused removal of
    the copy that is still held open raises [OSError] in its place.  On an
    unsupported platform it raises the [OSError] of
    [get_chrome_history_path] and has done nothing. *)
Theorem extract_ends_in_rows_or_exit s L h days w :
  at_temp s = None →
  removal_refused s = None →
  let run := extract_chrome_history_in s L h days (start w) in
  match get_chrome_history_path h with
  | inl e => run = (inl e, start w)
  | inr _ =>
      (run.1 = inl (SystemExit 1) ∧ printed (new_events w (world run.2)) ≠ [])
      ∨ (∃ rows, run.1 = inr (map (add_columns L) rows)
                 ∧ printed (new_events w (world run.2)) = [])
      ∨ (platform_system h = "Windows"
         ∧ run.1 = inl (sharing_violation (temp_copy h))
         ∧ printed (new_events w (world run.2)) ≠ [])
  end.
Proof.
  intros Hobs Href. cbn zeta.
  destruct (get_chrome_history_path h) as [e|history_db] eqn:Hp.
  - by apply extract_in_run_unsupported.
  - destruct (extract_in_summary s L h days w Hobs)
      as (r & files & evs & open & -> & _ & _ & Hr).
    specialize (Hr Href). rewrite Hp in Hr. cbn [fst snd world]. by rewrite new_events_app.
Qed.

Lemma extract_ends_in_rows_or_exit_witness :
  let h := windows_host (inl (SqliteFault "no such table: visits")) in
  let run := extract_chrome_history_in tidy plain_libs h 30 (start windows_world) in
  (run.1 = inl (SystemExit 1) ∧ printed (new_events windows_world (world run.2)) ≠ [])
  ∨ (∃ rows, run.1 = inr (map (add_columns plain_libs) rows)
             ∧ printed (new_events windows_world (world run.2)) = [])
  ∨ (platform_system h = "Windows"
     ∧ run.1 = inl (sharing_violation (temp_copy h))
     ∧ printed (new_events windows_world (world run.2)) ≠ []).
Proof.
  apply (extract_ends_in_rows_or_exit tidy plain_libs
           (windows_host (inl (SqliteFault "no such table: visits"))) 30 windows_world);
    reflexivity.
Defined.

(** X22.  On a system other than Windows, with the temporary path free or
    a regular file that the system lets be removed, a number of days beyond
    what [timedelta] admits is found only after the database was copied:
    the [OverflowError] is caught by the general handler, the extractor
    prints it after [Error:], removes the copy and raises
    [SystemExit(1)]. *)
Theorem extract_days_out_of_range s L h days w history_db c :
  get_chrome_history_path h = Ok history_db →
  fs w !! history_db = Some c →
  at_temp s = None →
  platform_system h ≠ "Windows" →
  removal_refused s = None →
  copy2 h = CopyDone →
  connect h = None →
  -2147483647 ≤ days < -999999999 ∨ 999999999 < days ≤ 2147483647 →
  let run := extract_chrome_history_in s L h days (start w) in
  run.1 = inl (SystemExit 1)
  ∧ printed (new_events w (world run.2))
    = [PyStr ("Error: days=" +:+ pretty days +:+ "; must have magnitude <= 999999999")]
  ∧ fs (world run.2) = delete (temp_copy h) (fs w)
  ∧ fs_events (new_events w (world run.2)) = [EvWrite (temp_copy h); EvRemove (temp_copy h)].
Proof.
  intros Hp Hc Hobs Hwin Href Hcopy Hconn Hdays. cbn zeta.
  rewrite (extract_in_run s L h days w history_db c Hobs Hp Hc), Hcopy, Hconn, Href.
  apply String.eqb_neq in Hwin. rewrite Hwin.
  unfold cutoff_timestamp.
  assert ((-999999999 <=? days) && (days <=? 999999999) = false) as ->.
  { apply andb_false_iff. destruct Hdays; [left|right]; apply Z.leb_gt; lia. }
  cbn [negb]. unfold Raise. cbn zeta. cbn [fst snd fs world exn_str diagnostic].
  rewrite new_events_app, delete_insert_eq. done.
Qed.

Lemma extract_days_out_of_range_witness :
  let h := linux_host (inr []) in
  let run := extract_chrome_history_in wal_mode plain_libs h 1000000000 (start browsed_world) in
  run.1 = inl (SystemExit 1)
  ∧ printed (new_events browsed_world (world run.2))
    = [PyStr ("Error: days=" +:+ pretty 1000000000 +:+ "; must have magnitude <= 999999999")]
  ∧ fs (world run.2) = delete (temp_copy h) (fs browsed_world)
  ∧ fs_events (new_events browsed_world (world run.2))
    = [EvWrite (temp_copy h); EvRemove (temp_copy h)].
Proof.
  apply (extract_days_out_of_range wal_mode plain_libs (linux_host (inr [])) 1000000000
           browsed_world linux_history "SQLite format 3");
    [reflexivity|reflexivity|reflexivity|discriminate|reflexivity|reflexivity|reflexivity
    |right; lia].
Defined.

(** However a run of the extractor ends, an exception that escapes it
    gives exit status 1. *)
Lemma fault_exn_is_Exception f : is_Exception (fault_exn f) = true.
Proof. by destruct f. Qed.

Lemma io_raises {A} (act : IO A) (P : exn → Prop) :
  (∀ w e w', act w = (inl e, w') → P e) →
  ∀ m e m', io act m = (inl e, m') → P e.
Proof.
  intros Hact m e m'. unfold io. destruct (act (world m)) as [[e0|a] w'] eqn:Hrun; [|done].
  intros [= <- _]. by eapply Hact.
Qed.

Lemma bind_raises {A B} (first : Run A) (rest : A → Run B) (P : exn → Prop) :
  (∀ m e m', first m = (inl e, m') → P e) →
  (∀ a m e m', rest a m = (inl e, m') → P e) →
  ∀ m e m', (first ≫= rest) m = (inl e, m') → P e.
Proof.
  intros Hfirst Hrest m e m'. unfold mbind, Run_bind.
  destruct (first m) as [[e0|a] m0] eqn:Hrun.
  - intros [= <- _]. by eapply Hfirst.
  - by apply Hrest.
Qed.

Lemma extract_in_status s L h days m :
  match (extract_chrome_history_in s L h days m).1 with
  | inl e => exit_status (inl (B:=unit) e) = 1
  | inr _ => True
  end.
Proof.
  assert (∀ e, is_Exception e = true → exit_status (inl (B:=unit) e) = 1) as Hstatus.
  { by intros []. }
  unfold extract_chrome_history_in.
  unfold mbind at 1, Run_bind at 1, io at 1, lift.
  destruct (get_chrome_history_path h) as [e|history_db] eqn:Hp.
  { cbn [fst]. unfold get_chrome_history_path in Hp. repeat case_match; by inversion Hp. }
  unfold mbind at 1, Run_bind at 1, io at 1, path_exists at 1.
  case_bool_decide; cbn [negb fst snd].
  2: { by cbv [mbind Run_bind io print emit sys_exit raise]. }
  match goal with |- context [try_except_in ?b ?hd] => set (body := b); set (handler := hd) end.
  match goal with |- context [try_finally_in _ ?cl] => set (cleanup := cl) end.
  assert (∀ m0 e m', body m0 = (inl e, m') → is_Exception e = true) as Hbody.
  { subst body. apply bind_raises.
    { unfold copy2_in. repeat case_match; apply io_raises; intros w0 e w'.
      all: unfold shutil_copy2, raise; repeat case_match; by intros [= <- _]. }
    intros _. apply bind_raises.
    { unfold connect_in. repeat case_match; try (apply io_raises; intros w0 e w'; by intros [= <- _]).
      all: apply bind_raises; [|by intros _ ? ? ? [=]].
      all: apply io_raises; intros w0 e w'; unfold sqlite3_connect, raise, mret, IO_ret;
        case_match; intros [= <- _]; apply fault_exn_is_Exception. }
    intros _. apply bind_raises.
    { apply io_raises. intros w0 e w'. unfold lift, cutoff_timestamp.
      repeat case_match; by intros [= <- _]. }
    intros cutoff. apply bind_raises.
    { unfold read_sql_query_in. apply io_raises. intros w0 e w'.
      repeat case_match; intros [= <- _]; try done; apply fault_exn_is_Exception. }
    intros df. apply bind_raises.
    { unfold close_in. apply bind_raises; [|by intros _ ? ? ? [=]].
      apply io_raises. intros w0 e w'. by repeat case_match. }
    intros _. apply io_raises. intros w0 e w'. unfold lift. intros [= Hadd _].
    by destruct (add_columns_in_raises s L df e Hadd) as (r & msg & _ & _ & ->). }
  assert (∀ m0 e m', cleanup m0 = (inl e, m') → is_Exception e = true) as Hcleanup.
  { subst cleanup. unfold exists_in, remove_in, mbind, Run_bind, io, path_exists, os_remove,
      emit, mret, Run_ret.
    intros m0 e m'. repeat case_match; simplify_eq/=; by intros [= <- _]. }
  unfold try_finally_in, try_except_in.
  destruct (body _) as [[e|rows] m1] eqn:Hrun.
  - pose proof (Hbody _ _ _ Hrun) as He. subst handler. cbn beta. rewrite He.
    destruct (is_sqlite3_Error e);
      cbv [mbind Run_bind io print emit sys_exit raise]; cbn [world held_open fst snd];
      destruct (cleanup _) as [[e'|[]] m2] eqn:Hcl; cbn [fst]; try done;
      apply Hstatus; by eapply Hcleanup.
  - destruct (cleanup _) as [[e'|[]] m2] eqn:Hcl; cbn [fst]; [|done].
    apply Hstatus. by eapply Hcleanup.
Qed.

Lemma main_in_run s L W h args w :
  main_in s L W h (Parsed args) (start w) =
    let extraction :=
      extract_chrome_history_in s L h (days args) (start (announced (days args) w)) in
    match extraction.1 with
    | inl e => (inl e, extraction.2)
    | inr df =>
        (inl unexpected_descending,
         mkMachine
           (mkWorld (fs (world extraction.2))
              (trace (world extraction.2)
                 ++ [EvPrint (PyStr ("Analyzing " +:+ pretty (length df)
                                       +:+ " browsing history entries..."))]))
           (held_open extraction.2))
    end.
Proof.
  unfold main_in, parse_args.
  unfold mbind at 1, Run_bind at 1, io at 1, mret at 1, IO_ret at 1.
  unfold mbind at 1, Run_bind at 1, io at 1, print at 1, emit at 1.
  cbn [world held_open start]. fold (announced (days args) w).
  fold (start (announced (days args) w)).
  unfold mbind at 1, Run_bind at 1. cbn zeta.
  destruct (extract_chrome_history_in s L h (days args) (start (announced (days args) w)))
    as [[e|df] m1]; [done|].
  cbn [fst snd].
  unfold mbind at 1, Run_bind at 1, io at 1, print at 1, emit at 1.
  unfold mbind at 1, Run_bind at 1, io at 1, lift. cbn [world held_open].
  by rewrite analyze_raises.
Qed.

Lemma main_in_ends s L W h args w :
  let run := main_in s L W h (Parsed args) (start w) in
  let extraction :=
    extract_chrome_history_in s L h (days args) (start (announced (days args) w)) in
  exit_status run.1 = 1
  ∧ fs (world run.2) = fs (world extraction.2)
  ∧ fs_events (new_events (world extraction.2) (world run.2)) = [].
Proof.
  cbn zeta. rewrite main_in_run. cbn zeta.
  pose proof (extract_in_status s L h (days args) (start (announced (days args) w))) as Hstatus.
  destruct (extract_chrome_history_in s L h (days args) (start (announced (days args) w)))
    as [[e|df] m1]; cbn [fst snd world fs] in *.
  - split; [done|split; [done|]]. unfold new_events. by rewrite drop_all.
  - split; [done|split; [done|]]. unfold new_events. cbn [trace]. by rewrite drop_app_length.
Qed.

(** X10.  No run of the analyzer script ends well, on any machine.  When
    [parse_args] exits (the help, a usage error) nothing else happens.
    Otherwise [main] ends with an exception that gives exit status 1 (after
    a successful extraction, the [TypeError] of line 130), and after the
    extractor it only prints: the files are those the extractor leaves, so
    line 276 never writes the prompt and [save_output] never runs. *)
Theorem main_always_fails s L W h cli w :
  let run := main_in s L W h cli (start w) in
  match cli with
  | Exits status => run = (inl (SystemExit status), start w)
  | Parsed args =>
      let extraction :=
        extract_chrome_history_in s L h (days args) (start (announced (days args) w)) in
      exit_status run.1 = 1
      ∧ fs (world run.2) = fs (world extraction.2)
      ∧ fs_events (new_events (world extraction.2) (world run.2)) = []
  end.
Proof.
  cbn zeta. destruct cli as [args|status]; [|done]. apply main_in_ends.
Qed.

(** X11.  When the formatting step of the daily orchestrator is this
    repository's analyzer script, started with the command line of line 33,
    the orchestrator always ends with [CalledProcessError] of status 1 right
    after the child process, whether or not analysis was requested: nothing
    is archived, and the files are those the extractor of the child
    leaves. *)
Theorem daily_summary_over_analyzer s L W ah (dh : daily_summary.Host) days analyze w :
  daily_summary.child dh (analyzer_cmd days) (fs w)
  = analyzer_child_in s L W ah (orchestrated days) (fs w) →
  let run := daily_summary.generate_daily_summary dh days analyze w in
  let extraction :=
    extract_chrome_history_in s L ah days (start (announced days (mkWorld (fs w) []))) in
  run.1 = inl (CalledProcessError 1)
  ∧ fs run.2 = fs (world extraction.2)
  ∧ new_events w run.2 = [EvSpawn (analyzer_cmd days)].
Proof.
  intros Hchild. cbn zeta.
  assert ((analyzer_child_in s L W ah (orchestrated days) (fs w)).1 = 1
          ∧ (analyzer_child_in s L W ah (orchestrated days) (fs w)).2
            = fs (world (extract_chrome_history_in s L ah days
                           (start (announced days (mkWorld (fs w) [])))).2))
    as [Hstatus Hfiles].
  { unfold analyzer_child_in, orchestrated. cbn [fst snd].
    pose proof (main_in_ends s L W ah (mkArgs days markdown) (mkWorld (fs w) [])) as Hmain.
    cbn zeta in Hmain. cbn [chrome_history_analyzer.days] in Hmain.
    by destruct Hmain as (? & ? & _). }
  rewrite (daily_summary_failed_child dh days analyze w) by (rewrite Hchild, Hstatus; lia).
  rewrite Hchild, Hstatus, Hfiles. cbn [fst snd fs]. split; [done|split; [done|]].
  unfold new_events. cbn [trace]. by rewrite drop_app_length.
Qed.

Lemma daily_summary_over_analyzer_witness :
  let ah := linux_host (inl (SqliteFault "no such table: visits")) in
  let run := daily_summary.generate_daily_summary linked_host 1 true browsed_world in
  let extraction :=
    extract_chrome_history_in wal_mode plain_libs ah 1
      (start (announced 1 (mkWorld (fs browsed_world) []))) in
  run.1 = inl (CalledProcessError 1)
  ∧ fs run.2 = fs (world extraction.2)
  ∧ new_events browsed_world run.2 = [EvSpawn (analyzer_cmd 1)].
Proof.
  apply (daily_summary_over_analyzer wal_mode plain_libs plain_writers
           (linux_host (inl (SqliteFault "no such table: visits"))) linked_host 1 true
           browsed_world).
  reflexivity.
Defined.

(** X24.  When the temporary path is free or a regular file that the
    system lets be removed, the copy, the connection and the query succeed
    and [urlparse] rejects the URL of some row, the [ValueError] of line 98
    is caught by the general handler: the extractor prints it after
    [Error:] and raises [SystemExit(1)] in place of returning the rows.  The
    connection was closed at line 89, so the copy is removed on Windows
    too, and so are the -wal and -shm files of a database in WAL mode. *)
Theorem extract_rejected_url s L h days w history_db c cutoff result r rejection :
  get_chrome_history_path h = Ok history_db →
  fs w !! history_db = Some c →
  at_temp s = None →
  removal_refused s = None →
  copy2 h = CopyDone →
  connect h = None →
  cutoff_timestamp h days = Ok cutoff →
  read_sql_query h c cutoff = inr result →
  r ∈ result →
  urlparse_error s (raw_url r) = Some rejection →
  let run := extract_chrome_history_in s L h days (start w) in
  run.1 = inl (SystemExit 1)
  ∧ (∃ r' msg, r' ∈ result ∧ urlparse_error s (raw_url r') = Some msg
               ∧ printed (new_events w (world run.2)) = [PyStr ("Error: " +:+ msg)])
  ∧ fs (world run.2) !! temp_copy h = None
  ∧ (is_Some (wal s c) →
     fs (world run.2) !! wal_file (temp_copy h) = None
     ∧ fs (world run.2) !! shm_file (temp_copy h) = None)
  ∧ held_open run.2 = false.
Proof.
  intros Hp Hc Hobs Href Hcopy Hconn Hcut Hquery Hin Hrej. cbn zeta.
  destruct (side_files_apart (temp_copy h)) as (Hwal & Hshm & Hws).
  rewrite (extract_in_run s L h days w history_db c Hobs Hp Hc), Hcopy, Hconn, Hcut, Href.
  unfold Ok. rewrite Hquery.
  destruct (add_columns_in_rejects s L result r rejection Hin Hrej) as [e Hadd].
  rewrite Hadd. unfold Raise.
  destruct (add_columns_in_raises s L result e Hadd) as (r' & msg & Hin' & Hmsg & ->).
  destruct (wal s c) as [[wal_content shm_content]|] eqn:Hwalc;
    cbn zeta; cbn [fst snd fs world held_open exn_str]; rewrite new_events_app.
  - split; [done|split; [by exists r', msg|split; [by rewrite lookup_delete_eq|split; [|done]]]].
    intros _. split.
    + rewrite lookup_delete_ne by done. rewrite lookup_delete_ne by done.
      by rewrite lookup_delete_eq.
    + rewrite lookup_delete_ne by done. by rewrite lookup_delete_eq.
  - split; [done|split; [by exists r', msg|split; [by rewrite lookup_delete_eq|split; [|done]]]].
    by intros [? [=]].
Qed.

Lemma extract_rejected_url_witness :
  let s := mkSurroundings None (λ _, Some ("wal", "shm")) (λ _, Some "Invalid IPv6 URL") None in
  let h := windows_host (inr [one_row]) in
  let run := extract_chrome_history_in s plain_libs h 30 (start windows_world) in
  run.1 = inl (SystemExit 1)
  ∧ (∃ r' msg, r' ∈ [one_row] ∧ urlparse_error s (raw_url r') = Some msg
               ∧ printed (new_events windows_world (world run.2)) = [PyStr ("Error: " +:+ msg)])
  ∧ fs (world run.2) !! temp_copy h = None
  ∧ (is_Some (wal s "SQLite format 3") →
     fs (world run.2) !! wal_file (temp_copy h) = None
     ∧ fs (world run.2) !! shm_file (temp_copy h) = None)
  ∧ held_open run.2 = false.
Proof.
  apply (extract_rejected_url
           (mkSurroundings None (λ _, Some ("wal", "shm")) (λ _, Some "Invalid IPv6 URL") None)
           plain_libs (windows_host (inr [one_row])) 30 windows_world windows_history
           "SQLite format 3" 13345948800000000 [one_row] one_row "Invalid IPv6 URL");
    [reflexivity|reflexivity|reflexivity|reflexivity|reflexivity|reflexivity|reflexivity
    |reflexivity|by left|reflexivity].
Defined.

(** X25.  The two fatal failures on any system, Windows and a refused
    removal included, as long as the temporary path is free or a regular
    file: when the history database is missing, or the query on its copy
    fails, the extractor prints the diagnostic, returns no result and ends
    with an exception that gives exit status 1 ([SystemExit(1)], or the
    [OSError] of a removal that the [finally] clause was refused), and no
    continuation of the caller runs. *)
Theorem extract_fatal_on_any_system s L h days w history_db diagnostics :
  get_chrome_history_path h = Ok history_db →
  fatal_cause h days w history_db diagnostics →
  at_temp s = None →
  let run := extract_chrome_history_in s L h days (start w) in
  (∃ e, run.1 = inl e)
  ∧ exit_status run.1 = 1
  ∧ printed (new_events w (world run.2)) = diagnostics
  ∧ ∀ B (k : list VisitRecord → Run B),
      ((extract_chrome_history_in s L h days ≫= k) (start w)).2 = run.2.
Proof.
  intros Hp Hcause Hobs. cbn zeta.
  assert (∃ e m, extract_chrome_history_in s L h days (start w) = (inl e, m)
                 ∧ exit_status (inl (B:=list VisitRecord) e) = 1
                 ∧ printed (new_events w (world m)) = diagnostics)
    as (e & m & Hrun & Hstatus & Hprinted).
  { destruct Hcause as [Hc|c cutoff f Hc Hcopy Hconn Hcut Hquery].
    - rewrite (extract_in_run_missing s L h days w history_db Hp Hc).
      eexists _, _. split; [reflexivity|]. split; [done|].
      cbn [world start]. by rewrite new_events_app.
    - rewrite (extract_in_run s L h days w history_db c Hobs Hp Hc), Hcopy, Hconn, Hcut.
      unfold Ok. rewrite Hquery. cbn zeta.
      destruct (String.eqb (platform_system h) "Windows");
        destruct (removal_refused s) as [refusal|];
        destruct (wal s c) as [[wal_content shm_content]|];
        eexists _, _; (split; [reflexivity|]); (split; [done|]);
        cbn [world fst snd]; by rewrite new_events_app. }
  rewrite Hrun. cbn [fst snd]. split; [by exists e|split; [done|split; [done|]]].
  intros B k. unfold mbind, Run_bind. by rewrite Hrun.
Qed.

Lemma extract_fatal_on_any_system_witness :
  let h := windows_host (inl (SqliteFault "no such table: visits")) in
  let run := extract_chrome_history_in wal_mode plain_libs h 30 (start windows_world) in
  (∃ e, run.1 = inl e)
  ∧ exit_status run.1 = 1
  ∧ printed (new_events windows_world (world run.2))
    = [PyStr "SQLite error: no such table: visits"]
  ∧ ∀ B (k : list VisitRecord → Run B),
      ((extract_chrome_history_in wal_mode plain_libs h 30 ≫= k) (start windows_world)).2 = run.2.
Proof.
  apply (extract_fatal_on_any_system wal_mode plain_libs
           (windows_host (inl (SqliteFault "no such table: visits"))) 30 windows_world
           windows_history).
  - reflexivity.
  - apply (query_failed _ _ _ _ "SQLite format 3" 13345948800000000
             (SqliteFault "no such table: visits")); reflexivity.
  - reflexivity.
Defined.

(** In tidy surroundings, off Windows, the run is the one of
    [extract_chrome_history]. *)
Lemma extract_in_tidy s L h days w :
  at_temp s = None →
  (∀ db, wal s db = None) →
  (∀ x, urlparse_error s x = None) →
  removal_refused s = None →
  platform_system h ≠ "Windows" →
  let run := extract_chrome_history_in s L h days (start w) in
  (run.1, world run.2) = extract_chrome_history L h days w.
Proof.
  intros Hobs Hwal Hurl Href Hwin. cbn zeta.
  destruct (get_chrome_history_path h) as [e|history_db] eqn:Hp.
  - rewrite (extract_in_run_unsupported s L h days (start w) e Hp).
    unfold extract_chrome_history, mbind, IO_bind, lift. by rewrite Hp.
  - destruct (fs w !! history_db) as [c|] eqn:Hc.
    + rewrite (extract_in_run s L h days w history_db c Hobs Hp Hc).
      rewrite (extract_run L h days w history_db c Hp Hc).
      apply String.eqb_neq in Hwin. rewrite Hwin, (Hwal c), Href.
      destruct (copy2 h) as [|[part|] msg]; [destruct (connect h) as [f|];
        [|destruct (cutoff_timestamp h days) as [e|cutoff];
          [|destruct (read_sql_query h c cutoff) as [f|df]]]| |];
        cbn zeta; cbn [fst snd world diagnostic]; rewrite ?delete_insert_eq; try done.
      * rewrite add_columns_in_accepts by (apply Forall_forall; intros; apply Hurl).
        unfold Ok. cbn [fst snd world]. rewrite ?delete_insert_eq. done.
      * unfold removal. case_bool_decide as Hold; cbn [fst snd world]; [done|].
        rewrite delete_id by (by apply eq_None_not_Some). done.
    + rewrite (extract_in_run_missing s L h days w history_db Hp Hc).
      by rewrite (extract_run_missing L h days w history_db Hp Hc).
Qed.
End refined.
